(** * idx-stock-fetcher: a shallow embedding of [lambda_function.py]

    The module fetches the daily stock summary of the Indonesia Stock
    Exchange over HTTP and upserts it into the table [stock_summary].
    This development embeds its three functions,

      - [generate_stock_id]
      - [get_db_connection]
      - [lambda_handler]

    as Rocq functions over an explicit program state, and proves the
    properties the specification states about them.

    Python values are an inductive type; dictionaries decoded from JSON are
    association lists; [os.environ] and the rows of the table are finite
    maps; exceptions are values carried by an outcome type; the module
    global [conn], the handler's local [cursor], the database and the
    sequence of calls made to the outside world are fields of the state. *)

From Stdlib Require Import ZArith Ascii String List Bool Lia.
From stdpp Require Import base option list strings pretty gmap fin_maps.

Set Warnings "-register-all".

Local Open Scope string_scope.
Local Open Scope Z_scope.

(* ===================================================================== *)
(** * Text *)
(* ===================================================================== *)

Module Text.

(** [s.zfill(w)]-style padding on the left with the character ["0"], as
    the two-digit fields of [strftime] and the fields of [isoformat]
    need it. *)
Fixpoint zeros (n : nat) : string :=
  match n with
  | O => ""
  | S n' => String "0"%char (zeros n')
  end.

Definition zfill (w : nat) (s : string) : string :=
  zeros (w - String.length s) +:+ s.

Definition is_digit (c : ascii) : bool :=
  let n := nat_of_ascii c in (48 <=? n)%nat && (n <=? 57)%nat.

Definition digit_value (c : ascii) : Z := Z.of_nat (nat_of_ascii c - 48).

(** The number a string of decimal digits denotes ([int(s)] on such a
    string); [None] when the string is empty or has another character. *)
Fixpoint decimal_go (acc : Z) (s : string) : option Z :=
  match s with
  | "" => Some acc
  | String c s' =>
      if is_digit c then decimal_go (10 * acc + digit_value c) s' else None
  end.

Definition decimal_value (s : string) : option Z :=
  match s with
  | "" => None
  | _ => decimal_go 0 s
  end.

Fixpoint all_digits (s : string) : bool :=
  match s with
  | "" => true
  | String c s' => is_digit c && all_digits s'
  end.

Fixpoint join (sep : string) (l : list string) : string :=
  match l with
  | [] => ""
  | [x] => x
  | x :: l' => x +:+ sep +:+ join sep l'
  end.

(** Texts are kept as their UTF-8 bytes.  A byte [10xxxxxx] continues
    the character begun before it; every other byte begins one. *)
Definition is_continuation (c : ascii) : bool :=
  let n := nat_of_ascii c in (128 <=? n)%nat && (n <? 192)%nat.

(** The text begins in the middle of a character. *)
Definition continues (s : string) : bool :=
  match s with
  | "" => false
  | String c _ => is_continuation c
  end.

(** The number of characters of a text. *)
Fixpoint char_count (s : string) : nat :=
  match s with
  | "" => O
  | String c s' => ((if is_continuation c then 0 else 1) + char_count s')%nat
  end.

(** The text has only ASCII characters. *)
Fixpoint is_ascii (s : string) : bool :=
  match s with
  | "" => true
  | String c s' => (nat_of_ascii c <? 128)%nat && is_ascii s'
  end.

Fixpoint contains_char (c : ascii) (s : string) : bool :=
  match s with
  | "" => false
  | String c' s' => if Ascii.eqb c c' then true else contains_char c s'
  end.

End Text.

(* ===================================================================== *)
(** * Calendar dates *)
(* ===================================================================== *)

(** A [datetime.date]: the class only builds objects with
    [1 <= year <= 9999], a month in [1..12] and a day the month has, which
    is [valid_date]. *)
Record date : Type := Date { year : Z; month : Z; day : Z }.

Definition date_eqb (a b : date) : bool :=
  (year a =? year b) && (month a =? month b) && (day a =? day b).

Definition is_leap (y : Z) : bool :=
  (y mod 4 =? 0) && (negb (y mod 100 =? 0) || (y mod 400 =? 0)).

Definition days_in_month (y m : Z) : Z :=
  if m =? 2 then (if is_leap y then 29 else 28)
  else if (m =? 4) || (m =? 6) || (m =? 9) || (m =? 11) then 30
  else 31.

Definition valid_date (d : date) : bool :=
  (1 <=? year d) && (year d <=? 9999) &&
  (1 <=? month d) && (month d <=? 12) &&
  (1 <=? day d) && (day d <=? days_in_month (year d) (month d)).

(** [d.isoformat()], which is also [str(d)]: the year zero-padded to
    four digits, month and day to two. *)
Definition isoformat (d : date) : string :=
  Text.zfill 4 (pretty (year d)) +:+ "-" +:+
  Text.zfill 2 (pretty (month d)) +:+ "-" +:+
  Text.zfill 2 (pretty (day d)).

(** [date_obj.strftime('%Y-%m-%d')].  The interpreter hands the format
    to the C library of the platform; the function runs on Linux, where
    glibc writes [%m] and [%d] zero-padded to two digits and [%Y] as the
    plain decimal number of the year, without padding: four digits from
    the year 1000 on, fewer below. *)
Definition strftime_Ymd (d : date) : string :=
  pretty (year d) +:+ "-" +:+
  Text.zfill 2 (pretty (month d)) +:+ "-" +:+
  Text.zfill 2 (pretty (day d)).

(* ===================================================================== *)
(** * Python values *)
(* ===================================================================== *)

(** The values the program handles: what [response.json()] decodes
    ([None], booleans, integers, floats, strings, lists and dictionaries
    with string keys) and the [date] objects the handler builds.  Nothing
    here computes with a float; a float is kept by its [repr], the
    shortest decimal text that reads back as the same double, which is
    all the program can observe of it (its text and whether it is zero). *)
Inductive pyval : Type :=
  | PNone
  | PBool (b : bool)
  | PInt (n : Z)
  | PFloat (repr : string)
  | PStr (s : string)
  | PDate (d : date)
  | PList (items : list pyval)
  | PDict (entries : list (string * pyval)).

(** [bool(v)], the test behind [if v], [not v] and [v or None]. *)
Definition truthy (v : pyval) : bool :=
  match v with
  | PNone => false
  | PBool b => b
  | PInt n => negb (n =? 0)
  | PFloat r => negb (String.eqb r "0.0" || String.eqb r "-0.0")
  | PStr s => negb (String.eqb s "")
  | PDate _ => true
  | PList l => match l with [] => false | _ => true end
  | PDict l => match l with [] => false | _ => true end
  end.

(** [a or b] *)
Definition py_or (a b : pyval) : pyval := if truthy a then a else b.

(** [type(v).__name__], which the interpreter's error messages quote. *)
Definition type_name (v : pyval) : string :=
  match v with
  | PNone => "NoneType"
  | PBool _ => "bool"
  | PInt _ => "int"
  | PFloat _ => "float"
  | PStr _ => "str"
  | PDate _ => "datetime.date"
  | PList _ => "list"
  | PDict _ => "dict"
  end.

Module Repr.

Definition hex_digit (n : nat) : ascii :=
  nth n ["0"; "1"; "2"; "3"; "4"; "5"; "6"; "7";
         "8"; "9"; "a"; "b"; "c"; "d"; "e"; "f"]%char "0"%char.

(** One character of [repr(str)], written between [quote]s. *)
Definition escape_char (quote c : ascii) : string :=
  let n := nat_of_ascii c in
  if Ascii.eqb c quote || Ascii.eqb c "\"%char then String "\"%char (String c "")
  else if (n =? 9)%nat then "\t"
  else if (n =? 10)%nat then "\n"
  else if (n =? 13)%nat then "\r"
  else if (n <? 32)%nat || (n =? 127)%nat then
    "\x" +:+ String (hex_digit (n / 16)) (String (hex_digit (n mod 16)) "")
  else String c "".

Fixpoint escape (quote : ascii) (s : string) : string :=
  match s with
  | "" => ""
  | String c s' => escape_char quote c +:+ escape quote s'
  end.

(** The double quote character. *)
Definition dquote : ascii := ascii_of_nat 34.

(** [repr(s)] of a string: single quotes, unless the text has a single
    quote and no double quote. *)
Definition repr_str (s : string) : string :=
  let quote :=
    if Text.contains_char "'"%char s && negb (Text.contains_char dquote s)
    then dquote else "'"%char in
  String quote (escape quote s +:+ String quote "").

End Repr.

(** [repr(v)] *)
Fixpoint py_repr (v : pyval) : string :=
  match v with
  | PNone => "None"
  | PBool true => "True"
  | PBool false => "False"
  | PInt n => pretty n
  | PFloat r => r
  | PStr s => Repr.repr_str s
  | PDate d =>
      "datetime.date(" +:+ pretty (year d) +:+ ", " +:+ pretty (month d)
        +:+ ", " +:+ pretty (day d) +:+ ")"
  | PList l => "[" +:+ Text.join ", " (map py_repr l) +:+ "]"
  | PDict l =>
      "{" +:+ Text.join ", "
                (map (fun kv => Repr.repr_str (fst kv) +:+ ": " +:+ py_repr (snd kv)) l)
          +:+ "}"
  end.

(** [str(v)], which is also what an f-string field [{v}] inserts. *)
Definition py_str (v : pyval) : string :=
  match v with
  | PStr s => s
  | PDate d => isoformat d
  | _ => py_repr v
  end.

(** Whether two values are the same value, constructor by constructor. *)
Fixpoint pyval_eqb (a b : pyval) : bool :=
  match a, b with
  | PNone, PNone => true
  | PBool x, PBool y => Bool.eqb x y
  | PInt x, PInt y => x =? y
  | PFloat x, PFloat y => String.eqb x y
  | PStr x, PStr y => String.eqb x y
  | PDate x, PDate y => date_eqb x y
  | PList x, PList y =>
      (fix go (x y : list pyval) : bool :=
         match x, y with
         | [], [] => true
         | u :: x', v :: y' => pyval_eqb u v && go x' y'
         | _, _ => false
         end) x y
  | PDict x, PDict y =>
      (fix go (x y : list (string * pyval)) : bool :=
         match x, y with
         | [], [] => true
         | (k, u) :: x', (k', v) :: y' => String.eqb k k' && pyval_eqb u v && go x' y'
         | _, _ => false
         end) x y
  | _, _ => false
  end.

(** The entry of a dictionary under a key. *)
Fixpoint dict_lookup (k : string) (entries : list (string * pyval)) : option pyval :=
  match entries with
  | [] => None
  | (k', v) :: rest => if String.eqb k k' then Some v else dict_lookup k rest
  end.

(* ===================================================================== *)
(** * Exceptions *)
(* ===================================================================== *)

(** The exception classes the handler tells apart.  [HTTPError] carries
    [e.response.status_code].  [InterfaceError] is [psycopg2]'s, a
    subclass of [psycopg2.Error] but not of [DatabaseError].
    [OtherException] stands for any further subclass of [Exception],
    [KeyboardInterrupt] for a [BaseException] that is not an
    [Exception]. *)
Inductive exn_class : Type :=
  | Timeout
  | HTTPError (status_code : Z)
  | RequestException
  | DatabaseError
  | InterfaceError
  | KeyError
  | ValueError
  | TypeError
  | AttributeError
  | OtherException
  | KeyboardInterrupt.

(** An exception object: its class and [str(e)]. *)
Record exn : Type := Exn { exn_class_of : exn_class; exn_str : string }.

(** [isinstance(e, C)] for the classes named in the [except] clauses:
    [Timeout] and [HTTPError] derive from [RequestException], and all but
    [KeyboardInterrupt] from [Exception]. *)
Definition is_Timeout (e : exn) : bool :=
  match exn_class_of e with Timeout => true | _ => false end.
Definition is_HTTPError (e : exn) : bool :=
  match exn_class_of e with HTTPError _ => true | _ => false end.
Definition is_RequestException (e : exn) : bool :=
  match exn_class_of e with
  | Timeout | HTTPError _ | RequestException => true
  | _ => false
  end.
Definition is_DatabaseError (e : exn) : bool :=
  match exn_class_of e with DatabaseError => true | _ => false end.
Definition is_ValueError (e : exn) : bool :=
  match exn_class_of e with ValueError => true | _ => false end.
Definition is_KeyError (e : exn) : bool :=
  match exn_class_of e with KeyError => true | _ => false end.
Definition is_Exception (e : exn) : bool :=
  match exn_class_of e with KeyboardInterrupt => false | _ => true end.

(** What a Python expression or call comes to. *)
Inductive outcome (A : Type) : Type :=
  | Returns (a : A)
  | Raises (e : exn).
Arguments Returns {A} a.
Arguments Raises {A} e.

(* ===================================================================== *)
(** * [generate_stock_id] *)
(* ===================================================================== *)

(** [return f"{stock_code}_{date_obj.strftime('%Y-%m-%d')}"] *)
Definition generate_stock_id (stock_code : pyval) (date_obj : date) : string :=
  py_str stock_code +:+ "_" +:+ strftime_Ymd date_obj.

(* ===================================================================== *)
(** * Expressions that may raise *)
(* ===================================================================== *)

Definition obind {A B : Type} (m : outcome A) (k : A -> outcome B) : outcome B :=
  match m with
  | Returns a => k a
  | Raises e => Raises e
  end.

Notation "'let*' x ':=' m 'in' k" := (obind m (fun x => k))
  (at level 10, x name, m at level 100, k at level 200).

(** [obj[key]] with a string key. *)
Definition py_getitem (obj : pyval) (key : string) : outcome pyval :=
  match obj with
  | PDict entries =>
      match dict_lookup key entries with
      | Some v => Returns v
      | None => Raises (Exn KeyError (Repr.repr_str key))
      end
  | PList _ =>
      Raises (Exn TypeError "list indices must be integers or slices, not str")
  | PStr _ =>
      Raises (Exn TypeError "string indices must be integers, not 'str'")
  | _ =>
      Raises (Exn TypeError ("'" +:+ type_name obj +:+ "' object is not subscriptable"))
  end.

(** [obj.get(key, default)]; only dictionaries have the method. *)
Definition py_get (obj : pyval) (key : string) (default : pyval) : outcome pyval :=
  match obj with
  | PDict entries =>
      Returns (match dict_lookup key entries with Some v => v | None => default end)
  | _ =>
      Raises (Exn AttributeError
                ("'" +:+ type_name obj +:+ "' object has no attribute 'get'"))
  end.

(** [len(obj)] *)
Definition py_len (obj : pyval) : outcome Z :=
  match obj with
  | PList l => Returns (Z.of_nat (length l))
  | PDict l => Returns (Z.of_nat (length l))
  | PStr s => Returns (Z.of_nat (Text.char_count s))
  | _ =>
      Raises (Exn TypeError ("object of type '" +:+ type_name obj +:+ "' has no len()"))
  end.

(** The characters of a text, each with the bytes that continue it. *)
Fixpoint chars (s : string) : list pyval :=
  match s with
  | "" => []
  | String c s' =>
      let tail := chars s' in
      if Text.continues s' then
        match tail with
        | PStr first :: rest => PStr (String c first) :: rest
        | _ => PStr (String c "") :: tail
        end
      else PStr (String c "") :: tail
  end.

(** The items [for item in obj] runs over: the elements of a list, the
    characters of a string, the keys of a dictionary. *)
Definition py_iter (obj : pyval) : outcome (list pyval) :=
  match obj with
  | PList l => Returns l
  | PDict l => Returns (map (fun kv => PStr (fst kv)) l)
  | PStr s => Returns (chars s)
  | _ =>
      Raises (Exn TypeError ("'" +:+ type_name obj +:+ "' object is not iterable"))
  end.

(* ===================================================================== *)
(** * [datetime.strptime(s, "%Y-%m-%dT%H:%M:%S")] *)
(* ===================================================================== *)

Record datetime : Type :=
  Datetime { dt_date : date; hour : Z; minute : Z; second : Z }.

Module Strptime.

Definition digit (c : ascii) : option Z :=
  if Text.is_digit c then Some (Text.digit_value c) else None.

(** A numeric directive reads two digits when they form one of its
    two-digit alternatives ([two]), else one digit when [one] allows it;
    the rest of the text follows. *)
Definition field (two : Z -> Z -> bool) (one : Z -> bool) (s : string)
  : option (Z * string) :=
  match s with
  | String c1 rest =>
      match digit c1 with
      | Some d1 =>
          let single := if one d1 then Some (d1, rest) else None in
          match rest with
          | String c2 rest' =>
              match digit c2 with
              | Some d2 => if two d1 d2 then Some (10 * d1 + d2, rest') else single
              | None => single
              end
          | "" => single
          end
      | None => None
      end
  | "" => None
  end.

(** [%Y]: exactly four digits. *)
Definition field_Y (s : string) : option (Z * string) :=
  match s with
  | String a (String b (String c (String d rest))) =>
      match digit a, digit b, digit c, digit d with
      | Some x, Some y, Some z, Some u => Some (1000 * x + 100 * y + 10 * z + u, rest)
      | _, _, _, _ => None
      end
  | _ => None
  end.

(** [%m]: [1[0-2]|0[1-9]|[1-9]] *)
Definition field_m : string -> option (Z * string) :=
  field (fun a b => ((a =? 1) && (b <=? 2)) || ((a =? 0) && (1 <=? b)))
        (fun a => 1 <=? a).

(** [%d]: [3[0-1]|[1-2]\d|0[1-9]|[1-9]| [1-9]] *)
Definition field_d (s : string) : option (Z * string) :=
  match s with
  | String " "%char (String c rest) =>
      match digit c with
      | Some d => if 1 <=? d then Some (d, rest) else None
      | None => None
      end
  | _ =>
      field (fun a b => ((a =? 3) && (b <=? 1)) || ((1 <=? a) && (a <=? 2))
                        || ((a =? 0) && (1 <=? b)))
            (fun a => 1 <=? a) s
  end.

(** [%H]: [2[0-3]|[0-1]\d|\d] *)
Definition field_H : string -> option (Z * string) :=
  field (fun a b => ((a =? 2) && (b <=? 3)) || (a <=? 1)) (fun _ => true).

(** [%M]: [[0-5]\d|\d] *)
Definition field_M : string -> option (Z * string) :=
  field (fun a _ => a <=? 5) (fun _ => true).

(** [%S]: [6[0-1]|[0-5]\d|\d] *)
Definition field_S : string -> option (Z * string) :=
  field (fun a b => ((a =? 6) && (b <=? 1)) || (a <=? 5)) (fun _ => true).

(** A literal character of the format; the pattern is compiled with
    [re.IGNORECASE], so the letter [T] also matches [t]. *)
Definition literal (c : ascii) (s : string) : option string :=
  match s with
  | String c' rest =>
      if Ascii.eqb c c' || (Ascii.eqb c "T"%char && Ascii.eqb c' "t"%char)
      then Some rest else None
  | "" => None
  end.

(** The match of the whole pattern at the start of the text: the six
    numbers and what is left over. *)
Definition match_format (s : string) : option (Z * Z * Z * Z * Z * Z * string) :=
  match field_Y s with None => None | Some (Y, s) =>
  match literal "-"%char s with None => None | Some s =>
  match field_m s with None => None | Some (m, s) =>
  match literal "-"%char s with None => None | Some s =>
  match field_d s with None => None | Some (d, s) =>
  match literal "T"%char s with None => None | Some s =>
  match field_H s with None => None | Some (H, s) =>
  match literal ":"%char s with None => None | Some s =>
  match field_M s with None => None | Some (M, s) =>
  match literal ":"%char s with None => None | Some s =>
  match field_S s with None => None | Some (sec, s) =>
    Some (Y, m, d, H, M, sec, s)
  end end end end end end end end end end end.

Definition format : string := "%Y-%m-%dT%H:%M:%S".

End Strptime.

(** [datetime.strptime(v, "%Y-%m-%dT%H:%M:%S")]: a [TypeError] when [v] is
    not a string; a [ValueError] when the text does not match the format,
    when text is left over, or when the numbers are not a date and time
    of day; the [datetime] otherwise.  The digits read are the ASCII
    digits, which are all the digits an ASCII text has. *)
Definition strptime (v : pyval) : outcome datetime :=
  match v with
  | PStr s =>
      match Strptime.match_format s with
      | None =>
          Raises (Exn ValueError
                    ("time data " +:+ Repr.repr_str s +:+ " does not match format "
                       +:+ Repr.repr_str Strptime.format))
      | Some (Y, m, d, H, M, sec, rest) =>
          if negb (String.eqb rest "") then
            Raises (Exn ValueError ("unconverted data remains: " +:+ rest))
          else if negb (valid_date (Date Y m d)) then
            Raises (Exn ValueError
                      (if Y =? 0 then "year 0 is out of range"
                       else "day is out of range for month"))
          else if 59 <? sec then
            Raises (Exn ValueError "second must be in 0..59")
          else Returns (Datetime (Date Y m d) H M sec)
      end
  | PNone => Raises (Exn TypeError "strptime() argument 1 must be str, not None")
  | _ =>
      Raises (Exn TypeError
                ("strptime() argument 1 must be str, not " +:+ type_name v))
  end.

(* ===================================================================== *)
(** * Normalising one feed item *)
(* ===================================================================== *)

(** The body of the [try] inside the loop of [lambda_handler]: the tuple
    of twenty-nine parameters appended to [batch_data], or the exception
    one of its subscripts or calls raises.  The elements of the tuple are
    evaluated left to right. *)
Definition normalize_item (item : pyval) : outcome (list pyval) :=
  let* date_str := py_getitem item "Date" in
  let* parsed := strptime date_str in
  let date_obj := dt_date parsed in
  let* stock_code := py_getitem item "StockCode" in
  let id_stock := generate_stock_id stock_code date_obj in
  let* stock_name := py_getitem item "StockName" in
  let* remarks := py_get item "Remarks" PNone in
  let* previous := py_get item "Previous" (PInt 0) in
  let* open_price := py_get item "OpenPrice" (PInt 0) in
  let* first_trade := py_get item "FirstTrade" (PInt 0) in
  let* high := py_get item "High" (PInt 0) in
  let* low := py_get item "Low" (PInt 0) in
  let* close := py_get item "Close" (PInt 0) in
  let* change := py_get item "Change" (PInt 0) in
  let* volume := py_get item "Volume" (PInt 0) in
  let* value := py_get item "Value" (PInt 0) in
  let* frequency := py_get item "Frequency" (PInt 0) in
  let* index_individual := py_get item "IndexIndividual" (PInt 0) in
  let* offer := py_get item "Offer" (PInt 0) in
  let* offer_volume := py_get item "OfferVolume" (PInt 0) in
  let* bid := py_get item "Bid" (PInt 0) in
  let* bid_volume := py_get item "BidVolume" (PInt 0) in
  let* listed_shares := py_get item "ListedShares" (PInt 0) in
  let* tradeable_shares := py_get item "TradebleShares" (PInt 0) in
  let* weight_for_index := py_get item "WeightForIndex" (PInt 0) in
  let* foreign_sell := py_get item "ForeignSell" (PInt 0) in
  let* foreign_buy := py_get item "ForeignBuy" (PInt 0) in
  let* delisting_date := py_get item "DelistingDate" PNone in
  let* non_regular_volume := py_get item "NonRegularVolume" (PInt 0) in
  let* non_regular_value := py_get item "NonRegularValue" (PInt 0) in
  let* non_regular_frequency := py_get item "NonRegularFrequency" (PInt 0) in
  Returns
    [ PStr id_stock;
      stock_code;
      PDate date_obj;
      stock_name;
      py_or remarks PNone;
      previous;
      open_price;
      first_trade;
      high;
      low;
      close;
      change;
      volume;
      value;
      frequency;
      index_individual;
      offer;
      offer_volume;
      bid;
      bid_volume;
      listed_shares;
      tradeable_shares;
      weight_for_index;
      foreign_sell;
      foreign_buy;
      py_or delisting_date PNone;
      non_regular_volume;
      non_regular_value;
      non_regular_frequency ].

(* ===================================================================== *)
(** * The table and the upsert statement *)
(* ===================================================================== *)

(** A row of [stock_summary]: column name to value.  A column an INSERT
    does not name is left to the table's own default and is absent here. *)
Abbreviation row := (gmap string pyval).
Abbreviation table := (list (gmap string pyval)).

(** The right-hand side of an assignment in [DO UPDATE SET]. *)
Inductive set_expr : Type :=
  | EXCLUDED (column : string)
  | CURRENT_TIMESTAMP.

(** [INSERT INTO t (columns) VALUES (%s, ...) ON CONFLICT (target)
    DO UPDATE SET assignments] *)
Record upsert_statement : Type := Upsert {
  into : string;
  columns : list string;
  conflict_target : list string;
  do_update_set : list (string * set_expr)
}.

(** The statement text of [lambda_handler], clause by clause. *)
Definition insert_query : upsert_statement :=
  {| into := "stock_summary";
     columns :=
       [ "id_stock"; "stock_code"; "date"; "stock_name"; "remarks"; "previous";
         "open_price"; "first_trade"; "high"; "low"; "close"; "change";
         "volume"; "value"; "frequency"; "index_individual";
         "offer"; "offer_volume"; "bid"; "bid_volume";
         "listed_shares"; "tradeable_shares"; "weight_for_index";
         "foreign_sell"; "foreign_buy"; "delisting_date";
         "non_regular_volume"; "non_regular_value"; "non_regular_frequency" ];
     conflict_target := [ "stock_code"; "date" ];
     do_update_set :=
       [ ("id_stock", EXCLUDED "id_stock");
         ("stock_name", EXCLUDED "stock_name");
         ("remarks", EXCLUDED "remarks");
         ("previous", EXCLUDED "previous");
         ("open_price", EXCLUDED "open_price");
         ("first_trade", EXCLUDED "first_trade");
         ("high", EXCLUDED "high");
         ("low", EXCLUDED "low");
         ("close", EXCLUDED "close");
         ("change", EXCLUDED "change");
         ("volume", EXCLUDED "volume");
         ("value", EXCLUDED "value");
         ("frequency", EXCLUDED "frequency");
         ("index_individual", EXCLUDED "index_individual");
         ("offer", EXCLUDED "offer");
         ("offer_volume", EXCLUDED "offer_volume");
         ("bid", EXCLUDED "bid");
         ("bid_volume", EXCLUDED "bid_volume");
         ("foreign_sell", EXCLUDED "foreign_sell");
         ("foreign_buy", EXCLUDED "foreign_buy");
         ("updated_at", CURRENT_TIMESTAMP) ] |}.

Module Sql.

(** The row proposed for insertion: the i-th parameter under the i-th
    column. *)
Fixpoint proposed (cols : list string) (params : list pyval) : row :=
  match cols, params with
  | c :: cols', v :: params' => <[c := v]> (proposed cols' params')
  | _, _ => ∅
  end.

(** Equality as a unique index sees it: a NULL equals nothing. *)
Definition key_eqb (a b : option pyval) : bool :=
  match a, b with
  | Some PNone, _ | _, Some PNone => false
  | Some x, Some y => pyval_eqb x y
  | _, _ => false
  end.

(** The proposed row violates the unique index on [target] against an
    existing row. *)
Definition conflicts (target : list string) (new old : row) : bool :=
  forallb (fun c => key_eqb (new !! c) (old !! c)) target.

Definition eval (now : pyval) (excluded : row) (e : set_expr) : pyval :=
  match e with
  | EXCLUDED c => default PNone (excluded !! c)
  | CURRENT_TIMESTAMP => now
  end.

(** [DO UPDATE SET]: the named columns of the existing row are assigned,
    every other column keeps its value. *)
Fixpoint update (now : pyval) (excluded : row)
    (assignments : list (string * set_expr)) (existing : row) : row :=
  match assignments with
  | [] => existing
  | (c, e) :: rest => <[c := eval now excluded e]> (update now excluded rest existing)
  end.

(** One execution of the statement with one tuple of parameters. *)
Fixpoint upsert (q : upsert_statement) (now : pyval) (new : row) (t : table) : table :=
  match t with
  | [] => [new]
  | old :: t' =>
      if conflicts (conflict_target q) new old
      then update now new (do_update_set q) old :: t'
      else old :: upsert q now new t'
  end.

Definition execute (q : upsert_statement) (now : pyval) (params : list pyval)
    (t : table) : table :=
  upsert q now (proposed (columns q) params) t.

End Sql.

(* ===================================================================== *)
(** * The outside world and the program state *)
(* ===================================================================== *)

(** What [requests.get] hands back. *)
Record http_response : Type := HttpResponse {
  resp_status_code : Z;
  resp_reason : string;
  resp_url : string;
  resp_json : outcome pyval          (* what [response.json()] comes to *)
}.

(** One invocation's share of the outside world: the environment
    variables, and how each call that leaves the process turns out.
    [execute_fails i] is the error, if any, the server answers to the
    statement run for the i-th tuple of a batch.  [connection_lost]
    tells whether the call on the connection that fails, if one does,
    fails because the connection is gone, which leaves the connection
    object closed. *)
Record world : Type := World {
  environ : gmap string string;
  http_get : outcome http_response;
  connect_fails : option exn;
  cursor_fails : option exn;
  execute_fails : nat -> option exn;
  commit_fails : option exn;
  connection_lost : bool;
  current_timestamp : pyval;         (* the server's CURRENT_TIMESTAMP *)
  datetime_now : string              (* [str(datetime.now())] *)
}.

(** A [psycopg2] connection object, with its [closed] attribute. *)
Record connection : Type := Connection { closed : bool }.

(** A cursor object. *)
Record cursor_obj : Type := Cursor { cursor_closed : bool }.

(** The text [json.dumps(obj)], kept by the object it encodes. *)
Inductive json_text : Type := json_dumps (obj : pyval).

(** The dictionary the handler returns. *)
Record response : Type := Response { statusCode : Z; body : json_text }.

(** The calls that reach outside the interpreter, in the order made. *)
Inductive call : Type :=
  | EvPrint (line : string)
  | EvHttpGet (url : string) (headers : list (string * string)) (timeout : Z)
  | EvConnect (kwargs : list (string * pyval))
  | EvCursor
  | EvExecutemany (batch : list (list pyval))
  | EvCommit
  | EvRollback
  | EvCursorClose.

(** The state an invocation runs in: the module global [conn]; the local
    variable [cursor] of [lambda_handler]; the committed table and, while
    a transaction is open on the connection, its uncommitted copy; the
    log of calls, most recent first. *)
Record state : Type := State {
  conn : option connection;
  cursor : option cursor_obj;
  committed : table;
  pending : option table;
  log : list call
}.

Definition set_conn (c : option connection) (st : state) : state :=
  {| conn := c; cursor := cursor st; committed := committed st;
     pending := pending st; log := log st |}.
Definition set_cursor (c : option cursor_obj) (st : state) : state :=
  {| conn := conn st; cursor := c; committed := committed st;
     pending := pending st; log := log st |}.
Definition set_committed (t : table) (st : state) : state :=
  {| conn := conn st; cursor := cursor st; committed := t;
     pending := pending st; log := log st |}.
Definition set_pending (t : option table) (st : state) : state :=
  {| conn := conn st; cursor := cursor st; committed := committed st;
     pending := t; log := log st |}.
Definition emit (e : call) (st : state) : state :=
  {| conn := conn st; cursor := cursor st; committed := committed st;
     pending := pending st; log := e :: log st |}.

Definition emits (evs : list call) (st : state) : state :=
  {| conn := conn st; cursor := cursor st; committed := committed st;
     pending := pending st; log := (evs ++ log st)%list |}.

(** The table as the open transaction sees it. *)
Definition view (st : state) : table := default (committed st) (pending st).

(* ===================================================================== *)
(** * Statements: state and exceptions *)
(* ===================================================================== *)

Definition M (A : Type) : Type := state -> outcome A * state.

Definition ret {A : Type} (a : A) : M A := fun st => (Returns a, st).
Definition raise {A : Type} (e : exn) : M A := fun st => (Raises e, st).
Definition bind {A B : Type} (m : M A) (k : A -> M B) : M B :=
  fun st =>
    match m st with
    | (Returns a, st') => k a st'
    | (Raises e, st') => (Raises e, st')
    end.
Definition lift {A : Type} (o : outcome A) : M A := fun st => (o, st).
Definition gets {A : Type} (f : state -> A) : M A := fun st => (Returns (f st), st).
Definition modify (f : state -> state) : M unit := fun st => (Returns tt, f st).

Notation "x <- m ;; k" := (bind m (fun x => k))
  (at level 100, m at next level, right associativity).
Notation "m ;; k" := (bind m (fun _ => k))
  (at level 100, right associativity).

(** [try: m except ... as e: handler e]; a handler that names no clause
    for [e] re-raises it. *)
Definition try_except {A : Type} (m : M A) (handler : exn -> M A) : M A :=
  fun st =>
    match m st with
    | (Returns a, st') => (Returns a, st')
    | (Raises e, st') => handler e st'
    end.

(** [try: m finally: fin]: [fin] runs however [m] ends, and the outcome
    of [m] stands unless [fin] itself raises. *)
Definition try_finally {A : Type} (m : M A) (fin : M unit) : M A :=
  fun st =>
    match m st with
    | (r, st') =>
        match fin st' with
        | (Returns _, st'') => (r, st'')
        | (Raises e, st'') => (Raises e, st'')
        end
    end.

(** [print(line)], for a line that standard output can encode: the line
    is recorded and the call returns. *)
Definition print (line : string) : M unit := modify (emit (EvPrint line)).

(* ===================================================================== *)
(** * The calls into [requests] and [psycopg2] *)
(* ===================================================================== *)

(** [requests.get(url, headers=headers, timeout=timeout)] *)
Definition requests_get (w : world) (url : string)
    (headers : list (string * string)) (timeout : Z) : M http_response :=
  modify (emit (EvHttpGet url headers timeout)) ;;
  lift (http_get w).

(** [response.raise_for_status()]: an [HTTPError] for a 4xx or 5xx
    status. *)
Definition raise_for_status (r : http_response) : outcome unit :=
  let code := resp_status_code r in
  if (400 <=? code) && (code <? 500) then
    Raises (Exn (HTTPError code)
              (pretty code +:+ " Client Error: " +:+ resp_reason r
                 +:+ " for url: " +:+ resp_url r))
  else if (500 <=? code) && (code <? 600) then
    Raises (Exn (HTTPError code)
              (pretty code +:+ " Server Error: " +:+ resp_reason r
                 +:+ " for url: " +:+ resp_url r))
  else Returns tt.

(** [os.environ[key]] *)
Definition environ_getitem (w : world) (key : string) : outcome string :=
  match environ w !! key with
  | Some v => Returns v
  | None => Raises (Exn KeyError (Repr.repr_str key))
  end.

(** [os.environ.get(key, default)] *)
Definition environ_get (w : world) (key default : string) : string :=
  match environ w !! key with
  | Some v => v
  | None => default
  end.

(** [psycopg2.connect(host=..., ...)]: a fresh connection, on which no
    transaction is open, or the error the attempt ends in. *)
Definition psycopg2_connect (w : world) (kwargs : list (string * pyval))
  : M connection :=
  modify (emit (EvConnect kwargs)) ;;
  match connect_fails w with
  | Some e => raise e
  | None => modify (set_pending None) ;; ret (Connection false)
  end.

(** What a call on the connection that fails because the connection is
    gone leaves behind: the connection object, which [conn] holds, is
    closed, and the transaction is no more. *)
Definition lose_connection (st : state) : state :=
  set_pending None
    (set_conn (match conn st with
               | Some _ => Some (Connection true)
               | None => None
               end) st).

(** A call on the connection fails with [e]. *)
Definition failed {A : Type} (w : world) (e : exn) : M A :=
  (if connection_lost w then modify lose_connection else ret tt) ;;
  raise e.

(** [connection.cursor()] *)
Definition connection_cursor (w : world) (connection : option connection)
  : M cursor_obj :=
  match connection with
  | None => raise (Exn AttributeError "'NoneType' object has no attribute 'cursor'")
  | Some _ =>
      modify (emit EvCursor) ;;
      match cursor_fails w with
      | Some e => failed w e
      | None => ret (Cursor false)
      end
  end.

(** The statements of one [executemany], tuple by tuple, inside the
    transaction: the first one the server refuses ends the call, with the
    earlier ones applied to the uncommitted copy. *)
Fixpoint run_batch (w : world) (q : upsert_statement) (i : nat)
    (batch : list (list pyval)) (t : table) : outcome unit * table :=
  match batch with
  | [] => (Returns tt, t)
  | params :: rest =>
      match execute_fails w i with
      | Some e => (Raises e, t)
      | None => run_batch w q (S i) rest (Sql.execute q (current_timestamp w) params t)
      end
  end.

(** [cursor.executemany(query, batch)] *)
Definition cursor_executemany (w : world) (q : upsert_statement)
    (batch : list (list pyval)) : M unit :=
  modify (emit (EvExecutemany batch)) ;;
  (fun st =>
     match run_batch w q 0 batch (view st) with
     | (Returns _, t) => (Returns tt, set_pending (Some t) st)
     | (Raises e, t) => failed w e (set_pending (Some t) st)
     end).

(** [connection.commit()] *)
Definition connection_commit (w : world) : M unit :=
  modify (emit EvCommit) ;;
  match commit_fails w with
  | Some e => failed w e
  | None => fun st => (Returns tt, set_pending None (set_committed (view st) st))
  end.

(** [conn.rollback()], on the module global: the uncommitted copy is
    dropped.  On a connection that is closed the call raises an
    [InterfaceError]; the handler makes it inside an [except] clause,
    with nothing around it to catch that. *)
Definition conn_rollback : M unit :=
  c <- gets conn ;;
  match c with
  | None => raise (Exn AttributeError "'NoneType' object has no attribute 'rollback'")
  | Some c =>
      modify (emit EvRollback) ;;
      if closed c then raise (Exn InterfaceError "connection already closed")
      else modify (set_pending None)
  end.

(** [cursor.close()], which closes a client-side cursor without a word
    to the server, and returns. *)
Definition cursor_close : M unit :=
  modify (emit EvCursorClose) ;;
  modify (set_cursor (Some (Cursor true))).

(* ===================================================================== *)
(** * [get_db_connection] *)
(* ===================================================================== *)

(** [conn is None or conn.closed] *)
Definition conn_unusable (c : option connection) : bool :=
  match c with
  | None => true
  | Some c => closed c
  end.

(** The keyword arguments of the call to [psycopg2.connect], evaluated in
    the order written: the four subscripts of [os.environ] first. *)
Definition connect_kwargs (w : world) : outcome (list (string * pyval)) :=
  let* host := environ_getitem w "DB_HOST" in
  let* database := environ_getitem w "DB_NAME" in
  let* user := environ_getitem w "DB_USER" in
  let* password := environ_getitem w "DB_PASSWORD" in
  let port := environ_get w "DB_PORT" "5432" in
  Returns
    [ ("host", PStr host);
      ("database", PStr database);
      ("user", PStr user);
      ("password", PStr password);
      ("port", PStr port);
      ("connect_timeout", PInt 10);
      ("keepalives", PInt 1);
      ("keepalives_idle", PInt 30);
      ("keepalives_interval", PInt 10);
      ("keepalives_count", PInt 5) ].

Definition get_db_connection (w : world) : M (option connection) :=
  try_except
    (c <- gets conn ;;
     (if conn_unusable c then
        kwargs <- lift (connect_kwargs w) ;;
        c' <- psycopg2_connect w kwargs ;;
        modify (set_conn (Some c'))
      else ret tt) ;;
     gets conn)
    (fun e =>
       if is_Exception e then
         print ("Connection error: " +:+ exn_str e) ;;
         modify (set_conn None) ;;
         raise e
       else raise e).

(* ===================================================================== *)
(** * [lambda_handler] *)
(* ===================================================================== *)

Definition url : string := "https://getidx.geo-circle.workers.dev/".

Definition headers : list (string * string) :=
  [ ("User-Agent", "Mozilla/5.0 (Windows NT 10.0; Win64; x64) AppleWebKit/537.36");
    ("Accept", "application/json") ].

(** [{'statusCode': code, 'body': json.dumps({'error': error_msg})}] *)
Definition error_response (code : Z) (error_msg : string) : response :=
  {| statusCode := code;
     body := json_dumps (PDict [("error", PStr error_msg)]) |}.

Definition success_response (inserted_count : Z) (timestamp : string) : response :=
  {| statusCode := 200;
     body := json_dumps (PDict [ ("message", PStr "Data processed successfully");
                                 ("records_processed", PInt inserted_count);
                                 ("timestamp", PStr timestamp) ]) |}.

(** The loop over the feed: each item is normalised inside its own [try];
    a [ValueError] or [KeyError] is printed and the item left out, any
    other exception leaves the loop. *)
Fixpoint normalize_loop (items : list pyval) (batch_data : list (list pyval))
  : M (list (list pyval)) :=
  match items with
  | [] => ret batch_data
  | item :: rest =>
      batch_data' <-
        try_except
          (params <- lift (normalize_item item) ;;
           ret (batch_data ++ [params])%list)
          (fun e =>
             if is_ValueError e || is_KeyError e then
               print ("Skipping record due to error: " +:+ exn_str e) ;;
               ret batch_data
             else raise e) ;;
      normalize_loop rest batch_data'
  end.

(** The outer [try] is written here in three parts, each the
    continuation of the one before it.

    Last part: the write, the commit and the answer. *)
Definition write_batch (w : world) (batch_data : list (list pyval)) : M response :=
  inserted_count <-
    (match batch_data with
     | [] => ret 0
     | _ :: _ =>
         cursor_executemany w insert_query batch_data ;;
         ret (Z.of_nat (length batch_data))
     end) ;;
  connection_commit w ;;
  print ("Successfully processed " +:+ pretty inserted_count +:+ " stock records") ;;
  ret (success_response inserted_count (datetime_now w)).

(** Middle part, once [data.get('data')] has been found true: the
    connection, the cursor and the loop over [data['data']]. *)
Definition process_feed (w : world) (data : pyval) : M response :=
  feed <- lift (py_getitem data "data") ;;
  n <- lift (py_len feed) ;;
  print ("Successfully fetched " +:+ pretty n +:+ " records from IDX") ;;
  connection <- get_db_connection w ;;
  c <- connection_cursor w connection ;;
  modify (set_cursor (Some c)) ;;
  feed <- lift (py_getitem data "data") ;;
  items <- lift (py_iter feed) ;;
  batch_data <- normalize_loop items [] ;;
  write_batch w batch_data.

(** First part: the fetch and the check of the payload. *)
Definition handler_body (w : world) : M response :=
  response <- requests_get w url headers 30 ;;
  lift (raise_for_status response) ;;
  data <- lift (resp_json response) ;;
  feed <- lift (py_get data "data" PNone) ;;
  if negb (truthy feed) then
    ret (error_response 400 "No data received from API")
  else
    process_feed w data.

(** [if conn: conn.rollback()], on the module global. *)
Definition rollback_if_conn : M unit :=
  c <- gets conn ;;
  match c with
  | Some _ => conn_rollback
  | None => ret tt
  end.

(** The [except] clauses of the outer [try], tried in the order written. *)
Definition handle_exception (e : exn) : M response :=
  if is_Timeout e then
    let error_msg := "Request timeout - API took too long to respond" in
    print error_msg ;;
    ret (error_response 504 error_msg)
  else if is_HTTPError e then
    let status := match exn_class_of e with HTTPError c => c | _ => 0 end in
    let error_msg := "HTTP Error " +:+ pretty status +:+ ": " +:+ exn_str e in
    print error_msg ;;
    ret (error_response status error_msg)
  else if is_RequestException e then
    let error_msg := "Request failed: " +:+ exn_str e in
    print error_msg ;;
    ret (error_response 500 error_msg)
  else if is_DatabaseError e then
    let error_msg := "Database error: " +:+ exn_str e in
    print error_msg ;;
    rollback_if_conn ;;
    ret (error_response 500 error_msg)
  else if is_Exception e then
    let error_msg := "Unexpected error: " +:+ exn_str e in
    print error_msg ;;
    rollback_if_conn ;;
    ret (error_response 500 error_msg)
  else raise e.

(** [finally: if cursor: cursor.close()] *)
Definition release_cursor : M unit :=
  c <- gets cursor ;;
  match c with
  | Some _ => cursor_close
  | None => ret tt
  end.

Definition lambda_handler (w : world) (event context : pyval) : M response :=
  modify (set_cursor None) ;;
  try_finally (try_except (handler_body w) handle_exception) release_cursor.

(* ===================================================================== *)
(** * Vocabulary of the specification *)
(* ===================================================================== *)

(** The item has no entry under [key] (an item that is not a mapping has
    none). *)
Definition missing (key : string) (item : pyval) : bool :=
  match item with
  | PDict entries =>
      match dict_lookup key entries with Some _ => false | None => true end
  | _ => true
  end.

(** The item has a [Date] that [strptime] does not turn into a date. *)
Definition date_unparseable (item : pyval) : bool :=
  match item with
  | PDict entries =>
      match dict_lookup "Date" entries with
      | Some v => match strptime v with Returns _ => false | Raises _ => true end
      | None => false
      end
  | _ => false
  end.

(** A malformed item, in the words of the specification: its date does
    not parse, or [Date], [StockCode] or [StockName] is missing. *)
Definition malformed (item : pyval) : bool :=
  date_unparseable item || missing "Date" item
  || missing "StockCode" item || missing "StockName" item.

(** The item is a mapping whose [Date], when it has one, is a string. *)
Definition string_dated (item : pyval) : bool :=
  match item with
  | PDict entries =>
      match dict_lookup "Date" entries with
      | None | Some (PStr _) => true
      | Some _ => false
      end
  | _ => false
  end.

(** The item is a mapping whose [Date], when it has one, is a string of
    ASCII characters. *)
Definition ascii_dated (item : pyval) : bool :=
  match item with
  | PDict entries =>
      match dict_lookup "Date" entries with
      | None => true
      | Some (PStr s) => Text.is_ascii s
      | Some _ => false
      end
  | _ => false
  end.

(** The tuples of the items of a feed that normalise, in feed order. *)
Fixpoint records (items : list pyval) : list (list pyval) :=
  match items with
  | [] => []
  | item :: rest =>
      match normalize_item item with
      | Returns params => params :: records rest
      | Raises _ => records rest
      end
  end.

(** The lines the loop prints for the items it leaves out, most recent
    first. *)
Fixpoint skip_log (items : list pyval) : list call :=
  match items with
  | [] => []
  | item :: rest =>
      (skip_log rest ++
       match normalize_item item with
       | Returns _ => []
       | Raises e => [EvPrint ("Skipping record due to error: " +:+ exn_str e)]
       end)%list
  end.

(** Normalising the item raises an exception the loop does not catch. *)
Definition escapes (item : pyval) : bool :=
  match normalize_item item with
  | Returns _ => false
  | Raises e => negb (is_ValueError e || is_KeyError e)
  end.

(** No item of the feed raises an exception the loop does not catch. *)
Definition none_escapes (items : list pyval) : bool :=
  forallb (fun item => negb (escapes item)) items.

(** [get_db_connection] hands back a usable connection: the one at hand,
    or a new one for which the configuration is complete and the attempt
    succeeds. *)
Definition acquires (w : world) (st : state) : Prop :=
  conn_unusable (conn st) = false \/
  exists kwargs, connect_kwargs w = Returns kwargs /\ connect_fails w = None.

(** The state [get_db_connection] leaves when it acquires. *)
Definition acquired (w : world) (st : state) : state :=
  if conn_unusable (conn st) then
    match connect_kwargs w with
    | Returns kwargs =>
        set_conn (Some (Connection false))
          (set_pending None (emit (EvConnect kwargs) st))
    | Raises _ => st
    end
  else st.

(** The state in which the loop starts: the feed announced, the
    connection acquired, the cursor opened and kept in [cursor]. *)
Definition ready (w : world) (n : Z) (st : state) : state :=
  set_cursor (Some (Cursor false))
    (emit EvCursor
       (acquired w
          (emit (EvPrint ("Successfully fetched " +:+ pretty n +:+ " records from IDX"))
             st))).

(** The events of the write, most recent first. *)
Definition write_log (batch : list (list pyval)) : list call :=
  EvCommit :: match batch with [] => [] | _ :: _ => [EvExecutemany batch] end.

(** [conn] holds no connection, or one that is not closed: the rollback
    of an [except] clause, which is asked of [conn] when it holds a
    connection, goes through. *)
Definition open_or_none (c : option connection) : bool :=
  match c with
  | Some c => negb (closed c)
  | None => true
  end.

(** The state after [if conn: conn.rollback()], when the rollback goes
    through. *)
Definition rolled_back (st : state) : state :=
  match conn st with
  | Some _ => set_pending None (emit EvRollback st)
  | None => st
  end.

(** The state after [if cursor: cursor.close()]. *)
Definition released (st : state) : state :=
  match cursor st with
  | Some _ => set_cursor (Some (Cursor true)) (emit EvCursorClose st)
  | None => st
  end.



(** A batch applied to a table, one statement per tuple. *)
Definition apply_batch (w : world) (batch : list (list pyval)) (t : table) : table :=
  fold_left (fun t params => Sql.execute insert_query (current_timestamp w) params t)
            batch t.

(** The feed keys read with [item.get(key, 0)], each with the position of
    its value in the tuple and the column that position is inserted in. *)
Definition numeric_fields : list (string * nat * string) :=
  [ ("Previous", 5%nat, "previous");
    ("OpenPrice", 6%nat, "open_price");
    ("FirstTrade", 7%nat, "first_trade");
    ("High", 8%nat, "high");
    ("Low", 9%nat, "low");
    ("Close", 10%nat, "close");
    ("Change", 11%nat, "change");
    ("Volume", 12%nat, "volume");
    ("Value", 13%nat, "value");
    ("Frequency", 14%nat, "frequency");
    ("IndexIndividual", 15%nat, "index_individual");
    ("Offer", 16%nat, "offer");
    ("OfferVolume", 17%nat, "offer_volume");
    ("Bid", 18%nat, "bid");
    ("BidVolume", 19%nat, "bid_volume");
    ("ListedShares", 20%nat, "listed_shares");
    ("TradebleShares", 21%nat, "tradeable_shares");
    ("WeightForIndex", 22%nat, "weight_for_index");
    ("ForeignSell", 23%nat, "foreign_sell");
    ("ForeignBuy", 24%nat, "foreign_buy");
    ("NonRegularVolume", 26%nat, "non_regular_volume");
    ("NonRegularValue", 27%nat, "non_regular_value");
    ("NonRegularFrequency", 28%nat, "non_regular_frequency") ].

(** The feed keys read with [item.get(key) or None]. *)
Definition nullable_fields : list (string * nat * string) :=
  [ ("Remarks", 4%nat, "remarks");
    ("DelistingDate", 25%nat, "delisting_date") ].

(** The table the transaction of an invocation starts from: the
    committed one on a new connection, what the open transaction sees on
    a connection at hand. *)
Definition starting_table (st : state) : table :=
  if conn_unusable (conn st) then committed st else view st.

(** From [st] to [st'] the variable [cursor] was not assigned and no
    cursor was asked for or closed. *)
Definition quiet (st st' : state) : Prop :=
  cursor st' = cursor st /\
  exists evs, log st' = (evs ++ log st)%list /\
              ~ In EvCursor evs /\ ~ In EvCursorClose evs.

(** A statement that is [quiet] from every state. *)
Definition Quiet {A : Type} (m : M A) : Prop := forall st, quiet st (snd (m st)).

(** From [st] to [st'] no cursor was opened: [connection.cursor()] was
    not called, or it raised; none was closed either. *)
Definition no_cursor (w : world) (st st' : state) : Prop :=
  cursor st' = cursor st /\
  exists evs, log st' = (evs ++ log st)%list /\
              ~ In EvCursorClose evs /\
              (In EvCursor evs -> cursor_fails w <> None).

(** From [st] to [st'] a cursor was opened, is held by the variable
    [cursor], and has not been closed. *)
Definition cursor_open (w : world) (st st' : state) : Prop :=
  cursor_fails w = None /\
  cursor st' = Some (Cursor false) /\
  exists evs, log st' = (evs ++ log st)%list /\
              In EvCursor evs /\ ~ In EvCursorClose evs.

(** The columns of a statement that its INSERT writes and that are
    neither part of the conflict target nor assigned by its
    [DO UPDATE SET]. *)
Definition never_updated (q : upsert_statement) : list string :=
  List.filter
    (fun c => negb (existsb (String.eqb c) (conflict_target q)
                    || existsb (String.eqb c) (map fst (do_update_set q))))
    (columns q).

(** The call to [psycopg2.connect] an invocation starting in [st] makes
    when it acquires the connection: none when the one at hand is
    usable. *)
Definition connect_log (w : world) (st : state) : list call :=
  if conn_unusable (conn st) then
    match connect_kwargs w with
    | Returns kwargs => [EvConnect kwargs]
    | Raises _ => []
    end
  else [].

(** The state an error clause that rolls back leaves, from the state
    [st] in which the handler was called, when the exception was raised
    before any call to the database: the message printed after the GET,
    and the rollback when [conn] holds a connection. *)
Definition failed_before_database (error_msg : string) (st : state) : state :=
  {| conn := conn st; cursor := None; committed := committed st;
     pending := match conn st with Some _ => None | None => pending st end;
     log := (match conn st with Some _ => [EvRollback] | None => [] end ++
             [EvPrint error_msg; EvHttpGet url headers 30] ++ log st)%list |}.

Definition is_http_get (ev : call) : bool :=
  match ev with EvHttpGet _ _ _ => true | _ => false end.

Definition is_connect (ev : call) : bool :=
  match ev with EvConnect _ => true | _ => false end.

(** A statement that, from every state, ends in a state that [R] relates
    to it. *)
Definition Keeps (R : state -> state -> Prop) {A : Type} (m : M A) : Prop :=
  forall st, R st (snd (m st)).

(** A statement that, from every state, ends in a state that [R] relates
    to it, unless its outcome is one of [Q]. *)
Definition KeepsOr (R : state -> state -> Prop) {A : Type}
    (Q : outcome A -> Prop) (m : M A) : Prop :=
  forall st, R st (snd (m st)) \/ Q (fst (m st)).

(** The committed table is the same. *)
Definition same_committed (st st' : state) : Prop := committed st' = committed st.

(** The calls made from [st] to [st'] include no HTTP request. *)
Definition no_request (st st' : state) : Prop :=
  exists evs, log st' = (evs ++ log st)%list /\
              forall u h t, ~ In (EvHttpGet u h t) evs.

(** From [st] to [st'] no call to [psycopg2.connect] is made, and [conn]
    holds the same connection: as it was, or closed when a call on it
    failed because the connection was gone. *)
Definition reuses_conn (w : world) (st st' : state) : Prop :=
  (conn st' = conn st
   \/ (connection_lost w = true /\ conn st' = Some (Connection true))) /\
  exists evs, log st' = (evs ++ log st)%list /\
              forall kwargs, ~ In (EvConnect kwargs) evs.

(** The record has a stock code and a date that are not null, so that
    its key can meet the unique index on [(stock_code, date)]. *)
Definition keyed (params : list pyval) : bool :=
  match params !! 1%nat, params !! 2%nat with
  | Some stock_code, Some date_obj =>
      negb (pyval_eqb stock_code PNone) && negb (pyval_eqb date_obj PNone)
  | _, _ => false
  end.

(** The table has a row with the key of the record. *)
Definition has_key (t : table) (params : list pyval) : bool :=
  existsb (Sql.conflicts (conflict_target insert_query)
             (Sql.proposed (columns insert_query) params)) t.

(** The answer of a run is the success response. *)
Definition succeeded (w : world) (r : outcome response) : Prop :=
  exists n, r = Returns (success_response n (datetime_now w)).

(* ===================================================================== *)
(** * Sample feeds, worlds and states *)
(* ===================================================================== *)

Module Example.

Definition trade_date : date := Date 2025 11 25.

(** A well-formed item. *)
Definition bbca : pyval :=
  PDict [ ("Date", PStr "2025-11-25T00:00:00");
          ("StockCode", PStr "BBCA");
          ("StockName", PStr "Bank Central Asia Tbk.");
          ("Remarks", PStr "");
          ("Previous", PInt 8950);
          ("Close", PInt 9000);
          ("Change", PFloat "50.0");
          ("Volume", PInt 200);
          ("ListedShares", PInt 200);
          ("NonRegularVolume", PInt 20) ].

(** The least a well-formed item has. *)
Definition bbri : pyval :=
  PDict [ ("Date", PStr "2025-11-25T00:00:00");
          ("StockCode", PStr "BBRI");
          ("StockName", PStr "Bank Rakyat Indonesia") ].

(** An item whose date has another format. *)
Definition bad_date : pyval :=
  PDict [ ("Date", PStr "25/11/2025");
          ("StockCode", PStr "TLKM");
          ("StockName", PStr "Telkom Indonesia") ].

(** An item whose date is [null] in the feed. *)
Definition null_date : pyval :=
  PDict [ ("Date", PNone);
          ("StockCode", PStr "ASII");
          ("StockName", PStr "Astra International") ].

Definition env : gmap string string :=
  {[ "DB_HOST" := "db.internal"; "DB_NAME" := "idx"; "DB_USER" := "loader";
     "DB_PASSWORD" := "secret" ]}.

Definition payload (items : list pyval) : pyval := PDict [("data", PList items)].

Definition ok_response (data : pyval) : http_response :=
  {| resp_status_code := 200; resp_reason := "OK"; resp_url := url;
     resp_json := Returns data |}.

(** A world in which every call succeeds and the feed has [items]. *)
Definition world_of (items : list pyval) : world :=
  {| environ := env;
     http_get := Returns (ok_response (payload items));
     connect_fails := None;
     cursor_fails := None;
     execute_fails := fun _ => None;
     commit_fails := None;
     connection_lost := false;
     current_timestamp := PStr "2025-11-25 17:00:00";
     datetime_now := "2025-11-25 17:00:01.000000" |}.

Definition with_http (g : outcome http_response) (w : world) : world :=
  {| environ := environ w; http_get := g; connect_fails := connect_fails w;
     cursor_fails := cursor_fails w; execute_fails := execute_fails w;
     commit_fails := commit_fails w; connection_lost := connection_lost w;
     current_timestamp := current_timestamp w;
     datetime_now := datetime_now w |}.

Definition with_environ (env : gmap string string) (w : world) : world :=
  {| environ := env; http_get := http_get w; connect_fails := connect_fails w;
     cursor_fails := cursor_fails w; execute_fails := execute_fails w;
     commit_fails := commit_fails w; connection_lost := connection_lost w;
     current_timestamp := current_timestamp w;
     datetime_now := datetime_now w |}.

Definition with_commit_fails (e : exn) (w : world) : world :=
  {| environ := environ w; http_get := http_get w; connect_fails := connect_fails w;
     cursor_fails := cursor_fails w; execute_fails := execute_fails w;
     commit_fails := Some e; connection_lost := connection_lost w;
     current_timestamp := current_timestamp w;
     datetime_now := datetime_now w |}.

Definition timeout : exn :=
  Exn Timeout "HTTPSConnectionPool(host='getidx.geo-circle.workers.dev', port=443): Read timed out. (read timeout=30)".

Definition server_gone : exn :=
  Exn DatabaseError "server closed the connection unexpectedly".

(** An error of the driver that leaves the connection open. *)
Definition no_cursor : exn :=
  Exn DatabaseError "cannot create a cursor".


(** A first invocation in a fresh process, on an empty table. *)
Definition cold : state :=
  {| conn := None; cursor := None; committed := []; pending := None; log := [] |}.

(** The row stored for BBCA on the trade date by an earlier run. *)
Definition stored : gmap string pyval :=
  Sql.proposed (columns insert_query)
    [ PStr "BBCA_2025-11-25"; PStr "BBCA"; PDate trade_date;
      PStr "Bank Central Asia"; PNone; PInt 8900;
      PInt 0; PInt 0; PInt 0; PInt 0; PInt 8950; PInt 50;
      PInt 100; PInt 0; PInt 0; PInt 0;
      PInt 0; PInt 0; PInt 0; PInt 0;
      PInt 100; PInt 100; PInt 1;
      PInt 0; PInt 0; PNone;
      PInt 10; PInt 0; PInt 0 ].

(** A later invocation in the same process: the connection is at hand
    and the table has the stored row. *)
Definition warm : state :=
  {| conn := Some (Connection false); cursor := None; committed := [stored];
     pending := None; log := [] |}.

(** A later invocation in a process whose connection the server has
    closed in the meantime. *)
Definition stale : state :=
  {| conn := Some (Connection true); cursor := None; committed := [stored];
     pending := None; log := [] |}.

(** An item whose stock code and volume are [null] in the feed, and
    whose remarks are the number 0. *)
Definition null_code : pyval :=
  PDict [ ("Date", PStr "2025-11-25T00:00:00");
          ("StockCode", PNone);
          ("StockName", PStr "Unnamed");
          ("Remarks", PInt 0);
          ("Volume", PNone) ].

(** The records of the two well-formed items. *)
Definition bbca_record : list pyval :=
  match normalize_item bbca with
  | Returns params => params
  | Raises _ => []
  end.

Definition bbri_record : list pyval :=
  match normalize_item bbri with
  | Returns params => params
  | Raises _ => []
  end.

(** The arguments of [psycopg2.connect] under [env]. *)
Definition kwargs : list (string * pyval) :=
  [ ("host", PStr "db.internal"); ("database", PStr "idx");
    ("user", PStr "loader"); ("password", PStr "secret"); ("port", PStr "5432");
    ("connect_timeout", PInt 10); ("keepalives", PInt 1);
    ("keepalives_idle", PInt 30); ("keepalives_interval", PInt 10);
    ("keepalives_count", PInt 5) ].

(** The answer of a server that does not know the address. *)
Definition not_found : http_response :=
  {| resp_status_code := 404; resp_reason := "Not Found"; resp_url := url;
     resp_json := Raises (Exn ValueError "Expecting value: line 1 column 1 (char 0)") |}.

Definition refused : exn :=
  Exn RequestException "HTTPSConnectionPool(host='getidx.geo-circle.workers.dev', port=443): Max retries exceeded".

Definition with_connect_fails (e : exn) (w : world) : world :=
  {| environ := environ w; http_get := http_get w; connect_fails := Some e;
     cursor_fails := cursor_fails w; execute_fails := execute_fails w;
     commit_fails := commit_fails w; connection_lost := connection_lost w;
     current_timestamp := current_timestamp w;
     datetime_now := datetime_now w |}.


Definition with_cursor_fails (e : exn) (w : world) : world :=
  {| environ := environ w; http_get := http_get w; connect_fails := connect_fails w;
     cursor_fails := Some e; execute_fails := execute_fails w;
     commit_fails := commit_fails w; connection_lost := connection_lost w;
     current_timestamp := current_timestamp w;
     datetime_now := datetime_now w |}.

End Example.

(* ===================================================================== *)
(** * Checks used by the proofs *)
(* ===================================================================== *)

(** [zfill w (pretty n)] has exactly [w] characters, all digits, and reads
    back as [n]. *)
Definition pads_to (w : nat) (n : Z) : bool :=
  let s := Text.zfill w (pretty n) in
  (String.length s =? w)%nat && Text.all_digits s &&
  match Text.decimal_value s with
  | Some v => v =? n
  | None => false
  end.

(** [pretty n] is the decimal text of [n]: digits only, reading back as
    [n], and four of them when [n] is at least 1000. *)
Definition writes_plainly (n : Z) : bool :=
  let s := pretty n in
  Text.all_digits s &&
  match Text.decimal_value s with
  | Some v => v =? n
  | None => false
  end &&
  ((n <? 1000) || (String.length s =? 4)%nat).

(* ===================================================================== *)
(** * Properties *)
(* ===================================================================== *)

Section TextFacts.

Lemma append_cons (c : ascii) (s t : string) :
  String c s +:+ t = String c (s +:+ t).
Proof. reflexivity. Qed.

Lemma append_nil (t : string) : "" +:+ t = t.
Proof. reflexivity. Qed.

Lemma length_append (s t : string) :
  String.length (s +:+ t) = (String.length s + String.length t)%nat.
Proof.
  induction s as [|c s IH]; [reflexivity|].
  rewrite append_cons. simpl. now rewrite IH.
Qed.

Lemma append_assoc (s t u : string) : (s +:+ t) +:+ u = s +:+ (t +:+ u).
Proof.
  induction s as [|c s IH]; [reflexivity|].
  rewrite !append_cons. now rewrite IH.
Qed.



End TextFacts.

Section DateFacts.

Lemma forallb_range (P : Z -> bool) (hi : nat) :
  forallb P (map Z.of_nat (seq 0 hi)) = true ->
  forall n, 0 <= n < Z.of_nat hi -> P n = true.
Proof.
  intros Hall n Hn. rewrite forallb_forall in Hall. apply Hall.
  apply in_map_iff. exists (Z.to_nat n). split; [lia|].
  apply in_seq. lia.
Qed.

Lemma pads_to_2 (n : Z) : 0 <= n < 100 -> pads_to 2 n = true.
Proof.
  intros Hn. apply (forallb_range (pads_to 2) (Z.to_nat 100)); [|lia].
  vm_compute. reflexivity.
Qed.

Lemma pads_to_spec (w : nat) (n : Z) :
  pads_to w n = true ->
  String.length (Text.zfill w (pretty n)) = w /\
  Text.all_digits (Text.zfill w (pretty n)) = true /\
  Text.decimal_value (Text.zfill w (pretty n)) = Some n.
Proof.
  unfold pads_to. cbv zeta. intros H.
  apply andb_true_iff in H as [H Hv]. apply andb_true_iff in H as [Hl Hd].
  apply Nat.eqb_eq in Hl.
  destruct (Text.decimal_value (Text.zfill w (pretty n))) as [v|]; [|discriminate].
  apply Z.eqb_eq in Hv. subst v. auto.
Qed.

Lemma valid_date_bounds (d : date) :
  valid_date d = true ->
  1 <= year d <= 9999 /\ 1 <= month d <= 12 /\ 1 <= day d <= 31.
Proof.
  unfold valid_date, days_in_month. intros H.
  repeat (apply andb_true_iff in H as [H ?]).
  repeat match goal with
         | |- context [if ?b then _ else _] => destruct b
         | H : context [if ?b then _ else _] |- _ => destruct b
         end; lia.
Qed.

End DateFacts.

Section GenerateStockId.

Lemma writes_plainly_years (n : Z) : 0 <= n < 10000 -> writes_plainly n = true.
Proof.
  intros Hn. apply (forallb_range writes_plainly (Z.to_nat 10000)); [|lia].
  vm_compute. reflexivity.
Qed.

Lemma year_text (y : Z) :
  0 <= y < 10000 ->
  Text.all_digits (pretty y) = true /\
  Text.decimal_value (pretty y) = Some y /\
  (1000 <= y -> String.length (pretty y) = 4%nat).
Proof.
  intros Hy. pose proof (writes_plainly_years y Hy) as H.
  unfold writes_plainly in H. cbv zeta in H.
  apply andb_true_iff in H as [H Hlen]. apply andb_true_iff in H as [Hdig Hval].
  split; [exact Hdig|]. split.
  - destruct (Text.decimal_value (pretty y)) as [v|]; [|discriminate].
    apply Z.eqb_eq in Hval. now subst v.
  - intros Hbig. apply orb_true_iff in Hlen as [Hlt|Hlen].
    + apply Z.ltb_lt in Hlt. lia.
    + now apply Nat.eqb_eq in Hlen.
Qed.

(** The date text: the digits of the year, then two and two digits that
    read back as the month and the day, joined by hyphens. *)
Lemma strftime_Ymd_fields (d : date) :
  valid_date d = true ->
  exists y m dd : string,
    strftime_Ymd d = y +:+ "-" +:+ m +:+ "-" +:+ dd /\
    (Text.all_digits y = true /\ Text.decimal_value y = Some (year d)
       /\ (1000 <= year d -> String.length y = 4%nat)) /\
    (String.length m = 2%nat /\ Text.all_digits m = true
       /\ Text.decimal_value m = Some (month d)) /\
    (String.length dd = 2%nat /\ Text.all_digits dd = true
       /\ Text.decimal_value dd = Some (day d)).
Proof.
  intros Hv. apply valid_date_bounds in Hv as (Hy & Hm & Hd).
  exists (pretty (year d)), (Text.zfill 2 (pretty (month d))),
         (Text.zfill 2 (pretty (day d))).
  split; [reflexivity|]. split; [apply year_text; lia|].
  split; apply pads_to_spec, pads_to_2; lia.
Qed.

Lemma strftime_Ymd_length (d : date) :
  valid_date d = true -> 1000 <= year d ->
  String.length (strftime_Ymd d) = 10%nat.
Proof.
  intros Hv Hbig. destruct (strftime_Ymd_fields d Hv)
    as (y & m & dd & -> & (_ & _ & Hy) & (Hm & _) & (Hd & _)).
  rewrite !length_append, (Hy Hbig), Hm, Hd. reflexivity.
Qed.







Example generate_stock_id_BBCA :
  generate_stock_id (PStr "BBCA") (Date 2025 11 25) = "BBCA_2025-11-25".
Proof. reflexivity. Qed.

End GenerateStockId.

Section Normalizer.

(** An item normalises only if it is a mapping. *)
Lemma normalize_item_returns_dict (item : pyval) (params : list pyval) :
  normalize_item item = Returns params -> exists entries, item = PDict entries.
Proof.
  destruct item; try discriminate. intros _. eexists. reflexivity.
Qed.

Ltac in_cases H :=
  repeat (destruct H as [H|H]; [injection H as <- <- <-|]); [..|destruct H].

(** C7. For a well-formed item (one that normalises to a tuple), each of
    the twenty-three numeric fields that the item does not have is the
    integer 0, not null, at its position of the tuple, which is the
    position of its column in the INSERT; [Remarks] and [DelistingDate]
    are null at theirs when the item does not have them or has them as
    the empty string. *)
Theorem normalize_item_defaults (entries : list (string * pyval))
    (params : list pyval) :
  normalize_item (PDict entries) = Returns params ->
  (forall key i col, In (key, i, col) numeric_fields ->
     dict_lookup key entries = None ->
     params !! i = Some (PInt 0) /\ columns insert_query !! i = Some col) /\
  (forall key i col, In (key, i, col) nullable_fields ->
     dict_lookup key entries = None \/ dict_lookup key entries = Some (PStr "") ->
     params !! i = Some PNone /\ columns insert_query !! i = Some col).
Proof.
  unfold normalize_item. cbn [py_getitem py_get obind].
  destruct (dict_lookup "Date" entries) as [date_str|]; [|discriminate].
  cbn [obind]. destruct (strptime date_str) as [parsed|]; [|discriminate].
  cbn [obind]. destruct (dict_lookup "StockCode" entries) as [stock_code|];
    [|discriminate].
  cbn [obind]. destruct (dict_lookup "StockName" entries) as [stock_name|];
    [|discriminate].
  cbn [obind]. intros [= <-]. split.
  - intros key i col HIn Habsent. unfold numeric_fields in HIn.
    in_cases HIn; rewrite Habsent; split; reflexivity.
  - intros key i col HIn Hempty. unfold nullable_fields in HIn.
    in_cases HIn; destruct Hempty as [-> | ->]; split; reflexivity.
Qed.

(** ** Values the item has *)

(** X11. The defaults apply to absent keys only.  A numeric field the
    item has is passed on as it is, whatever its value: a [null] stays
    [None] (it does not become 0) and a string stays a string.  A
    [Remarks] or [DelistingDate] the item has is passed on when it is
    true and replaced by [None] when it is false (the empty string, but
    also 0, [false], an empty list or an empty object). *)
Theorem present_values_pass_through (entries : list (string * pyval))
    (params : list pyval) :
  normalize_item (PDict entries) = Returns params ->
  (forall key i col v, In (key, i, col) numeric_fields ->
     dict_lookup key entries = Some v -> params !! i = Some v) /\
  (forall key i col v, In (key, i, col) nullable_fields ->
     dict_lookup key entries = Some v ->
     params !! i = Some (if truthy v then v else PNone)).
Proof.
  unfold normalize_item. cbn [py_getitem py_get obind].
  destruct (dict_lookup "Date" entries) as [date_str|]; [|discriminate].
  cbn [obind]. destruct (strptime date_str) as [parsed|]; [|discriminate].
  cbn [obind]. destruct (dict_lookup "StockCode" entries) as [stock_code|];
    [|discriminate].
  cbn [obind]. destruct (dict_lookup "StockName" entries) as [stock_name|];
    [|discriminate].
  cbn [obind]. intros [= <-]. split.
  - intros key i col v HIn Hhas. unfold numeric_fields in HIn.
    in_cases HIn; rewrite Hhas; reflexivity.
  - intros key i col v HIn Hhas. unfold nullable_fields in HIn.
    in_cases HIn; rewrite Hhas; reflexivity.
Qed.

(** ** The shape of a record *)

Lemma strptime_valid (v : pyval) (parsed : datetime) :
  strptime v = Returns parsed -> valid_date (dt_date parsed) = true.
Proof.
  destruct v; try discriminate. cbn [strptime].
  destruct (Strptime.match_format s) as [[[[[[[Y m] d] H] M] sec] rest]|];
    [|discriminate].
  destruct (negb (rest =? "")%string); [discriminate|].
  destruct (valid_date (Date Y m d)) eqn:Hv; cbn [negb]; [|discriminate].
  destruct (59 <? sec); [discriminate|]. intros [= <-]. exact Hv.
Qed.

(** X12. Every record the loop appends has twenty-nine values, as many
    as the INSERT has columns.  Its third value is a date of the
    calendar, its second and fourth are the item's [StockCode] and
    [StockName], and its first, [id_stock], is [generate_stock_id]
    applied to the stock code and the date of that same record. *)
Theorem record_is_consistent (item : pyval) (params : list pyval) :
  normalize_item item = Returns params ->
  length params = length (columns insert_query) /\
  exists (stock_code stock_name : pyval) (date_obj : date),
    py_getitem item "StockCode" = Returns stock_code /\
    py_getitem item "StockName" = Returns stock_name /\
    valid_date date_obj = true /\
    params !! 0%nat = Some (PStr (generate_stock_id stock_code date_obj)) /\
    params !! 1%nat = Some stock_code /\
    params !! 2%nat = Some (PDate date_obj) /\
    params !! 3%nat = Some stock_name.
Proof.
  destruct item; try discriminate.
  unfold normalize_item. cbn [py_getitem py_get obind].
  destruct (dict_lookup "Date" entries) as [date_str|]; [|discriminate].
  cbn [obind]. destruct (strptime date_str) as [parsed|] eqn:Hp; [|discriminate].
  cbn [obind]. destruct (dict_lookup "StockCode" entries) as [stock_code|];
    [|discriminate].
  cbn [obind]. destruct (dict_lookup "StockName" entries) as [stock_name|];
    [|discriminate].
  cbn [obind]. intros [= <-]. split; [reflexivity|].
  exists stock_code, stock_name, (dt_date parsed).
  repeat split. exact (strptime_valid _ _ Hp).
Qed.

(** X13. A [StockCode] that is [null] in the feed is not a missing one:
    the item is not left out.  Its record has [None] for [stock_code],
    and its [id_stock] is the text ["None"], an underscore and the
    date. *)
Theorem null_stock_code_is_kept (entries : list (string * pyval))
    (date_str stock_name : pyval) (parsed : datetime) :
  dict_lookup "Date" entries = Some date_str ->
  strptime date_str = Returns parsed ->
  dict_lookup "StockCode" entries = Some PNone ->
  dict_lookup "StockName" entries = Some stock_name ->
  exists params,
    normalize_item (PDict entries) = Returns params /\
    escapes (PDict entries) = false /\
    params !! 0%nat = Some (PStr ("None_" +:+ strftime_Ymd (dt_date parsed))) /\
    params !! 1%nat = Some PNone.
Proof.
  intros Hd Hp Hc Hn.
  assert (Hrun : exists params,
             normalize_item (PDict entries) = Returns params /\
             params !! 0%nat = Some (PStr ("None_" +:+ strftime_Ymd (dt_date parsed))) /\
             params !! 1%nat = Some PNone).
  { unfold normalize_item. cbn [py_getitem py_get obind].
    rewrite Hd. cbn [obind]. rewrite Hp. cbn [obind]. rewrite Hc. cbn [obind].
    rewrite Hn. cbn [obind]. eexists. repeat split. }
  destruct Hrun as (params & Hrun & H0 & H1). exists params.
  repeat split; try assumption. unfold escapes. now rewrite Hrun.
Qed.

(** ** Reading back the date that was written *)

Lemma field_Y_padded (y : Z) (rest : string) :
  1000 <= y < 10000 ->
  Strptime.field_Y (pretty y +:+ rest) = Some (y, rest).
Proof.
  intros Hy. destruct (year_text y) as (Hdig & Hval & Hlen); [lia|].
  specialize (Hlen (proj1 Hy)).
  destruct (pretty y) as [|a [|b [|c [|d [|x s]]]]];
    try discriminate Hlen.
  cbn [Text.all_digits] in Hdig.
  apply andb_true_iff in Hdig as [Ha Hdig]. apply andb_true_iff in Hdig as [Hb Hdig].
  apply andb_true_iff in Hdig as [Hc Hdig]. apply andb_true_iff in Hdig as [Hd _].
  unfold Text.decimal_value in Hval. cbn [Text.decimal_go] in Hval.
  rewrite Ha, Hb, Hc, Hd in Hval. injection Hval as Hval.
  rewrite !append_cons, append_nil. unfold Strptime.field_Y, Strptime.digit.
  rewrite Ha, Hb, Hc, Hd. f_equal. f_equal. lia.
Qed.

Ltac each_of lo n x :=
  let Hin := fresh "Hin" in
  assert (Hin : In x (map Z.of_nat (seq lo n)))
    by (apply in_map_iff; exists (Z.to_nat x); split; [lia | apply in_seq; lia]);
  vm_compute in Hin;
  repeat (destruct Hin as [<- | Hin]; [vm_compute; reflexivity|]);
  destruct Hin.

Lemma field_m_padded (m : Z) (rest : string) :
  1 <= m <= 12 ->
  Strptime.field_m (Text.zfill 2 (pretty m) +:+ rest) = Some (m, rest).
Proof. intros Hm. each_of 1%nat 12%nat m. Qed.

Lemma field_d_padded (d : Z) (rest : string) :
  1 <= d <= 31 ->
  Strptime.field_d (Text.zfill 2 (pretty d) +:+ rest) = Some (d, rest).
Proof. intros Hd. each_of 1%nat 31%nat d. Qed.

Lemma literal_same (c : ascii) (rest : string) :
  Strptime.literal c (String c rest) = Some rest.
Proof. unfold Strptime.literal. now rewrite Ascii.eqb_refl. Qed.

Lemma match_format_padded (y m d : Z) :
  1000 <= y < 10000 -> 1 <= m <= 12 -> 1 <= d <= 31 ->
  Strptime.match_format
    (pretty y +:+ "-" +:+ Text.zfill 2 (pretty m) +:+ "-"
       +:+ Text.zfill 2 (pretty d) +:+ "T00:00:00")
    = Some (y, m, d, 0, 0, 0, "").
Proof.
  intros Hy Hm Hd. unfold Strptime.match_format.
  rewrite field_Y_padded by lia.
  rewrite append_cons, append_nil, literal_same.
  rewrite field_m_padded by lia.
  rewrite append_cons, append_nil, literal_same.
  rewrite field_d_padded by lia.
  reflexivity.
Qed.

(** The text [strftime] writes for a date from the year 1000 on, followed
    by midnight, is read by the format of the handler as that date. *)
Lemma strptime_strftime (d : date) :
  valid_date d = true ->
  1000 <= year d ->
  strptime (PStr (strftime_Ymd d +:+ "T00:00:00")) = Returns (Datetime d 0 0 0).
Proof.
  intros Hv Hbig. pose proof (valid_date_bounds d Hv) as (Hy & Hm & Hd).
  destruct d as [y m dd]. cbn [year month day] in *.
  unfold strptime, strftime_Ymd. cbn [year month day].
  rewrite !append_assoc. rewrite match_format_padded by lia.
  cbv beta iota. change (("" =? "")%string) with true. cbn [negb].
  rewrite Hv. reflexivity.
Qed.

(** X14. Writing a date and reading it back.  When the [Date] of an
    item is the text [strftime('%Y-%m-%d')] writes for a date of the
    calendar from the year 1000 on (where every platform writes the year
    with four digits), followed by [T00:00:00], the handler reads that
    very date:
    the record has it as [date], and its [id_stock] is the stock code, an
    underscore and the first ten characters of the item's [Date]. *)
Theorem id_stock_repeats_feed_date (entries : list (string * pyval))
    (d : date) (code : string) (stock_name : pyval) :
  valid_date d = true ->
  1000 <= year d ->
  dict_lookup "Date" entries = Some (PStr (strftime_Ymd d +:+ "T00:00:00")) ->
  dict_lookup "StockCode" entries = Some (PStr code) ->
  dict_lookup "StockName" entries = Some stock_name ->
  String.length (strftime_Ymd d) = 10%nat /\
  exists params,
    normalize_item (PDict entries) = Returns params /\
    params !! 0%nat = Some (PStr (code +:+ "_" +:+ strftime_Ymd d)) /\
    params !! 2%nat = Some (PDate d).
Proof.
  intros Hv Hbig Hd Hc Hn. split; [now apply strftime_Ymd_length|].
  unfold normalize_item. cbn [py_getitem py_get obind].
  rewrite Hd. cbn [obind]. rewrite (strptime_strftime d Hv Hbig). cbn [obind].
  rewrite Hc. cbn [obind]. rewrite Hn. cbn [obind dt_date].
  eexists. repeat split.
Qed.

End Normalizer.

Section Handler.

(** Runs the statements whose outcome is already known. *)
Ltac run :=
  cbv beta iota zeta delta
    [handle_exception release_cursor rollback_if_conn
     try_finally try_except bind ret raise lift gets modify print
     requests_get psycopg2_connect connection_cursor cursor_executemany
     connection_commit conn_rollback cursor_close failed
     set_conn set_cursor set_committed set_pending emit emits view];
  cbn [conn cursor committed pending log fst snd].

(** ** Acquiring the connection *)

Lemma get_db_connection_reuses (w : world) (st : state) :
  conn_unusable (conn st) = false ->
  get_db_connection w st = (Returns (conn st), st).
Proof. intros H. unfold get_db_connection. run. rewrite H. destruct st. reflexivity. Qed.

Lemma get_db_connection_connects (w : world) (st : state)
    (kwargs : list (string * pyval)) :
  conn_unusable (conn st) = true ->
  connect_kwargs w = Returns kwargs ->
  connect_fails w = None ->
  get_db_connection w st =
    (Returns (Some (Connection false)),
     set_conn (Some (Connection false))
       (set_pending None (emit (EvConnect kwargs) st))).
Proof. intros H Hk Hc. unfold get_db_connection. run. rewrite H, Hk. run. rewrite Hc. reflexivity. Qed.

Lemma get_db_connection_connect_fails (w : world) (st : state)
    (kwargs : list (string * pyval)) (e : exn) :
  conn_unusable (conn st) = true ->
  connect_kwargs w = Returns kwargs ->
  connect_fails w = Some e ->
  is_Exception e = true ->
  get_db_connection w st =
    (Raises e,
     set_conn None
       (emit (EvPrint ("Connection error: " +:+ exn_str e))
          (emit (EvConnect kwargs) st))).
Proof.
  intros H Hk Hc He. unfold get_db_connection. run. rewrite H, Hk. run. rewrite Hc. run. rewrite He.
  reflexivity.
Qed.

Lemma get_db_connection_config_missing (w : world) (st : state) (e : exn) :
  conn_unusable (conn st) = true ->
  connect_kwargs w = Raises e ->
  is_Exception e = true ->
  get_db_connection w st =
    (Raises e,
     set_conn None (emit (EvPrint ("Connection error: " +:+ exn_str e)) st)).
Proof. intros H Hk He. unfold get_db_connection. run. rewrite H, Hk. run. rewrite He. reflexivity. Qed.

(** The variables [get_db_connection] subscripts [os.environ] with. *)
Lemma connect_kwargs_raises (w : world) (e : exn) :
  connect_kwargs w = Raises e ->
  exists key, In key ["DB_HOST"; "DB_NAME"; "DB_USER"; "DB_PASSWORD"] /\
              environ w !! key = None /\
              e = Exn KeyError (Repr.repr_str key).
Proof.
  unfold connect_kwargs, environ_getitem. cbn [obind].
  destruct (environ w !! "DB_HOST") eqn:H1; cbn [obind];
    [|intros [= <-]; exists "DB_HOST"; simpl; auto].
  destruct (environ w !! "DB_NAME") eqn:H2; cbn [obind];
    [|intros [= <-]; exists "DB_NAME"; simpl; auto].
  destruct (environ w !! "DB_USER") eqn:H3; cbn [obind];
    [|intros [= <-]; exists "DB_USER"; simpl; auto].
  destruct (environ w !! "DB_PASSWORD") eqn:H4; cbn [obind];
    [|intros [= <-]; exists "DB_PASSWORD"; simpl; auto 6].
  discriminate.
Qed.

Lemma connect_kwargs_missing (w : world) (key : string) :
  In key ["DB_HOST"; "DB_NAME"; "DB_USER"; "DB_PASSWORD"] ->
  environ w !! key = None ->
  exists e, connect_kwargs w = Raises e /\ exn_class_of e = KeyError.
Proof.
  intros HIn Hnone. unfold connect_kwargs, environ_getitem.
  destruct (environ w !! "DB_HOST") eqn:H1; cbn [obind]; [|eauto].
  destruct (environ w !! "DB_NAME") eqn:H2; cbn [obind]; [|eauto].
  destruct (environ w !! "DB_USER") eqn:H3; cbn [obind]; [|eauto].
  destruct (environ w !! "DB_PASSWORD") eqn:H4; cbn [obind]; [|eauto].
  exfalso. simpl in HIn.
  destruct HIn as [<-|[<-|[<-|[<-|[]]]]]; congruence.
Qed.

(** ** The fetch *)

(** The first part of the handler, when the feed arrives and decodes. *)
Lemma handler_body_fetched (w : world) (st : state) (r : http_response)
    (data feed : pyval) :
  http_get w = Returns r ->
  raise_for_status r = Returns tt ->
  resp_json r = Returns data ->
  py_get data "data" PNone = Returns feed ->
  handler_body w st =
    (if negb (truthy feed)
     then ret (error_response 400 "No data received from API")
     else process_feed w data) (emit (EvHttpGet url headers 30) st).
Proof.
  intros Hget Hstatus Hjson Hfeed. unfold handler_body.
  cbv beta iota zeta delta [bind requests_get modify lift].
  rewrite Hget. cbv beta iota. rewrite Hstatus. cbv beta iota.
  rewrite Hjson. cbv beta iota. rewrite Hfeed. reflexivity.
Qed.

(** A value [data.get('data')] finds true is the one [data['data']]
    reads. *)
Lemma py_get_truthy_getitem (data feed : pyval) :
  py_get data "data" PNone = Returns feed ->
  truthy feed = true ->
  py_getitem data "data" = Returns feed.
Proof.
  destruct data; try discriminate. cbn [py_get py_getitem].
  destruct (dict_lookup "data" entries); intros [= <-]; [reflexivity|discriminate].
Qed.

(** C5. When the HTTP fetch times out the handler answers 504 with the
    body [{"error": "Request timeout - API took too long to respond"}];
    the only calls made are the GET and the print of the message, so no
    connection is attempted, and the global [conn] and the table are as
    they were. *)
Theorem timeout_gives_504 (w : world) (event context : pyval) (st : state)
    (e : exn) :
  http_get w = Raises e ->
  is_Timeout e = true ->
  lambda_handler w event context st =
    (Returns (error_response 504 "Request timeout - API took too long to respond"),
     {| conn := conn st; cursor := None; committed := committed st;
        pending := pending st;
        log := EvPrint "Request timeout - API took too long to respond"
                 :: EvHttpGet url headers 30 :: log st |}).
Proof.
  intros Hget Ht. unfold lambda_handler, handler_body. run.
  rewrite Hget. run. rewrite Ht. reflexivity.
Qed.

(** C4. When the decoded response is a mapping without a [data] key, or
    with an empty list under it, the handler answers 400 with the body
    [{"error": "No data received from API"}]; the only call made is the
    GET, so no connection is acquired, and the table is as it was. *)
Theorem no_data_gives_400 (w : world) (event context : pyval) (st : state)
    (r : http_response) (entries : list (string * pyval)) :
  http_get w = Returns r ->
  raise_for_status r = Returns tt ->
  resp_json r = Returns (PDict entries) ->
  dict_lookup "data" entries = None \/ dict_lookup "data" entries = Some (PList []) ->
  lambda_handler w event context st =
    (Returns (error_response 400 "No data received from API"),
     {| conn := conn st; cursor := None; committed := committed st;
        pending := pending st;
        log := EvHttpGet url headers 30 :: log st |}).
Proof.
  intros Hget Hstatus Hjson Hdata.
  unfold lambda_handler. unfold bind at 1. cbv beta iota delta [modify].
  unfold try_finally, try_except.
  rewrite (handler_body_fetched w _ r (PDict entries)
             (match dict_lookup "data" entries with Some v => v | None => PNone end)
             Hget Hstatus Hjson eq_refl).
  destruct Hdata as [-> | ->]; reflexivity.
Qed.

(** The middle part of the handler up to the call of
    [get_db_connection]. *)
Lemma process_feed_announced (w : world) (st : state) (data feed : pyval) (n : Z) :
  py_getitem data "data" = Returns feed ->
  py_len feed = Returns n ->
  process_feed w data st =
    (connection <- get_db_connection w ;;
     c <- connection_cursor w connection ;;
     modify (set_cursor (Some c)) ;;
     feed <- lift (py_getitem data "data") ;;
     items <- lift (py_iter feed) ;;
     batch_data <- normalize_loop items [] ;;
     write_batch w batch_data)
      (emit (EvPrint ("Successfully fetched " +:+ pretty n +:+ " records from IDX")) st).
Proof.
  intros Hfeed Hlen. unfold process_feed.
  unfold bind at 1. unfold lift at 1. rewrite Hfeed.
  unfold bind at 1. unfold lift at 1. rewrite Hlen.
  unfold bind at 1. reflexivity.
Qed.

(** C10. When a new connection must be opened ([conn] is [None] or
    closed) and one of [DB_HOST], [DB_NAME], [DB_USER], [DB_PASSWORD] is
    not in the environment, building the arguments of [psycopg2.connect]
    raises a [KeyError]; [get_db_connection] prints it, resets [conn] to
    [None] and raises it again; the handler answers 500 with the body
    [{"error": "Unexpected error: <detail>"}], the detail being the
    quoted name of the first missing variable.  [psycopg2.connect] is
    never called and nothing is rolled back. *)
Theorem missing_config_gives_unexpected_error (w : world) (event context : pyval)
    (st : state) (r : http_response) (data feed : pyval) (n : Z) (key : string) :
  http_get w = Returns r ->
  raise_for_status r = Returns tt ->
  resp_json r = Returns data ->
  py_get data "data" PNone = Returns feed ->
  truthy feed = true ->
  py_len feed = Returns n ->
  conn_unusable (conn st) = true ->
  In key ["DB_HOST"; "DB_NAME"; "DB_USER"; "DB_PASSWORD"] ->
  environ w !! key = None ->
  exists (e : exn) (first : string),
    In first ["DB_HOST"; "DB_NAME"; "DB_USER"; "DB_PASSWORD"] /\
    environ w !! first = None /\
    e = Exn KeyError (Repr.repr_str first) /\
    connect_kwargs w = Raises e /\
    (forall st1, conn_unusable (conn st1) = true ->
       get_db_connection w st1 =
         (Raises e,
          set_conn None (emit (EvPrint ("Connection error: " +:+ exn_str e)) st1))) /\
    lambda_handler w event context st =
      (Returns (error_response 500 ("Unexpected error: " +:+ exn_str e)),
       {| conn := None; cursor := None; committed := committed st;
          pending := pending st;
          log := EvPrint ("Unexpected error: " +:+ exn_str e)
                   :: EvPrint ("Connection error: " +:+ exn_str e)
                   :: EvPrint ("Successfully fetched " +:+ pretty n
                                 +:+ " records from IDX")
                   :: EvHttpGet url headers 30 :: log st |}).
Proof.
  intros Hget Hstatus Hjson Hfeed Htrue Hlen Hconn HIn Hnone.
  destruct (connect_kwargs_missing w key HIn Hnone) as (e & Hk & _).
  destruct (connect_kwargs_raises w e Hk) as (first & HIn' & Hnone' & He).
  exists e, first. repeat split; try assumption.
  - intros st1 H1. apply get_db_connection_config_missing; try assumption.
    subst e. reflexivity.
  - unfold lambda_handler. unfold bind at 1. cbv beta iota delta [modify].
    unfold try_finally, try_except.
    rewrite (handler_body_fetched w _ r data feed Hget Hstatus Hjson Hfeed).
    rewrite Htrue. cbn [negb].
    rewrite (process_feed_announced w _ data feed n
               (py_get_truthy_getitem data feed Hfeed Htrue) Hlen).
    unfold bind at 1.
    rewrite (get_db_connection_config_missing w _ e); try assumption;
      [|subst e; reflexivity].
    subst e. reflexivity.
Qed.

(** ** The loop *)

Lemma emits_nil (st : state) : emits [] st = st.
Proof. destruct st. reflexivity. Qed.

Lemma emits_emit (a : list call) (e : call) (st : state) :
  emits a (emit e st) = emits (a ++ [e])%list st.
Proof.
  unfold emits, emit. cbn [conn cursor committed pending log].
  now rewrite <- app_assoc.
Qed.

Lemma normalize_loop_keeps (item : pyval) (rest : list pyval)
    (acc : list (list pyval)) (st : state) (params : list pyval) :
  normalize_item item = Returns params ->
  normalize_loop (item :: rest) acc st = normalize_loop rest (acc ++ [params])%list st.
Proof. intros H. cbn [normalize_loop]. run. rewrite H. reflexivity. Qed.

Lemma normalize_loop_skips (item : pyval) (rest : list pyval)
    (acc : list (list pyval)) (st : state) (e : exn) :
  normalize_item item = Raises e ->
  is_ValueError e || is_KeyError e = true ->
  normalize_loop (item :: rest) acc st =
    normalize_loop rest acc
      (emit (EvPrint ("Skipping record due to error: " +:+ exn_str e)) st).
Proof. intros H Hc. cbn [normalize_loop]. run. rewrite H, Hc. reflexivity. Qed.

Lemma normalize_loop_aborts (item : pyval) (rest : list pyval)
    (acc : list (list pyval)) (st : state) (e : exn) :
  normalize_item item = Raises e ->
  is_ValueError e || is_KeyError e = false ->
  normalize_loop (item :: rest) acc st = (Raises e, st).
Proof. intros H Hc. cbn [normalize_loop]. run. rewrite H, Hc. reflexivity. Qed.

(** Over items none of which escapes, the loop appends their records and
    prints a line for each one it leaves out. *)
Lemma normalize_loop_prefix (pre rest : list pyval) (acc : list (list pyval))
    (st : state) :
  none_escapes pre = true ->
  normalize_loop (pre ++ rest) acc st =
    normalize_loop rest (acc ++ records pre)%list (emits (skip_log pre) st).
Proof.
  revert acc st. induction pre as [|item pre IH]; intros acc st Hne.
  - cbn [app records skip_log]. now rewrite app_nil_r, emits_nil.
  - cbn [none_escapes forallb] in Hne. apply andb_true_iff in Hne as [Hi Hne].
    unfold escapes in Hi. cbn [app records skip_log].
    destruct (normalize_item item) as [params|e] eqn:Hitem.
    + rewrite (normalize_loop_keeps _ _ _ _ _ Hitem), IH by exact Hne.
      now rewrite app_nil_r, <- app_assoc.
    + apply negb_true_iff, negb_false_iff in Hi.
      rewrite (normalize_loop_skips _ _ _ _ _ Hitem Hi), IH by exact Hne.
      now rewrite emits_emit.
Qed.

Lemma normalize_loop_all (items : list pyval) (st : state) :
  none_escapes items = true ->
  normalize_loop items [] st = (Returns (records items), emits (skip_log items) st).
Proof.
  intros Hne. rewrite <- (app_nil_r items) at 1.
  rewrite normalize_loop_prefix by exact Hne. reflexivity.
Qed.

(** ** From the connection to the batch *)

Lemma get_db_connection_acquires (w : world) (st : state) :
  acquires w st ->
  get_db_connection w st = (Returns (conn (acquired w st)), acquired w st) /\
  exists c, conn (acquired w st) = Some c.
Proof.
  intros Hacq. unfold acquired.
  destruct (conn_unusable (conn st)) eqn:Hu.
  - destruct Hacq as [Hacq | (kwargs & Hk & Hc)]; [congruence|].
    rewrite Hk. split; [|eexists; reflexivity].
    now apply get_db_connection_connects.
  - split.
    + now apply get_db_connection_reuses.
    + destruct (conn st); [eexists; reflexivity | discriminate].
Qed.

Lemma acquired_keeps (w : world) (st : state) :
  committed (acquired w st) = committed st /\
  cursor (acquired w st) = cursor st /\
  exists evs, log (acquired w st) = (evs ++ log st)%list /\
              forall ev, In ev evs -> exists kwargs, ev = EvConnect kwargs.
Proof.
  unfold acquired. destruct (conn_unusable (conn st)).
  - destruct (connect_kwargs w) as [kwargs|].
    + repeat split. exists [EvConnect kwargs]. split; [reflexivity|].
      intros ev [<-|[]]. eexists; reflexivity.
    + repeat split. exists []. split; [reflexivity | intros ev []].
  - repeat split. exists []. split; [reflexivity | intros ev []].
Qed.

Lemma process_feed_ready (w : world) (st : state) (data feed : pyval) (n : Z)
    (items : list pyval) :
  py_getitem data "data" = Returns feed ->
  py_len feed = Returns n ->
  py_iter feed = Returns items ->
  acquires w st ->
  cursor_fails w = None ->
  process_feed w data st =
    (batch_data <- normalize_loop items [] ;; write_batch w batch_data) (ready w n st).
Proof.
  intros Hfeed Hlen Hiter Hacq Hcur.
  rewrite (process_feed_announced w st data feed n Hfeed Hlen).
  unfold bind at 1.
  destruct (get_db_connection_acquires w
              (emit (EvPrint ("Successfully fetched " +:+ pretty n
                                +:+ " records from IDX")) st) Hacq)
    as (-> & c & Hc).
  rewrite Hc. unfold bind at 1. unfold connection_cursor.
  unfold bind at 1. cbv beta iota delta [modify]. rewrite Hcur.
  cbv beta iota delta [ret]. unfold bind at 1. cbv beta iota delta [modify].
  unfold bind at 1. unfold lift at 1. rewrite Hfeed.
  unfold bind at 1. unfold lift at 1. rewrite Hiter.
  reflexivity.
Qed.

Lemma ready_keeps (w : world) (n : Z) (st : state) :
  committed (ready w n st) = committed st /\
  cursor (ready w n st) = Some (Cursor false) /\
  (acquires w st -> exists c, conn (ready w n st) = Some c).
Proof.
  unfold ready. cbn [set_cursor emit conn cursor committed].
  destruct (acquired_keeps w
              (emit (EvPrint ("Successfully fetched " +:+ pretty n
                                +:+ " records from IDX")) st)) as (Hc & _ & _).
  rewrite Hc. repeat split. intros Hacq.
  apply (get_db_connection_acquires w
           (emit (EvPrint ("Successfully fetched " +:+ pretty n
                             +:+ " records from IDX")) st) Hacq).
Qed.

Lemma usable_is_open (c : option connection) :
  conn_unusable c = false -> open_or_none c = true.
Proof. destruct c as [[[|]]|]; try discriminate; reflexivity. Qed.

(** The connection the loop starts with is open. *)
Lemma ready_open (w : world) (n : Z) (st : state) :
  acquires w st -> open_or_none (conn (ready w n st)) = true.
Proof.
  intros Hacq. unfold ready, acquired, acquires in *.
  destruct st as [c cu t p l]. cbn [set_cursor emit conn] in *.
  destruct (conn_unusable c) eqn:Hu.
  - destruct Hacq as [H | (kwargs & -> & _)]; [congruence | reflexivity].
  - destruct c as [[[|]]|]; try discriminate Hu; reflexivity.
Qed.

(** ** The write *)

Lemma run_batch_accepts (w : world) (batch : list (list pyval)) (i : nat) (t : table) :
  (forall j, (i <= j < i + length batch)%nat -> execute_fails w j = None) ->
  run_batch w insert_query i batch t = (Returns tt, apply_batch w batch t).
Proof.
  revert i t. induction batch as [|params batch IH]; intros i t Hok.
  - reflexivity.
  - cbn [run_batch]. rewrite (Hok i) by (cbn [length]; lia).
    rewrite IH; [reflexivity|]. intros j Hj. apply Hok. cbn [length]. lia.
Qed.


Lemma write_batch_succeeds (w : world) (batch : list (list pyval)) (st : state) :
  (forall j, (j < length batch)%nat -> execute_fails w j = None) ->
  commit_fails w = None ->
  write_batch w batch st =
    (Returns (success_response (Z.of_nat (length batch)) (datetime_now w)),
     {| conn := conn st; cursor := cursor st;
        committed := apply_batch w batch (view st);
        pending := None;
        log := (EvPrint ("Successfully processed "
                           +:+ pretty (Z.of_nat (length batch)) +:+ " stock records")
                  :: write_log batch ++ log st)%list |}).
Proof.
  intros Hok Hc. unfold write_batch. destruct batch as [|params batch].
  - run. rewrite Hc. reflexivity.
  - run. rewrite (run_batch_accepts w (params :: batch) 0 _)
      by (intros j Hj; apply Hok; lia).
    run. rewrite Hc. reflexivity.
Qed.



(** ** The [except] clauses and the [finally] *)

Lemma handle_database_error (e : exn) (st : state) :
  is_DatabaseError e = true ->
  open_or_none (conn st) = true ->
  handle_exception e st =
    (Returns (error_response 500 ("Database error: " +:+ exn_str e)),
     rolled_back (emit (EvPrint ("Database error: " +:+ exn_str e)) st)).
Proof.
  intros He Hopen. unfold handle_exception, is_Timeout, is_HTTPError, is_RequestException.
  unfold is_DatabaseError in *. destruct (exn_class_of e); try discriminate.
  unfold rolled_back. run. destruct (conn st) as [[[|]]|]; try discriminate Hopen;
    reflexivity.
Qed.

Lemma handle_unexpected_error (e : exn) (st : state) :
  is_RequestException e = false ->
  is_DatabaseError e = false ->
  is_Exception e = true ->
  open_or_none (conn st) = true ->
  handle_exception e st =
    (Returns (error_response 500 ("Unexpected error: " +:+ exn_str e)),
     rolled_back (emit (EvPrint ("Unexpected error: " +:+ exn_str e)) st)).
Proof.
  intros Hr Hd He Hopen. unfold handle_exception.
  unfold is_Timeout, is_HTTPError, is_RequestException, is_DatabaseError,
    is_Exception in *.
  destruct (exn_class_of e); try discriminate;
    unfold rolled_back; run;
    destruct (conn st) as [[[|]]|]; try discriminate Hopen; reflexivity.
Qed.

Lemma release_cursor_releases (st : state) :
  release_cursor st = (Returns tt, released st).
Proof. unfold released. run. destruct (cursor st); reflexivity. Qed.

(** The handler once the feed is in hand. *)
Lemma lambda_handler_fetched (w : world) (event context : pyval) (st : state)
    (r : http_response) (data feed : pyval) :
  http_get w = Returns r ->
  raise_for_status r = Returns tt ->
  resp_json r = Returns data ->
  py_get data "data" PNone = Returns feed ->
  truthy feed = true ->
  lambda_handler w event context st =
    try_finally (try_except (process_feed w data) handle_exception) release_cursor
      (emit (EvHttpGet url headers 30) (set_cursor None st)).
Proof.
  intros Hget Hstatus Hjson Hfeed Htrue.
  unfold lambda_handler. unfold bind at 1. cbv beta iota delta [modify].
  unfold try_finally, try_except.
  rewrite (handler_body_fetched w _ r data feed Hget Hstatus Hjson Hfeed).
  rewrite Htrue. reflexivity.
Qed.

(** The handler when the middle part raises [e] and a clause answers. *)
Lemma try_finally_handled (m : M response) (st st1 st2 : state) (e : exn)
    (resp : response) :
  m st = (Raises e, st1) ->
  handle_exception e st1 = (Returns resp, st2) ->
  try_finally (try_except m handle_exception) release_cursor st =
    (Returns resp, released st2).
Proof.
  intros Hm Hh. unfold try_finally, try_except. rewrite Hm, Hh.
  now rewrite release_cursor_releases.
Qed.

Lemma try_finally_returned (m : M response) (st st1 : state) (resp : response) :
  m st = (Returns resp, st1) ->
  try_finally (try_except m handle_exception) release_cursor st =
    (Returns resp, released st1).
Proof.
  intros Hm. unfold try_finally, try_except. rewrite Hm.
  now rewrite release_cursor_releases.
Qed.


Lemma ready_log (w : world) (n : Z) (st : state) :
  exists evs,
    log (ready w n st) =
      (EvCursor :: evs ++
       EvPrint ("Successfully fetched " +:+ pretty n +:+ " records from IDX")
         :: log st)%list /\
    forall ev, In ev evs -> exists kwargs, ev = EvConnect kwargs.
Proof.
  unfold ready. cbn [set_cursor emit log].
  destruct (acquired_keeps w
              (emit (EvPrint ("Successfully fetched " +:+ pretty n
                                +:+ " records from IDX")) st))
    as (_ & _ & evs & Hlog & Hevs).
  exists evs. rewrite Hlog. auto.
Qed.

Ltac same_list :=
  repeat (progress (cbn [app]; rewrite <- ?app_assoc)); reflexivity.

Ltac projections :=
  unfold released, rolled_back;
  cbn [emits emit set_conn set_cursor set_committed set_pending
       conn cursor committed pending log].


(** ** What normalising an item can raise *)

Lemma strptime_raises (v : pyval) (e : exn) :
  strptime v = Raises e ->
  match v with
  | PStr _ => exn_class_of e = ValueError
  | _ => exn_class_of e = TypeError
  end.
Proof.
  destruct v; cbn [strptime]; try (intros [= <-]; reflexivity).
  repeat case_match; intros [= <-]; reflexivity.
Qed.

Lemma non_mapping_raises_TypeError (item : pyval) :
  (forall entries, item <> PDict entries) ->
  exists e, normalize_item item = Raises e /\ exn_class_of e = TypeError.
Proof.
  intros Hnd. destruct item; try (eexists; split; reflexivity).
  now destruct (Hnd entries).
Qed.

Lemma normalize_item_raises (item : pyval) (e : exn) :
  normalize_item item = Raises e ->
  exn_class_of e = KeyError \/ exn_class_of e = ValueError
  \/ exn_class_of e = TypeError.
Proof.
  destruct item; try (intros [= <-]; auto).
  unfold normalize_item. cbn [py_getitem py_get obind].
  destruct (dict_lookup "Date" entries) as [date_str|];
    [|intros [= <-]; auto].
  cbn [obind]. destruct (strptime date_str) as [parsed|e'] eqn:Hp.
  - cbn [obind]. destruct (dict_lookup "StockCode" entries);
      [|intros [= <-]; auto].
    cbn [obind]. destruct (dict_lookup "StockName" entries);
      [|intros [= <-]; auto].
    discriminate.
  - cbn [obind]. intros [= <-]. apply strptime_raises in Hp.
    destruct date_str; auto.
Qed.

Lemma skip_log_prints (items : list pyval) (ev : call) :
  In ev (skip_log items) -> exists line, ev = EvPrint line.
Proof.
  induction items as [|item items IH]; cbn [skip_log]; [intros []|].
  intros Hin. apply in_app_or in Hin as [Hin|Hin]; [auto|].
  destruct (normalize_item item); [destruct Hin|].
  destruct Hin as [<-|[]]. eexists; reflexivity.
Qed.

(** C9. In the loop, an item whose normalisation raises [e] is left out
    (a line printed, the loop going on) exactly when [e] is a
    [ValueError] or a [KeyError]; any other exception leaves the loop,
    as the [TypeError] of an item that is not a mapping does.  When it is
    the first such item of the feed, the handler answers 500 with the
    body [{"error": "Unexpected error: <detail>"}]: the transaction is
    rolled back, neither [executemany] nor [commit] is called, and the
    committed table is what it was. *)
Theorem other_exceptions_abort (w : world) (event context : pyval) (st : state)
    (r : http_response) (data feed : pyval) (n : Z)
    (pre : list pyval) (item : pyval) (post : list pyval) (e : exn) :
  http_get w = Returns r ->
  raise_for_status r = Returns tt ->
  resp_json r = Returns data ->
  py_get data "data" PNone = Returns feed ->
  truthy feed = true ->
  py_len feed = Returns n ->
  py_iter feed = Returns (pre ++ item :: post)%list ->
  acquires w st ->
  cursor_fails w = None ->
  none_escapes pre = true ->
  normalize_item item = Raises e ->
  (forall rest acc s,
     normalize_loop (item :: rest) acc s =
       if is_ValueError e || is_KeyError e
       then normalize_loop rest acc
              (emit (EvPrint ("Skipping record due to error: " +:+ exn_str e)) s)
       else (Raises e, s)) /\
  (forall other, (forall entries, other <> PDict entries) ->
     exists e', normalize_item other = Raises e' /\ exn_class_of e' = TypeError /\
                is_ValueError e' || is_KeyError e' = false) /\
  (is_ValueError e || is_KeyError e = false ->
   exists (st' : state) (evs : list call),
     lambda_handler w event context st =
       (Returns (error_response 500 ("Unexpected error: " +:+ exn_str e)), st') /\
     log st' = (evs ++ log st)%list /\
     In EvRollback evs /\
     (forall batch, ~ In (EvExecutemany batch) evs) /\
     ~ In EvCommit evs /\
     committed st' = committed st /\
     pending st' = None).
Proof.
  intros Hget Hstatus Hjson Hfeed Htrue Hlen Hiter Hacq Hcur Hne Hitem.
  split; [|split].
  - intros rest acc s.
    destruct (is_ValueError e || is_KeyError e) eqn:Hc.
    + now apply normalize_loop_skips.
    + now apply normalize_loop_aborts.
  - intros other Hnd.
    destruct (non_mapping_raises_TypeError other Hnd) as (e' & He' & Hcls).
    exists e'. repeat split; try assumption.
    unfold is_ValueError, is_KeyError. now rewrite Hcls.
  - intros Hesc.
    assert (Hcls : is_RequestException e = false /\ is_DatabaseError e = false
                   /\ is_Exception e = true).
    { unfold is_RequestException, is_DatabaseError, is_Exception.
      destruct (normalize_item_raises item e Hitem) as [-> | [-> | ->]]; auto. }
    destruct Hcls as (Hreq & Hdb & Hexn).
    pose proof (py_get_truthy_getitem data feed Hfeed Htrue) as Hdata.
    rewrite (lambda_handler_fetched w event context st r data feed
               Hget Hstatus Hjson Hfeed Htrue).
    set (st0 := emit (EvHttpGet url headers 30) (set_cursor None st)).
    destruct (ready_keeps w n st0) as (Hcom & Hcurs & Hconn).
    destruct (Hconn Hacq) as (c & Hc).
    destruct (ready_log w n st0) as (evs0 & Hlog & Hevs0).
    eexists. eexists. split.
    + eapply try_finally_handled.
      * rewrite (process_feed_ready w st0 data feed n _ Hdata Hlen Hiter Hacq Hcur).
        unfold bind at 1. rewrite (normalize_loop_prefix pre _ _ _ Hne).
        rewrite (normalize_loop_aborts _ _ _ _ _ Hitem Hesc). reflexivity.
      * apply handle_unexpected_error; try assumption.
        exact (ready_open w n st0 Hacq).
    + projections. rewrite Hc. projections. rewrite Hcurs. projections.
      rewrite Hlog, Hcom. subst st0. projections.
      split; [|split; [|split; [|split; [|split; reflexivity]]]].
      * instantiate (1 := (EvCursorClose :: EvRollback :: _ ::
                           skip_log pre ++ EvCursor :: evs0 ++ [_; _])%list).
        same_list.
      * simpl. auto.
      * intros batch Hin. simpl in Hin.
        destruct Hin as [Hin|[Hin|[Hin|Hin]]]; try discriminate.
        apply in_app_or in Hin as [Hin|[Hin|Hin]]; try discriminate.
        -- apply skip_log_prints in Hin as (line & Hin). discriminate.
        -- apply in_app_or in Hin as [Hin|[Hin|[Hin|[]]]]; try discriminate.
           apply Hevs0 in Hin as (kwargs & Hin). discriminate.
      * intros Hin. simpl in Hin.
        destruct Hin as [Hin|[Hin|[Hin|Hin]]]; try discriminate.
        apply in_app_or in Hin as [Hin|[Hin|Hin]]; try discriminate.
        -- apply skip_log_prints in Hin as (line & Hin). discriminate.
        -- apply in_app_or in Hin as [Hin|[Hin|[Hin|[]]]]; try discriminate.
           apply Hevs0 in Hin as (kwargs & Hin). discriminate.
Qed.

(** ** Feeds of well-typed items *)

Lemma string_dated_normalizes (item : pyval) :
  string_dated item = true ->
  match normalize_item item with
  | Returns _ => malformed item = false
  | Raises e => malformed item = true /\ is_ValueError e || is_KeyError e = true
  end.
Proof.
  destruct item; try discriminate.
  unfold string_dated, malformed, date_unparseable, missing, normalize_item.
  cbn [py_getitem py_get obind].
  destruct (dict_lookup "Date" entries) as [v|]; [|intros _; split; reflexivity].
  destruct v; try discriminate. intros _. cbn [obind].
  destruct (strptime (PStr s)) as [parsed|e] eqn:Hp; cbn [obind].
  - destruct (dict_lookup "StockCode" entries); cbn [obind];
      [|split; reflexivity].
    destruct (dict_lookup "StockName" entries); cbn [obind];
      [reflexivity | split; reflexivity].
  - apply strptime_raises in Hp. split; [reflexivity|].
    unfold is_ValueError. now rewrite Hp.
Qed.

Lemma ascii_dated_feed (items : list pyval) :
  forallb ascii_dated items = true -> forallb string_dated items = true.
Proof.
  intros H. rewrite forallb_forall in *. intros item Hin.
  specialize (H item Hin). unfold ascii_dated in H. unfold string_dated.
  destruct item; try discriminate.
  destruct (dict_lookup "Date" entries) as [[]|]; congruence.
Qed.

Lemma string_dated_feed (items : list pyval) :
  forallb string_dated items = true ->
  none_escapes items = true /\
  Forall2 (fun item params => normalize_item item = Returns params)
          (List.filter (fun item => negb (malformed item)) items) (records items) /\
  (length (records items) + length (List.filter malformed items))%nat = length items /\
  length (skip_log items) = length (List.filter malformed items).
Proof.
  induction items as [|item items IH]; intros Hall.
  - repeat split. constructor.
  - cbn [forallb] in Hall. apply andb_true_iff in Hall as [Hitem Hall].
    destruct (IH Hall) as (Hne & Hrec & Hlen & Hskip).
    pose proof (string_dated_normalizes item Hitem) as Hn.
    unfold none_escapes in *. cbn [forallb List.filter records skip_log].
    unfold escapes. rewrite length_app.
    destruct (normalize_item item) as [params|e] eqn:Hnorm.
    + rewrite Hn. cbn [negb andb length]. repeat split; try assumption; try lia.
      constructor; assumption.
    + destruct Hn as [-> Hcls]. rewrite Hcls.
      cbn [negb andb length]. repeat split; try assumption; lia.
Qed.

Lemma acquired_view (w : world) (st1 st2 : state) :
  acquires w st1 ->
  conn st1 = conn st2 -> committed st1 = committed st2 -> pending st1 = pending st2 ->
  view (acquired w st2) = starting_table st1.
Proof.
  intros Hacq Hc Hm Hp. unfold acquired, starting_table, view. rewrite <- Hc.
  destruct (conn_unusable (conn st1)) eqn:Hu.
  - destruct Hacq as [Hacq | (kwargs & -> & _)]; [congruence|].
    cbn [set_conn set_pending emit committed pending]. now rewrite Hm.
  - now rewrite Hm, Hp.
Qed.

(** C2, as the code has it.  Take a feed of N items, each a mapping whose
    [Date], when present, is a string of ASCII characters, K of them
    malformed (the date does not parse, or [Date], [StockCode] or
    [StockName] is missing).
    The loop leaves out exactly the K malformed items, printing a line
    for each, and never raises: the batch is the records of the other
    N - K items, in feed order.  When the calls to the database succeed
    the handler answers 200 with [records_processed] equal to N - K, and
    the table committed is the batch applied to the table the
    transaction started from. *)
Theorem malformed_items_are_skipped (w : world) (event context : pyval) (st : state)
    (r : http_response) (data : pyval) (items : list pyval) :
  http_get w = Returns r ->
  raise_for_status r = Returns tt ->
  resp_json r = Returns data ->
  py_get data "data" PNone = Returns (PList items) ->
  items <> [] ->
  forallb ascii_dated items = true ->
  let N := length items in
  let K := length (List.filter malformed items) in
  let batch := records items in
  Forall2 (fun item params => normalize_item item = Returns params)
          (List.filter (fun item => negb (malformed item)) items) batch /\
  length batch = (N - K)%nat /\
  length (skip_log items) = K /\
  (forall s, normalize_loop items [] s = (Returns batch, emits (skip_log items) s)) /\
  (acquires w st ->
   cursor_fails w = None ->
   (forall j, (j < length batch)%nat -> execute_fails w j = None) ->
   commit_fails w = None ->
   exists (st' : state) (evs : list call),
     lambda_handler w event context st =
       (Returns (success_response (Z.of_nat (N - K)) (datetime_now w)), st') /\
     log st' = (evs ++ log st)%list /\
     (batch <> [] -> In (EvExecutemany batch) evs) /\
     In EvCommit evs /\
     ~ In EvRollback evs /\
     committed st' = apply_batch w batch (starting_table st) /\
     pending st' = None).
Proof.
  intros Hget Hstatus Hjson Hfeed Hnonempty Hall N K batch.
  apply ascii_dated_feed in Hall.
  destruct (string_dated_feed items Hall) as (Hne & Hrec & Hlen & Hskip).
  assert (HNK : length batch = (N - K)%nat) by (subst N K batch; lia).
  split; [exact Hrec|]. split; [exact HNK|]. split; [exact Hskip|].
  split; [intros s; now apply normalize_loop_all|].
  intros Hacq Hcur Hok Hcommit.
  assert (Htrue : truthy (PList items) = true)
    by (destruct items; [congruence | reflexivity]).
  pose proof (py_get_truthy_getitem data _ Hfeed Htrue) as Hdata.
  rewrite (lambda_handler_fetched w event context st r data _
             Hget Hstatus Hjson Hfeed Htrue).
  set (st0 := emit (EvHttpGet url headers 30) (set_cursor None st)).
  destruct (ready_keeps w (Z.of_nat (length items)) st0) as (Hcom & Hcurs & Hconn).
  destruct (ready_log w (Z.of_nat (length items)) st0) as (evs0 & Hlog & Hevs0).
  eexists. eexists. split.
  - eapply try_finally_returned.
    rewrite (process_feed_ready w st0 data (PList items) _ items
               Hdata eq_refl eq_refl Hacq Hcur).
    unfold bind at 1. rewrite (normalize_loop_all items _ Hne).
    rewrite (write_batch_succeeds w (records items) _ Hok Hcommit).
    fold batch. rewrite HNK. reflexivity.
  - projections. rewrite Hcurs. projections. rewrite Hlog. subst st0. projections.
    split; [|split; [|split; [|split; [|split; [|reflexivity]]]]].
    + instantiate (1 := (EvCursorClose :: _ :: write_log batch ++
                         skip_log items ++ EvCursor :: evs0 ++ [_; _])%list).
      same_list.
    + intros Hb. right. right. apply in_or_app. left.
      unfold write_log. destruct batch; [congruence|]. simpl. auto.
    + simpl. auto.
    + intros Hin. simpl in Hin.
      destruct Hin as [Hin|[Hin|[Hin|Hin]]]; try discriminate.
      apply in_app_or in Hin as [Hin|Hin].
      { destruct batch; [destruct Hin|].
        destruct Hin as [Hin|[]]. discriminate. }
      apply in_app_or in Hin as [Hin|[Hin|Hin]]; try discriminate.
      * apply skip_log_prints in Hin as (line & Hin). discriminate.
      * apply in_app_or in Hin as [Hin|[Hin|[Hin|[]]]]; try discriminate.
        apply Hevs0 in Hin as (kwargs & Hin). discriminate.
    + f_equal. unfold ready.
      change (view (emits (skip_log items)
                (set_cursor (Some (Cursor false))
                   (emit EvCursor
                      (acquired w
                         (emit (EvPrint ("Successfully fetched "
                                           +:+ pretty (Z.of_nat (length items))
                                           +:+ " records from IDX"))
                            (emit (EvHttpGet url headers 30)
                               (set_cursor None st))))))))
        with (view (acquired w
                      (emit (EvPrint ("Successfully fetched "
                                        +:+ pretty (Z.of_nat (length items))
                                        +:+ " records from IDX"))
                         (emit (EvHttpGet url headers 30) (set_cursor None st))))).
      now apply acquired_view.
Qed.

(** ** The cursor on every path *)

Lemma quiet_refl (st : state) : quiet st st.
Proof.
  split; [reflexivity|]. exists []. split; [reflexivity|]. split; intros [].
Qed.

Lemma quiet_trans (st1 st2 st3 : state) :
  quiet st1 st2 -> quiet st2 st3 -> quiet st1 st3.
Proof.
  intros (Hc1 & evs1 & Hl1 & Ho1 & Hx1) (Hc2 & evs2 & Hl2 & Ho2 & Hx2).
  split; [congruence|]. exists (evs2 ++ evs1)%list.
  rewrite Hl2, Hl1, app_assoc. split; [reflexivity|].
  split; intros Hin; apply in_app_or in Hin as [Hin|Hin]; auto.
Qed.

Lemma quiet_emit (ev : call) (st : state) :
  ev <> EvCursor -> ev <> EvCursorClose -> quiet st (emit ev st).
Proof.
  intros Ho Hx. split; [reflexivity|]. exists [ev].
  split; [reflexivity|]. split; intros [Hin|[]]; congruence.
Qed.

Lemma quiet_set_conn (c : option connection) (st : state) : quiet st (set_conn c st).
Proof.
  split; [reflexivity|]. exists []. split; [reflexivity|]. split; intros [].
Qed.

Lemma quiet_set_pending (t : option table) (st : state) : quiet st (set_pending t st).
Proof.
  split; [reflexivity|]. exists []. split; [reflexivity|]. split; intros [].
Qed.

Lemma quiet_set_committed (t : table) (st : state) : quiet st (set_committed t st).
Proof.
  split; [reflexivity|]. exists []. split; [reflexivity|]. split; intros [].
Qed.

Lemma Quiet_ret {A : Type} (a : A) : Quiet (ret a).
Proof. intros st. apply quiet_refl. Qed.

Lemma Quiet_raise {A : Type} (e : exn) : Quiet (@raise A e).
Proof. intros st. apply quiet_refl. Qed.

Lemma Quiet_lift {A : Type} (o : outcome A) : Quiet (lift o).
Proof. intros st. apply quiet_refl. Qed.

Lemma Quiet_gets {A : Type} (f : state -> A) : Quiet (gets f).
Proof. intros st. apply quiet_refl. Qed.

Lemma Quiet_modify (f : state -> state) :
  (forall st, quiet st (f st)) -> Quiet (modify f).
Proof. intros H st. apply H. Qed.

Lemma Quiet_bind {A B : Type} (m : M A) (k : A -> M B) :
  Quiet m -> (forall a, Quiet (k a)) -> Quiet (bind m k).
Proof.
  intros Hm Hk st. unfold bind. specialize (Hm st).
  destruct (m st) as [[a|e] st1]; cbn [snd] in *; [|exact Hm].
  eapply quiet_trans; [exact Hm | apply Hk].
Qed.

Lemma Quiet_try_except {A : Type} (m : M A) (handler : exn -> M A) :
  Quiet m -> (forall e, Quiet (handler e)) -> Quiet (try_except m handler).
Proof.
  intros Hm Hh st. unfold try_except. specialize (Hm st).
  destruct (m st) as [[a|e] st1]; cbn [snd] in *; [exact Hm|].
  eapply quiet_trans; [exact Hm | apply Hh].
Qed.

Lemma Quiet_print (line : string) : Quiet (print line).
Proof. apply Quiet_modify. intros st. now apply quiet_emit. Qed.

Create HintDb quiet.
#[local] Hint Resolve Quiet_ret Quiet_raise Quiet_lift Quiet_gets Quiet_print
  quiet_set_conn quiet_set_pending quiet_set_committed : quiet.

Ltac quiet_steps :=
  repeat match goal with
    | |- Quiet (bind _ _) => apply Quiet_bind; [|intros ?]
    | |- Quiet (try_except _ _) => apply Quiet_try_except; [|intros ?]
    | |- Quiet (modify _) => apply Quiet_modify; intros ?
    | |- Quiet (if ?b then _ else _) => destruct b
    | |- Quiet (match ?x with _ => _ end) => destruct x
    | |- Quiet (let _ := _ in _) => cbv zeta
    | |- quiet ?st ?st => apply quiet_refl
    | |- quiet _ (emit _ _) => apply quiet_emit; discriminate
    | |- _ => progress auto with quiet
    end.

Lemma Quiet_requests_get (w : world) (u : string) (h : list (string * string))
    (t : Z) : Quiet (requests_get w u h t).
Proof. unfold requests_get. quiet_steps. Qed.

Lemma Quiet_psycopg2_connect (w : world) (kwargs : list (string * pyval)) :
  Quiet (psycopg2_connect w kwargs).
Proof. unfold psycopg2_connect. quiet_steps. Qed.

Lemma Quiet_get_db_connection (w : world) : Quiet (get_db_connection w).
Proof.
  unfold get_db_connection. quiet_steps. apply Quiet_psycopg2_connect.
Qed.

Lemma quiet_lose_connection (st : state) : quiet st (lose_connection st).
Proof.
  split; [reflexivity|]. exists []. split; [reflexivity|]. split; intros [].
Qed.

Lemma Quiet_failed {A : Type} (w : world) (e : exn) : Quiet (@failed A w e).
Proof.
  unfold failed. quiet_steps. apply quiet_lose_connection.
Qed.

Lemma Quiet_cursor_executemany (w : world) (q : upsert_statement)
    (batch : list (list pyval)) : Quiet (cursor_executemany w q batch).
Proof.
  unfold cursor_executemany. quiet_steps.
  intros st. destruct (run_batch w q 0 batch (view st)) as [[u|e] t].
  - apply quiet_set_pending.
  - eapply quiet_trans; [apply quiet_set_pending | apply Quiet_failed].
Qed.

Lemma Quiet_connection_commit (w : world) : Quiet (connection_commit w).
Proof.
  unfold connection_commit. quiet_steps; [apply Quiet_failed|].
  intros st. cbn [snd]. eapply quiet_trans;
    [apply quiet_set_committed | apply quiet_set_pending].
Qed.

Lemma Quiet_conn_rollback : Quiet conn_rollback.
Proof. unfold conn_rollback. quiet_steps. Qed.

Lemma Quiet_rollback_if_conn : Quiet rollback_if_conn.
Proof. unfold rollback_if_conn. quiet_steps. apply Quiet_conn_rollback. Qed.

Lemma Quiet_handle_exception (e : exn) : Quiet (handle_exception e).
Proof.
  unfold handle_exception. quiet_steps; apply Quiet_rollback_if_conn.
Qed.

Lemma Quiet_normalize_loop (items : list pyval) (acc : list (list pyval)) :
  Quiet (normalize_loop items acc).
Proof.
  revert acc. induction items as [|item items IH]; intros acc;
    cbn [normalize_loop]; quiet_steps.
Qed.

Lemma Quiet_write_batch (w : world) (batch : list (list pyval)) :
  Quiet (write_batch w batch).
Proof.
  unfold write_batch. quiet_steps;
    try apply Quiet_cursor_executemany; apply Quiet_connection_commit.
Qed.

Lemma no_cursor_of_quiet (w : world) (st st' : state) :
  quiet st st' -> no_cursor w st st'.
Proof.
  intros (Hc & evs & Hl & Ho & Hx). split; [exact Hc|].
  exists evs. split; [exact Hl|]. split; [exact Hx|]. intros Hin. now destruct Ho.
Qed.

Lemma quiet_then_no_cursor (w : world) (s1 s2 s3 : state) :
  quiet s1 s2 -> no_cursor w s2 s3 -> no_cursor w s1 s3.
Proof.
  intros (Hc1 & evs1 & Hl1 & Ho1 & Hx1) (Hc2 & evs2 & Hl2 & Hx2 & Ho2).
  split; [congruence|]. exists (evs2 ++ evs1)%list.
  rewrite Hl2, Hl1, app_assoc. split; [reflexivity|].
  split; intros Hin; apply in_app_or in Hin as [Hin|Hin]; auto; contradiction.
Qed.

Lemma quiet_then_open (w : world) (s1 s2 s3 : state) :
  quiet s1 s2 -> cursor_open w s2 s3 -> cursor_open w s1 s3.
Proof.
  intros (Hc1 & evs1 & Hl1 & Ho1 & Hx1) (Hf & Hc2 & evs2 & Hl2 & Ho2 & Hx2).
  split; [exact Hf|]. split; [exact Hc2|]. exists (evs2 ++ evs1)%list.
  rewrite Hl2, Hl1, app_assoc. split; [reflexivity|]. split.
  - apply in_or_app. now left.
  - intros Hin. apply in_app_or in Hin as [Hin|Hin]; auto.
Qed.

Lemma no_cursor_then_quiet (w : world) (s1 s2 s3 : state) :
  no_cursor w s1 s2 -> quiet s2 s3 -> no_cursor w s1 s3.
Proof.
  intros (Hc1 & evs1 & Hl1 & Hx1 & Ho1) (Hc2 & evs2 & Hl2 & Ho2 & Hx2).
  split; [congruence|]. exists (evs2 ++ evs1)%list.
  rewrite Hl2, Hl1, app_assoc. split; [reflexivity|].
  split; intros Hin; apply in_app_or in Hin as [Hin|Hin]; auto; contradiction.
Qed.

Lemma open_then_quiet (w : world) (s1 s2 s3 : state) :
  cursor_open w s1 s2 -> quiet s2 s3 -> cursor_open w s1 s3.
Proof.
  intros (Hf & Hc1 & evs1 & Hl1 & Ho1 & Hx1) (Hc2 & evs2 & Hl2 & Ho2 & Hx2).
  split; [exact Hf|]. split; [congruence|]. exists (evs2 ++ evs1)%list.
  rewrite Hl2, Hl1, app_assoc. split; [reflexivity|]. split.
  - apply in_or_app. now right.
  - intros Hin. apply in_app_or in Hin as [Hin|Hin]; auto.
Qed.

(** Statements that are quiet, then one that may open a cursor. *)
Lemma bind_quiet_first {A B : Type} (w : world) (m : M A) (k : A -> M B) :
  Quiet m ->
  (forall a s, no_cursor w s (snd (k a s)) \/ cursor_open w s (snd (k a s))) ->
  forall s, no_cursor w s (snd (bind m k s)) \/ cursor_open w s (snd (bind m k s)).
Proof.
  intros Hm Hk s. unfold bind. specialize (Hm s).
  destruct (m s) as [[a|e] s1]; cbn [snd] in *.
  - destruct (Hk a s1) as [H|H].
    + left. eapply quiet_then_no_cursor; eassumption.
    + right. eapply quiet_then_open; eassumption.
  - left. now apply no_cursor_of_quiet.
Qed.

Lemma try_except_quiet_handler {A : Type} (w : world) (m : M A)
    (handler : exn -> M A) :
  (forall s, no_cursor w s (snd (m s)) \/ cursor_open w s (snd (m s))) ->
  (forall e, Quiet (handler e)) ->
  forall s, no_cursor w s (snd (try_except m handler s))
            \/ cursor_open w s (snd (try_except m handler s)).
Proof.
  intros Hm Hh s. unfold try_except. specialize (Hm s).
  destruct (m s) as [[a|e] s1]; cbn [snd] in *; [exact Hm|].
  specialize (Hh e s1). destruct Hm as [H|H].
  - left. eapply no_cursor_then_quiet; eassumption.
  - right. eapply open_then_quiet; eassumption.
Qed.

Lemma Quiet_after_cursor (w : world) (data : pyval) :
  Quiet (feed <- lift (py_getitem data "data") ;;
         items <- lift (py_iter feed) ;;
         batch_data <- normalize_loop items [] ;;
         write_batch w batch_data).
Proof.
  quiet_steps; [apply Quiet_normalize_loop | apply Quiet_write_batch].
Qed.

Lemma process_feed_cursor (w : world) (data : pyval) (s : state) :
  no_cursor w s (snd (process_feed w data s))
  \/ cursor_open w s (snd (process_feed w data s)).
Proof.
  revert s. unfold process_feed.
  apply bind_quiet_first; [quiet_steps|intros feed].
  apply bind_quiet_first; [quiet_steps|intros n].
  apply bind_quiet_first; [quiet_steps|intros _].
  apply bind_quiet_first; [apply Quiet_get_db_connection|intros connection].
  intros s. unfold connection_cursor.
  destruct connection as [c|]; [|left; apply no_cursor_of_quiet, quiet_refl].
  unfold bind at 1. unfold bind at 1. cbv beta iota delta [modify].
  destruct (cursor_fails w) as [e|] eqn:Hf.
  - left. unfold failed, bind, modify, ret, raise.
    destruct (connection_lost w); cbn [snd]; unfold lose_connection;
      cbn [set_pending set_conn emit cursor log];
      (split; [reflexivity|]; exists [EvCursor];
       split; [reflexivity|]; split; [|intros _; congruence];
       intros [Hin|[]]; discriminate).
  - right. cbv beta iota delta [ret]. unfold bind at 1.
    cbv beta iota delta [modify].
    eapply open_then_quiet; [|apply (Quiet_after_cursor w data)].
    split; [exact Hf|]. split; [reflexivity|]. exists [EvCursor].
    split; [reflexivity|]. split; [now left|].
    intros [Hin|[]]. discriminate.
Qed.

Lemma handler_body_cursor (w : world) (s : state) :
  no_cursor w s (snd (handler_body w s)) \/ cursor_open w s (snd (handler_body w s)).
Proof.
  revert s. unfold handler_body.
  apply bind_quiet_first; [apply Quiet_requests_get|intros response].
  apply bind_quiet_first; [quiet_steps|intros _].
  apply bind_quiet_first; [quiet_steps|intros data].
  apply bind_quiet_first; [quiet_steps|intros feed].
  intros s. destruct (negb (truthy feed)).
  - left. apply no_cursor_of_quiet, quiet_refl.
  - apply process_feed_cursor.
Qed.

(** C8. However the invocation ends (with an answer, whichever branch
    built it, or with an exception no clause catches), one of two things
    holds of the calls it made.  Either no cursor was opened
    ([connection.cursor()] was not called, or it raised): [cursor] is
    still [None] and nothing was closed.  Or a cursor was opened: then
    the last call of the invocation is [cursor.close()] on it, made
    once. *)
Theorem cursor_closed_on_every_exit (w : world) (event context : pyval) (st : state) :
  let st' := snd (lambda_handler w event context st) in
  exists evs : list call,
    log st' = (evs ++ log st)%list /\
    ((cursor st' = None /\ ~ In EvCursorClose evs
      /\ (In EvCursor evs -> cursor_fails w <> None))
     \/ (cursor_fails w = None /\ cursor st' = Some (Cursor true)
         /\ exists evs', evs = EvCursorClose :: evs'
                         /\ In EvCursor evs' /\ ~ In EvCursorClose evs')).
Proof.
  assert (Hrun : snd (lambda_handler w event context st) =
                 released (snd (try_except (handler_body w) handle_exception
                                  (set_cursor None st)))).
  { unfold lambda_handler, bind, modify, try_finally.
    destruct (try_except (handler_body w) handle_exception (set_cursor None st))
      as [res st1].
    now rewrite release_cursor_releases. }
  cbv zeta. rewrite Hrun. clear Hrun.
  pose proof (try_except_quiet_handler w (handler_body w) handle_exception
                (handler_body_cursor w) Quiet_handle_exception
                (set_cursor None st)) as Hphase.
  destruct (try_except (handler_body w) handle_exception (set_cursor None st))
    as [res st1].
  cbn [snd] in *. unfold released.
  destruct Hphase as [(Hc & evs & Hl & Hx & Ho) | (Hf & Hc & evs & Hl & Ho & Hx)].
  - cbn [set_cursor cursor log] in Hc, Hl. rewrite Hc.
    exists evs. split; [exact Hl|]. left. auto.
  - cbn [set_cursor log] in Hl. rewrite Hc. cbn [set_cursor emit log cursor].
    exists (EvCursorClose :: evs). rewrite Hl. split; [reflexivity|].
    right. split; [exact Hf|]. split; [reflexivity|].
    exists evs. auto.
Qed.

(** ** The other failures of the fetch *)

(** X1. When the server answers the GET with a 4xx or 5xx status,
    [raise_for_status] raises an [HTTPError] and the handler hands the
    status on: its answer has that same status code and the body
    [{"error": "HTTP Error <code>: <code> Client|Server Error: <reason>
    for url: <url>"}].  The GET and the print are the only calls, and
    [conn] and the table are as they were. *)
Theorem http_error_status_is_passed_on (w : world) (event context : pyval)
    (st : state) (r : http_response) :
  http_get w = Returns r ->
  400 <= resp_status_code r < 600 ->
  let code := resp_status_code r in
  let detail :=
    pretty code +:+ (if code <? 500 then " Client Error: " else " Server Error: ")
      +:+ resp_reason r +:+ " for url: " +:+ resp_url r in
  let error_msg := "HTTP Error " +:+ pretty code +:+ ": " +:+ detail in
  raise_for_status r = Raises (Exn (HTTPError code) detail) /\
  lambda_handler w event context st =
    (Returns (error_response code error_msg),
     {| conn := conn st; cursor := None; committed := committed st;
        pending := pending st;
        log := EvPrint error_msg :: EvHttpGet url headers 30 :: log st |}).
Proof.
  intros Hget Hcode code detail error_msg.
  assert (Hr : raise_for_status r = Raises (Exn (HTTPError code) detail)).
  { unfold raise_for_status. cbv zeta. subst detail code.
    destruct (resp_status_code r <? 500) eqn:H5.
    - apply Z.ltb_lt in H5.
      replace (400 <=? resp_status_code r) with true by (symmetry; apply Z.leb_le; lia).
      reflexivity.
    - apply Z.ltb_ge in H5.
      replace (500 <=? resp_status_code r) with true by (symmetry; apply Z.leb_le; lia).
      replace (resp_status_code r <? 600) with true by (symmetry; apply Z.ltb_lt; lia).
      rewrite andb_false_r. reflexivity. }
  split; [exact Hr|].
  unfold lambda_handler, handler_body. run. rewrite Hget. run. rewrite Hr.
  reflexivity.
Qed.

(** X2. When the GET fails with a [RequestException] that is neither a
    [Timeout] nor an [HTTPError] (a refused connection, a DNS failure, too
    many redirects), the handler answers 500 with the body
    [{"error": "Request failed: <detail>"}]; the GET and the print are
    the only calls, and [conn] and the table are as they were. *)
Theorem request_failure_gives_500 (w : world) (event context : pyval)
    (st : state) (e : exn) :
  http_get w = Raises e ->
  is_RequestException e = true ->
  is_Timeout e = false ->
  is_HTTPError e = false ->
  lambda_handler w event context st =
    (Returns (error_response 500 ("Request failed: " +:+ exn_str e)),
     {| conn := conn st; cursor := None; committed := committed st;
        pending := pending st;
        log := EvPrint ("Request failed: " +:+ exn_str e)
                 :: EvHttpGet url headers 30 :: log st |}).
Proof.
  intros Hget Hreq Ht Hh. unfold lambda_handler, handler_body. run.
  rewrite Hget. run. rewrite Ht, Hh, Hreq. reflexivity.
Qed.

(** ** A payload of another shape *)

Lemma failed_before_database_run (m : M response) (s0 st : state) (e : exn) :
  m s0 = (Raises e, emit (EvHttpGet url headers 30) (set_cursor None st)) ->
  is_RequestException e = false ->
  is_DatabaseError e = false ->
  is_Exception e = true ->
  open_or_none (conn st) = true ->
  try_finally (try_except m handle_exception) release_cursor s0 =
    (Returns (error_response 500 ("Unexpected error: " +:+ exn_str e)),
     failed_before_database ("Unexpected error: " +:+ exn_str e) st).
Proof.
  intros Hm Hreq Hdb Hexn Hopen.
  rewrite (try_finally_handled m _ _ _ e _ Hm
             (handle_unexpected_error e
                (emit (EvHttpGet url headers 30) (set_cursor None st))
                Hreq Hdb Hexn Hopen)).
  destruct st as [[c|] cu t p l]; reflexivity.
Qed.

(** X3. When the body decodes to something that is not a JSON object (a
    list, a string, a number, [null]), and [conn] holds no connection or
    one that is not closed, [data.get] raises an [AttributeError] and the
    handler answers 500 with the body [{"error": "Unexpected error:
    '<type>' object has no attribute 'get'"}].  No connection is asked
    for; the only call to the database is the rollback on the connection
    [conn] already holds, if any. *)
Theorem non_object_payload_gives_500 (w : world) (event context : pyval)
    (st : state) (r : http_response) (data : pyval) :
  http_get w = Returns r ->
  raise_for_status r = Returns tt ->
  resp_json r = Returns data ->
  (forall entries, data <> PDict entries) ->
  open_or_none (conn st) = true ->
  let error_msg :=
    "Unexpected error: " +:+
    ("'" +:+ type_name data +:+ "' object has no attribute 'get'") in
  lambda_handler w event context st =
    (Returns (error_response 500 error_msg), failed_before_database error_msg st).
Proof.
  intros Hget Hstatus Hjson Hshape Hopen error_msg.
  set (e := Exn AttributeError
              ("'" +:+ type_name data +:+ "' object has no attribute 'get'")).
  assert (Hraise : py_get data "data" PNone = Raises e).
  { destruct data; try reflexivity. now destruct (Hshape entries). }
  unfold lambda_handler. unfold bind at 1. cbv beta iota delta [modify].
  apply (failed_before_database_run (handler_body w) _ st e);
    try reflexivity; [|exact Hopen].
  unfold handler_body. run. rewrite Hget. run. rewrite Hstatus. run.
  rewrite Hjson. run. rewrite Hraise. reflexivity.
Qed.

(** X4. When the payload has under [data] a true value that has no
    length (a number or [true]), and [conn] holds no connection or one
    that is not closed, [len(data['data'])] raises a [TypeError] and the
    handler answers 500 with the body [{"error": "Unexpected error:
    object of type '<type>' has no len()"}], before any connection is
    asked for. *)
Theorem unsized_data_gives_500 (w : world) (event context : pyval)
    (st : state) (r : http_response) (data feed : pyval) (e : exn) :
  http_get w = Returns r ->
  raise_for_status r = Returns tt ->
  resp_json r = Returns data ->
  py_get data "data" PNone = Returns feed ->
  truthy feed = true ->
  py_len feed = Raises e ->
  open_or_none (conn st) = true ->
  exn_str e = "object of type '" +:+ type_name feed +:+ "' has no len()" /\
  lambda_handler w event context st =
    (Returns (error_response 500 ("Unexpected error: " +:+ exn_str e)),
     failed_before_database ("Unexpected error: " +:+ exn_str e) st).
Proof.
  intros Hget Hstatus Hjson Hfeed Htrue Hlen Hopen.
  assert (He : e = Exn TypeError
                     ("object of type '" +:+ type_name feed +:+ "' has no len()")).
  { destruct feed; cbn [py_len] in Hlen; congruence. }
  split; [now rewrite He|].
  rewrite (lambda_handler_fetched w event context st r data feed
             Hget Hstatus Hjson Hfeed Htrue).
  apply failed_before_database_run; try (rewrite He; reflexivity); [|exact Hopen].
  unfold process_feed. unfold bind at 1. unfold lift at 1.
  rewrite (py_get_truthy_getitem data feed Hfeed Htrue).
  unfold bind at 1. unfold lift at 1. rewrite Hlen. reflexivity.
Qed.

(** ** The cursor that cannot be opened *)

Lemma acquired_fields (w : world) (st : state) :
  acquires w st ->
  conn_unusable (conn (acquired w st)) = false /\
  cursor (acquired w st) = cursor st /\
  committed (acquired w st) = committed st /\
  log (acquired w st) = (connect_log w st ++ log st)%list.
Proof.
  intros Hacq. unfold acquired, connect_log.
  destruct (conn_unusable (conn st)) eqn:Hu.
  - destruct Hacq as [H | (kwargs & -> & _)]; [congruence|]. repeat split.
  - rewrite Hu. repeat split.
Qed.

(** X5. When [connection.cursor()] raises a database error that leaves
    the connection open, the handler answers 500 with the body
    [{"error": "Database error: <detail>"}] and rolls the connection
    back.  The variable [cursor] is still [None], so the [finally]
    clause closes nothing: the rollback is the last call. *)
Theorem cursor_failure_rolls_back (w : world) (event context : pyval)
    (st : state) (r : http_response) (data feed : pyval) (n : Z) (e : exn) :
  http_get w = Returns r ->
  raise_for_status r = Returns tt ->
  resp_json r = Returns data ->
  py_get data "data" PNone = Returns feed ->
  truthy feed = true ->
  py_len feed = Returns n ->
  acquires w st ->
  cursor_fails w = Some e ->
  connection_lost w = false ->
  is_DatabaseError e = true ->
  exists st' : state,
    lambda_handler w event context st =
      (Returns (error_response 500 ("Database error: " +:+ exn_str e)), st') /\
    log st' =
      (EvRollback :: EvPrint ("Database error: " +:+ exn_str e) :: EvCursor
         :: connect_log w st ++
         [EvPrint ("Successfully fetched " +:+ pretty n +:+ " records from IDX");
          EvHttpGet url headers 30] ++ log st)%list /\
    cursor st' = None /\
    committed st' = committed st /\
    pending st' = None.
Proof.
  intros Hget Hstatus Hjson Hfeed Htrue Hlen Hacq Hcur Hkept He.
  pose proof (py_get_truthy_getitem data feed Hfeed Htrue) as Hitem.
  rewrite (lambda_handler_fetched w event context st r data feed
             Hget Hstatus Hjson Hfeed Htrue).
  set (st0 := emit (EvHttpGet url headers 30) (set_cursor None st)).
  set (st1 := emit (EvPrint ("Successfully fetched " +:+ pretty n
                               +:+ " records from IDX")) st0).
  destruct (get_db_connection_acquires w st1 Hacq) as (Hg & c & Hc).
  destruct (acquired_fields w st1 Hacq) as (Hus & Hcu & Hcm & Hlg).
  eexists. split.
  - eapply try_finally_handled.
    + rewrite (process_feed_announced w st0 data feed n Hitem Hlen).
      unfold bind at 1. fold st1. rewrite Hg, Hc. unfold connection_cursor.
      unfold bind at 1. unfold bind at 1. cbv beta iota delta [modify].
      rewrite Hcur. unfold failed. rewrite Hkept. reflexivity.
    + apply handle_database_error; [exact He|].
      exact (usable_is_open _ Hus).
  - projections. rewrite Hc. projections. rewrite Hcu.
    change (cursor st1) with (@None cursor_obj). projections.
    rewrite Hlg, Hcm. subst st1 st0. projections. repeat split. exact Hcu.
Qed.

(** ** A run that succeeds *)

(** X6. A run that succeeds, over a feed none of whose items raises
    anything but a [ValueError] or a [KeyError], makes these calls, in
    this order: the GET; the print of the number of items fetched;
    [psycopg2.connect], when [conn] holds no usable connection;
    [connection.cursor()]; one print for each item left out; a single
    [executemany] with the whole batch, which is not called at all when
    the batch is empty; [commit]; the print of the number of records;
    [cursor.close()].  The answer is 200 with [records_processed] the
    length of the batch, and [conn] is left holding a usable connection
    for the next invocation. *)
Theorem successful_run_trace (w : world) (event context : pyval) (st : state)
    (r : http_response) (data : pyval) (items : list pyval) :
  http_get w = Returns r ->
  raise_for_status r = Returns tt ->
  resp_json r = Returns data ->
  py_get data "data" PNone = Returns (PList items) ->
  items <> [] ->
  none_escapes items = true ->
  acquires w st ->
  cursor_fails w = None ->
  (forall j, (j < length (records items))%nat -> execute_fails w j = None) ->
  commit_fails w = None ->
  let batch := records items in
  exists st' : state,
    lambda_handler w event context st =
      (Returns (success_response (Z.of_nat (length batch)) (datetime_now w)), st') /\
    log st' =
      (EvCursorClose
         :: EvPrint ("Successfully processed " +:+ pretty (Z.of_nat (length batch))
                       +:+ " stock records")
         :: (EvCommit :: match batch with [] => [] | _ :: _ => [EvExecutemany batch] end)
         ++ skip_log items
         ++ EvCursor :: connect_log w st
         ++ [EvPrint ("Successfully fetched " +:+ pretty (Z.of_nat (length items))
                        +:+ " records from IDX");
             EvHttpGet url headers 30]
         ++ log st)%list /\
    conn_unusable (conn st') = false /\
    cursor st' = Some (Cursor true) /\
    pending st' = None /\
    committed st' = apply_batch w batch (starting_table st).
Proof.
  intros Hget Hstatus Hjson Hfeed Hnonempty Hne Hacq Hcur Hok Hcommit batch.
  assert (Htrue : truthy (PList items) = true)
    by (destruct items; [congruence | reflexivity]).
  pose proof (py_get_truthy_getitem data _ Hfeed Htrue) as Hdata.
  rewrite (lambda_handler_fetched w event context st r data _
             Hget Hstatus Hjson Hfeed Htrue).
  set (st0 := emit (EvHttpGet url headers 30) (set_cursor None st)).
  set (st1 := emit (EvPrint ("Successfully fetched "
                               +:+ pretty (Z.of_nat (length items))
                               +:+ " records from IDX")) st0).
  destruct (acquired_fields w st1 Hacq) as (Hus & Hcu & Hcm & Hlg).
  eexists. split.
  - eapply try_finally_returned.
    rewrite (process_feed_ready w st0 data (PList items) _ items
               Hdata eq_refl eq_refl Hacq Hcur).
    unfold bind at 1. rewrite (normalize_loop_all items _ Hne).
    rewrite (write_batch_succeeds w (records items) _ Hok Hcommit).
    reflexivity.
  - unfold ready. fold st1. projections. rewrite Hlg. subst st1 st0. projections.
    split; [unfold write_log; fold batch; same_list|].
    split; [exact Hus|]. split; [reflexivity|]. split; [reflexivity|].
    f_equal. now apply acquired_view.
Qed.

(** ** What leaves the handler *)

(** The handler is its [try] block run after [cursor = None], followed
    by the release of the cursor, which does not change the outcome. *)
Lemma lambda_handler_outcome (w : world) (event context : pyval) (st : state) :
  lambda_handler w event context st =
    (fst (try_except (handler_body w) handle_exception (set_cursor None st)),
     released (snd (try_except (handler_body w) handle_exception (set_cursor None st)))).
Proof.
  unfold lambda_handler, bind, modify, try_finally.
  destruct (try_except (handler_body w) handle_exception (set_cursor None st))
    as [res st1].
  now rewrite release_cursor_releases.
Qed.

(** An [except] clause that rolls back, when [conn] holds a closed
    connection: the message is printed, the rollback is asked for and
    raises, and nothing is returned. *)
Lemma handle_exception_rollback_fails (e : exn) (st : state) (c : connection) :
  is_RequestException e = false ->
  is_Exception e = true ->
  conn st = Some c ->
  closed c = true ->
  handle_exception e st =
    (Raises (Exn InterfaceError "connection already closed"),
     emit EvRollback
       (emit (EvPrint ((if is_DatabaseError e then "Database error: "
                        else "Unexpected error: ") +:+ exn_str e)) st)).
Proof.
  intros Hreq Hexn Hc Hclosed. unfold handle_exception.
  unfold is_Timeout, is_HTTPError, is_RequestException, is_DatabaseError,
    is_Exception in *.
  destruct (exn_class_of e); try discriminate;
    run; rewrite Hc; run; rewrite Hclosed; reflexivity.
Qed.

(** X7. The rollback of the [except] clauses is not guarded.  When
    [conn] holds a closed connection and the body is not a JSON object,
    the clause for [Exception] prints its message and asks [conn] for a
    rollback, which raises an [InterfaceError]: the handler raises it
    and gives no answer.  Nothing else is called, and the table is as it
    was. *)
Theorem rollback_failure_escapes (w : world) (event context : pyval)
    (st : state) (r : http_response) (data : pyval) (c : connection) :
  http_get w = Returns r ->
  raise_for_status r = Returns tt ->
  resp_json r = Returns data ->
  (forall entries, data <> PDict entries) ->
  conn st = Some c ->
  closed c = true ->
  let error_msg :=
    "Unexpected error: " +:+
    ("'" +:+ type_name data +:+ "' object has no attribute 'get'") in
  lambda_handler w event context st =
    (Raises (Exn InterfaceError "connection already closed"),
     {| conn := conn st; cursor := None; committed := committed st;
        pending := pending st;
        log := EvRollback :: EvPrint error_msg
                 :: EvHttpGet url headers 30 :: log st |}).
Proof.
  intros Hget Hstatus Hjson Hshape Hc Hclosed error_msg.
  set (e := Exn AttributeError
              ("'" +:+ type_name data +:+ "' object has no attribute 'get'")).
  assert (Hraise : py_get data "data" PNone = Raises e).
  { destruct data; try reflexivity. now destruct (Hshape entries). }
  assert (Hbody : handler_body w (set_cursor None st) =
                  (Raises e, emit (EvHttpGet url headers 30) (set_cursor None st))).
  { unfold handler_body. run. rewrite Hget. run. rewrite Hstatus. run.
    rewrite Hjson. run. rewrite Hraise. reflexivity. }
  rewrite lambda_handler_outcome. unfold try_except. rewrite Hbody.
  rewrite (handle_exception_rollback_fails e
             (emit (EvHttpGet url headers 30) (set_cursor None st)) c
             eq_refl eq_refl Hc Hclosed).
  reflexivity.
Qed.

(** ** The cached connection *)

Lemma get_db_connection_not_caught (w : world) (st : state)
    (kwargs : list (string * pyval)) (e : exn) :
  conn_unusable (conn st) = true ->
  connect_kwargs w = Returns kwargs ->
  connect_fails w = Some e ->
  is_Exception e = false ->
  get_db_connection w st = (Raises e, emit (EvConnect kwargs) st).
Proof.
  intros H Hk Hc He. unfold get_db_connection. run. rewrite H, Hk. run.
  rewrite Hc. run. rewrite He. reflexivity.
Qed.

(** The outcomes of [get_db_connection], case by case. *)
Lemma get_db_connection_cases (w : world) (st : state) :
  match get_db_connection w st with
  | (Returns c, st') =>
      c = conn st' /\
      conn_unusable c = false /\
      log st' = (connect_log w st ++ log st)%list /\
      (conn_unusable (conn st) = false -> st' = st)
  | (Raises e, st') =>
      conn_unusable (conn st) = true /\
      (is_Exception e = true ->
       conn st' = None /\
       hd_error (log st') = Some (EvPrint ("Connection error: " +:+ exn_str e)))
  end.
Proof.
  unfold connect_log. destruct (conn_unusable (conn st)) eqn:Hu.
  - destruct (connect_kwargs w) as [kwargs|e] eqn:Hk.
    + destruct (connect_fails w) as [e|] eqn:Hf.
      * destruct (is_Exception e) eqn:Hx.
        -- rewrite (get_db_connection_connect_fails w st kwargs e Hu Hk Hf Hx).
           split; [reflexivity|]. intros _. split; reflexivity.
        -- rewrite (get_db_connection_not_caught w st kwargs e Hu Hk Hf Hx).
           split; [reflexivity|]. intros Hx'. congruence.
      * rewrite (get_db_connection_connects w st kwargs Hu Hk Hf).
        repeat split. discriminate.
    + destruct (connect_kwargs_raises w e Hk) as (key & _ & _ & ->).
      rewrite (get_db_connection_config_missing w st _ Hu Hk eq_refl).
      split; [reflexivity|]. intros _. split; reflexivity.
  - rewrite (get_db_connection_reuses w st Hu). rewrite Hu. repeat split.
Qed.

(** X8. What [get_db_connection] guarantees, in every world and from
    every state.  When it returns, it returns the connection the global
    [conn] now holds, which is a connection and is not closed; it has
    called [psycopg2.connect] only if [conn] held none or a closed one,
    and otherwise has changed nothing.  When it raises, [conn] held no
    usable connection; and if what it raises is an [Exception], [conn] is
    [None] afterwards and the last call was the print of
    ["Connection error: <detail>"]. *)
Theorem get_db_connection_contract (w : world) (st : state) :
  match get_db_connection w st with
  | (Returns c, st') =>
      c = conn st' /\
      conn_unusable c = false /\
      log st' = (connect_log w st ++ log st)%list /\
      (conn_unusable (conn st) = false -> st' = st)
  | (Raises e, st') =>
      conn_unusable (conn st) = true /\
      (is_Exception e = true ->
       conn st' = None /\
       hd_error (log st') = Some (EvPrint ("Connection error: " +:+ exn_str e)))
  end.
Proof. exact (get_db_connection_cases w st). Qed.

(** X9. The connection is cached: once [get_db_connection] has
    returned a connection, a later call (in the same process, whatever
    the environment and the server have become) returns that same
    connection, makes no call and changes nothing. *)
Theorem connection_is_cached (w1 w2 : world) (st st1 : state)
    (c : option connection) :
  get_db_connection w1 st = (Returns c, st1) ->
  get_db_connection w2 st1 = (Returns c, st1).
Proof.
  intros H1. pose proof (get_db_connection_cases w1 st) as Hc.
  rewrite H1 in Hc. destruct Hc as (-> & Hus & _).
  now apply get_db_connection_reuses.
Qed.

(** X10. A failed attempt is not cached: after [get_db_connection] has
    raised an [Exception], the next call asks [psycopg2.connect] for a
    new connection and, when that succeeds, returns it and keeps it in
    [conn]. *)
Theorem failed_connection_is_retried (w1 w2 : world) (st st1 : state) (e : exn)
    (kwargs : list (string * pyval)) :
  get_db_connection w1 st = (Raises e, st1) ->
  is_Exception e = true ->
  connect_kwargs w2 = Returns kwargs ->
  connect_fails w2 = None ->
  get_db_connection w2 st1 =
    (Returns (Some (Connection false)),
     set_conn (Some (Connection false))
       (set_pending None (emit (EvConnect kwargs) st1))).
Proof.
  intros H1 Hx Hk Hf. pose proof (get_db_connection_cases w1 st) as Hc.
  rewrite H1 in Hc. destruct Hc as (_ & Hc). destruct (Hc Hx) as (Hnone & _).
  apply get_db_connection_connects; [now rewrite Hnone | exact Hk | exact Hf].
Qed.

(** ** What every path keeps *)

Lemma bind_requests_get {A : Type} (w : world) (u : string)
    (h : list (string * string)) (t : Z) (k : http_response -> M A) (st : state) :
  bind (requests_get w u h t) k st =
    bind (lift (http_get w)) k (emit (EvHttpGet u h t) st).
Proof. reflexivity. Qed.

Section Frame.

(** A relation between the states before and after a statement that
    holds across every call but, possibly, the GET and
    [psycopg2.connect], and does not look at [cursor] or at the
    uncommitted copy of the table. *)
Variable R : state -> state -> Prop.
Variable w : world.
Hypothesis R_refl : forall st, R st st.
Hypothesis R_trans : forall s1 s2 s3, R s1 s2 -> R s2 s3 -> R s1 s3.
Hypothesis R_emit :
  forall ev st, is_http_get ev = false -> is_connect ev = false -> R st (emit ev st).
Hypothesis R_set_cursor : forall c st, R st (set_cursor c st).
Hypothesis R_set_pending : forall t st, R st (set_pending t st).
Hypothesis R_lose_connection :
  connection_lost w = true -> forall st, R st (lose_connection st).

Lemma Keeps_ret {A : Type} (a : A) : Keeps R (ret a).
Proof. intros st. apply R_refl. Qed.

Lemma Keeps_raise {A : Type} (e : exn) : Keeps R (@raise A e).
Proof. intros st. apply R_refl. Qed.

Lemma Keeps_lift {A : Type} (o : outcome A) : Keeps R (lift o).
Proof. intros st. apply R_refl. Qed.

Lemma Keeps_gets {A : Type} (f : state -> A) : Keeps R (gets f).
Proof. intros st. apply R_refl. Qed.

Lemma Keeps_modify (f : state -> state) :
  (forall st, R st (f st)) -> Keeps R (modify f).
Proof. intros H st. apply H. Qed.

Lemma Keeps_bind {A B : Type} (m : M A) (k : A -> M B) :
  Keeps R m -> (forall a, Keeps R (k a)) -> Keeps R (bind m k).
Proof.
  intros Hm Hk st. unfold bind. specialize (Hm st).
  destruct (m st) as [[a|e] st1]; cbn [snd] in *; [|exact Hm].
  eapply R_trans; [exact Hm | apply Hk].
Qed.

Lemma Keeps_try_except {A : Type} (m : M A) (handler : exn -> M A) :
  Keeps R m -> (forall e, Keeps R (handler e)) -> Keeps R (try_except m handler).
Proof.
  intros Hm Hh st. unfold try_except. specialize (Hm st).
  destruct (m st) as [[a|e] st1]; cbn [snd] in *; [exact Hm|].
  eapply R_trans; [exact Hm | apply Hh].
Qed.

Lemma Keeps_print (line : string) : Keeps R (print line).
Proof. apply Keeps_modify. intros st. now apply R_emit. Qed.

Lemma Keeps_failed {A : Type} (e : exn) : Keeps R (@failed A w e).
Proof.
  unfold failed. apply Keeps_bind; [|intros _; apply Keeps_raise].
  destruct (connection_lost w) eqn:Hlost; [|apply Keeps_ret].
  apply Keeps_modify. now apply R_lose_connection.
Qed.

Ltac frame_steps :=
  repeat match goal with
    | |- Keeps _ (bind _ _) => apply Keeps_bind; [|intros ?]
    | |- Keeps _ (try_except _ _) => apply Keeps_try_except; [|intros ?]
    | |- Keeps _ (print _) => apply Keeps_print
    | |- Keeps _ (failed _ _) => apply Keeps_failed
    | |- Keeps _ (modify _) => apply Keeps_modify; intros ?
    | |- Keeps _ (ret _) => apply Keeps_ret
    | |- Keeps _ (raise _) => apply Keeps_raise
    | |- Keeps _ (lift _) => apply Keeps_lift
    | |- Keeps _ (gets _) => apply Keeps_gets
    | |- Keeps _ (if ?b then _ else _) => destruct b
    | |- Keeps _ (match ?x with _ => _ end) => destruct x
    | |- Keeps _ (let _ := _ in _) => cbv zeta
    | |- R ?st ?st => apply R_refl
    | |- R _ (emit _ _) => apply R_emit; reflexivity
    | |- R _ (set_cursor _ _) => apply R_set_cursor
    | |- R _ (set_pending _ _) => apply R_set_pending
    end.

Lemma Keeps_normalize_loop (items : list pyval) (acc : list (list pyval)) :
  Keeps R (normalize_loop items acc).
Proof.
  revert acc. induction items as [|item items IH]; intros acc;
    cbn [normalize_loop]; frame_steps. apply IH.
Qed.

Lemma Keeps_connection_cursor (c : option connection) :
  Keeps R (connection_cursor w c).
Proof. unfold connection_cursor. frame_steps. Qed.

Lemma Keeps_cursor_executemany (q : upsert_statement)
    (batch : list (list pyval)) : Keeps R (cursor_executemany w q batch).
Proof.
  unfold cursor_executemany. frame_steps.
  intros st. destruct (run_batch w q 0 batch (view st)) as [[u|e] t].
  - apply R_set_pending.
  - eapply R_trans; [apply R_set_pending | apply Keeps_failed].
Qed.

Lemma Keeps_rollback_if_conn : Keeps R rollback_if_conn.
Proof. unfold rollback_if_conn, conn_rollback. frame_steps. Qed.

Lemma Keeps_handle_exception (e : exn) : Keeps R (handle_exception e).
Proof. unfold handle_exception. frame_steps; apply Keeps_rollback_if_conn. Qed.

Lemma Keeps_release_cursor : Keeps R release_cursor.
Proof. unfold release_cursor, cursor_close. frame_steps. Qed.

Lemma released_frame (st : state) : R st (released st).
Proof.
  pose proof (Keeps_release_cursor st) as H.
  now rewrite release_cursor_releases in H.
Qed.

(** [get_db_connection], for a relation that holds across a call to
    [psycopg2.connect] and an assignment to [conn]. *)
Lemma Keeps_get_db_connection :
  (forall kwargs st, R st (emit (EvConnect kwargs) st)) ->
  (forall c st, R st (set_conn c st)) ->
  Keeps R (get_db_connection w).
Proof.
  intros Hconnect Hset. unfold get_db_connection, psycopg2_connect.
  frame_steps; auto.
Qed.

(** The write, for a relation that holds across an assignment to the
    committed table. *)
Lemma Keeps_write_batch (batch : list (list pyval)) :
  (forall t st, R st (set_committed t st)) ->
  Keeps R (write_batch w batch).
Proof.
  intros Hset. unfold write_batch, connection_commit.
  frame_steps; try apply Keeps_cursor_executemany;
    intros st; cbn [snd]; (eapply R_trans; [apply Hset | apply R_set_pending]).
Qed.

Lemma KeepsOr_Keeps {A : Type} (Q : outcome A -> Prop) (m : M A) :
  Keeps R m -> KeepsOr R Q m.
Proof. intros H st. left. apply H. Qed.

Lemma KeepsOr_bind {A B : Type} (Q : outcome B -> Prop) (m : M A) (k : A -> M B) :
  Keeps R m -> (forall a, KeepsOr R Q (k a)) -> KeepsOr R Q (bind m k).
Proof.
  intros Hm Hk st. unfold bind. specialize (Hm st).
  destruct (m st) as [[a|e] st1]; cbn [snd] in Hm.
  - destruct (Hk a st1) as [H|H]; [left | right; exact H].
    eapply R_trans; eassumption.
  - left. exact Hm.
Qed.

Lemma snd_lift {A : Type} (o : outcome A) (st : state) : snd (lift o st) = st.
Proof. now destruct o. Qed.

(** A step that keeps [R] and establishes [P0], before a rest that keeps
    [R] or ends in [Q0] from states with [P0]. *)
Lemma frame_bind_at {A B : Type} (Q0 : outcome B -> Prop) (P0 : state -> Prop)
    (m : M A) (k : A -> M B) (st : state) :
  R st (snd (m st)) -> P0 (snd (m st)) ->
  (forall a s1, P0 s1 -> R s1 (snd (k a s1)) \/ Q0 (fst (k a s1))) ->
  R st (snd (bind m k st)) \/ Q0 (fst (bind m k st)).
Proof.
  intros Hm HP Hk. unfold bind.
  destruct (m st) as [[a|e] s1]; cbn [snd] in Hm, HP.
  - destruct (Hk a s1 HP) as [H|H]; [left | right; exact H].
    eapply R_trans; eassumption.
  - left. exact Hm.
Qed.

(** [P] holds of the state in which the handler is called and across the
    calls made before [get_db_connection], which is asked to keep [R]
    from such states only. *)
Variable P : state -> Prop.
Hypothesis P_emit : forall ev st, P st -> P (emit ev st).
Hypothesis P_set_cursor : forall c st, P st -> P (set_cursor c st).
Variable Q : outcome response -> Prop.
Hypothesis Q_returns : forall e, ~ Q (Raises e).
Hypothesis R_get_db_connection :
  forall st, P st -> R st (snd (get_db_connection w st)).
Hypothesis R_write_batch : forall batch, KeepsOr R Q (write_batch w batch).

(** What follows the call of [get_db_connection]. *)
Lemma after_connection_frame (connection : option connection)
    (looked_up : outcome pyval) :
  KeepsOr R Q
    (c <- connection_cursor w connection ;;
     modify (set_cursor (Some c)) ;;
     feed <- lift looked_up ;;
     items <- lift (py_iter feed) ;;
     batch_data <- normalize_loop items [] ;;
     write_batch w batch_data).
Proof.
  apply KeepsOr_bind; [apply Keeps_connection_cursor|intros c].
  apply KeepsOr_bind; [frame_steps|intros _].
  apply KeepsOr_bind; [frame_steps|intros feed'].
  apply KeepsOr_bind; [frame_steps|intros items].
  apply KeepsOr_bind; [apply Keeps_normalize_loop|intros batch].
  apply R_write_batch.
Qed.

Lemma process_feed_frame (data : pyval) (st : state) :
  P st ->
  R st (snd (process_feed w data st)) \/ Q (fst (process_feed w data st)).
Proof.
  intros HP. unfold process_feed.
  apply (frame_bind_at Q P); [apply Keeps_lift | now rewrite snd_lift |].
  clear st HP. intros feed st HP.
  apply (frame_bind_at Q P); [apply Keeps_lift | now rewrite snd_lift |].
  clear st HP. intros n st HP.
  apply (frame_bind_at Q P); [apply Keeps_print | now apply P_emit |].
  clear st HP. intros _ st HP.
  apply (frame_bind_at Q (fun _ => True));
    [now apply R_get_db_connection | exact I |].
  intros connection s1 _. apply after_connection_frame.
Qed.

(** The [try] block, from the state the GET leaves. *)
Lemma handler_body_frame (st : state) :
  P st ->
  R (emit (EvHttpGet url headers 30) st) (snd (handler_body w st))
  \/ Q (fst (handler_body w st)).
Proof.
  intros HP. unfold handler_body. rewrite bind_requests_get.
  assert (HP' : P (emit (EvHttpGet url headers 30) st)) by now apply P_emit.
  revert HP'. generalize (emit (EvHttpGet url headers 30) st).
  clear st HP. intros st HP.
  apply (frame_bind_at Q P); [apply Keeps_lift | now rewrite snd_lift |].
  clear st HP. intros response st HP.
  apply (frame_bind_at Q P); [apply Keeps_lift | now rewrite snd_lift |].
  clear st HP. intros _ st HP.
  apply (frame_bind_at Q P); [apply Keeps_lift | now rewrite snd_lift |].
  clear st HP. intros data st HP.
  apply (frame_bind_at Q P); [apply Keeps_lift | now rewrite snd_lift |].
  clear st HP. intros feed st HP.
  destruct (negb (truthy feed)).
  - left. apply R_refl.
  - now apply process_feed_frame.
Qed.

(** The handler, from the state the GET leaves. *)
Lemma lambda_handler_frame (event context : pyval) (st : state) :
  P st ->
  R (emit (EvHttpGet url headers 30) (set_cursor None st))
    (snd (lambda_handler w event context st))
  \/ Q (fst (lambda_handler w event context st)).
Proof.
  intros HP. rewrite lambda_handler_outcome. cbn [fst snd]. unfold try_except.
  pose proof (handler_body_frame (set_cursor None st) (P_set_cursor None st HP))
    as Hb.
  destruct (handler_body w (set_cursor None st)) as [[resp|e] s1];
    cbn [fst snd] in *.
  - destruct Hb as [Hb|Hb]; [left | right; exact Hb].
    eapply R_trans; [exact Hb | apply released_frame].
  - destruct Hb as [Hb|Hb]; [|now destruct (Q_returns e)]. left.
    pose proof (Keeps_handle_exception e s1) as Hh.
    destruct (handle_exception e s1) as [res s2]. cbn [fst snd] in *.
    eapply R_trans; [exact Hb|]. eapply R_trans; [exact Hh | apply released_frame].
Qed.

End Frame.

(** ** The committed table on every path *)

Ltac same_committed_fact :=
  intros; unfold same_committed, lose_connection in *;
  cbn [emit set_conn set_cursor set_pending committed]; congruence.

Lemma same_committed_get_db_connection (w : world) :
  Keeps same_committed (get_db_connection w).
Proof. apply Keeps_get_db_connection; same_committed_fact. Qed.

(** The write changes the committed table only when the commit returns,
    and then the success response follows. *)
Lemma same_committed_write_batch (w : world) (batch : list (list pyval)) :
  KeepsOr same_committed (succeeded w) (write_batch w batch).
Proof.
  intros st. unfold write_batch, succeeded. destruct batch as [|params batch].
  - run. destruct (commit_fails w); [|right; eexists; reflexivity].
    run. destruct (connection_lost w); left; reflexivity.
  - run. destruct (run_batch w insert_query 0 (params :: batch) _) as [[u|e] t].
    + run. destruct (commit_fails w); [|right; eexists; reflexivity].
      run. destruct (connection_lost w); left; reflexivity.
    + run. destruct (connection_lost w); left; reflexivity.
Qed.

(** X18. All or nothing.  In every world and from every state, however
    the invocation ends (whichever answer it gives, or with an exception
    no clause catches), the committed table is the one it found, unless
    the answer is the success response: the records of a feed are never
    committed by an invocation that reports a failure. *)
Theorem commits_all_or_nothing (w : world) (event context : pyval) (st : state) :
  committed (snd (lambda_handler w event context st)) = committed st \/
  exists n, fst (lambda_handler w event context st)
            = Returns (success_response n (datetime_now w)).
Proof.
  change (same_committed (emit (EvHttpGet url headers 30) (set_cursor None st))
            (snd (lambda_handler w event context st))
          \/ succeeded w (fst (lambda_handler w event context st))).
  apply (lambda_handler_frame same_committed w) with (P := fun _ => True);
    try same_committed_fact; try exact I.
  - intros e [n Hn]. discriminate.
  - intros s _. apply same_committed_get_db_connection.
  - apply same_committed_write_batch.
Qed.

(** ** The request on every path *)

Lemma no_request_refl (st : state) : no_request st st.
Proof. exists []. split; [reflexivity | intros u h t []]. Qed.

Lemma no_request_trans (s1 s2 s3 : state) :
  no_request s1 s2 -> no_request s2 s3 -> no_request s1 s3.
Proof.
  intros (evs1 & H1 & N1) (evs2 & H2 & N2). exists (evs2 ++ evs1)%list.
  split; [now rewrite H2, H1, app_assoc|].
  intros u h t Hin. apply in_app_or in Hin as [Hin|Hin];
    [eapply N2 | eapply N1]; eassumption.
Qed.

Lemma no_request_emit (ev : call) (st : state) :
  is_http_get ev = false -> no_request st (emit ev st).
Proof.
  intros Hev. exists [ev]. split; [reflexivity|].
  intros u h t [Heq|[]]. subst ev. discriminate.
Qed.

Lemma no_request_same_log (st st' : state) : log st' = log st -> no_request st st'.
Proof. intros H. exists []. split; [exact H | intros u h t []]. Qed.

Ltac no_request_fact :=
  intros;
  first [ apply no_request_refl
        | eapply no_request_trans; eassumption
        | apply no_request_emit; (assumption || reflexivity)
        | apply no_request_same_log; reflexivity ].

Lemma no_request_get_db_connection (w : world) :
  Keeps no_request (get_db_connection w).
Proof. apply Keeps_get_db_connection; no_request_fact. Qed.

Lemma no_request_write_batch (w : world) (batch : list (list pyval)) :
  KeepsOr no_request (fun _ => False) (write_batch w batch).
Proof. apply KeepsOr_Keeps, Keeps_write_batch; no_request_fact. Qed.

(** X19. One request, made first.  In every world and from every state,
    an invocation makes exactly one HTTP request: the GET of the fixed
    address, with the two headers and a timeout of 30 seconds.  It is
    the first call of the invocation, and it is never made again. *)
Theorem one_request_first (w : world) (event context : pyval) (st : state) :
  exists evs : list call,
    log (snd (lambda_handler w event context st))
      = (evs ++ EvHttpGet url headers 30 :: log st)%list /\
    forall u h t, ~ In (EvHttpGet u h t) evs.
Proof.
  destruct (lambda_handler_frame no_request w no_request_refl no_request_trans
              ltac:(no_request_fact) ltac:(no_request_fact) ltac:(no_request_fact)
              ltac:(no_request_fact)
              (fun _ => True) (fun _ _ _ => I) (fun _ _ _ => I)
              (fun _ => False) (fun _ H => H)
              (fun s _ => no_request_get_db_connection w s)
              (no_request_write_batch w)
              event context st I) as [H|[]].
  exact H.
Qed.

(** ** The connection on every path *)

Lemma reuses_conn_refl (w : world) (st : state) : reuses_conn w st st.
Proof.
  split; [now left|]. exists []. split; [reflexivity | intros kwargs []].
Qed.

Lemma reuses_conn_trans (w : world) (s1 s2 s3 : state) :
  reuses_conn w s1 s2 -> reuses_conn w s2 s3 -> reuses_conn w s1 s3.
Proof.
  intros (Hc1 & evs1 & H1 & N1) (Hc2 & evs2 & H2 & N2). split.
  - destruct Hc2 as [Hc2|Hc2]; [|now right].
    rewrite Hc2. exact Hc1.
  - exists (evs2 ++ evs1)%list. split; [now rewrite H2, H1, app_assoc|].
    intros kwargs Hin. apply in_app_or in Hin as [Hin|Hin];
      [eapply N2 | eapply N1]; eassumption.
Qed.

Lemma reuses_conn_emit (w : world) (ev : call) (st : state) :
  is_connect ev = false -> reuses_conn w st (emit ev st).
Proof.
  intros Hev. split; [now left|]. exists [ev]. split; [reflexivity|].
  intros kwargs [Heq|[]]. subst ev. discriminate.
Qed.

Lemma reuses_conn_same (w : world) (st st' : state) :
  conn st' = conn st -> log st' = log st -> reuses_conn w st st'.
Proof.
  intros Hc Hl. split; [now left|]. exists [].
  split; [exact Hl | intros kwargs []].
Qed.

Lemma reuses_conn_lose_connection (w : world) (st : state) :
  connection_lost w = true -> reuses_conn w st (lose_connection st).
Proof.
  intros Hlost. split.
  - unfold lose_connection. cbn [set_pending set_conn conn].
    destruct (conn st); [right; auto | now left].
  - exists []. split; [reflexivity | intros kwargs []].
Qed.

Ltac reuses_conn_fact :=
  intros;
  first [ apply reuses_conn_refl
        | eapply reuses_conn_trans; eassumption
        | apply reuses_conn_emit; (assumption || reflexivity)
        | apply reuses_conn_lose_connection; assumption
        | apply reuses_conn_same; reflexivity ].

Lemma reuses_conn_get_db_connection (w : world) (st : state) :
  conn_unusable (conn st) = false ->
  reuses_conn w st (snd (get_db_connection w st)).
Proof.
  intros Hus. rewrite (get_db_connection_reuses w st Hus).
  apply reuses_conn_refl.
Qed.

Lemma reuses_conn_write_batch (w : world) (batch : list (list pyval)) :
  KeepsOr (reuses_conn w) (fun _ => False) (write_batch w batch).
Proof. apply KeepsOr_Keeps, Keeps_write_batch; reuses_conn_fact. Qed.

(** X20. The connection at hand is reused.  When [conn] holds a
    connection that is not closed, an invocation never calls
    [psycopg2.connect], however it ends, and [conn] holds the same
    connection afterwards: as it was, or closed when a call on it failed
    because the connection was gone.  The environment variables are not
    read. *)
Theorem usable_connection_is_reused (w : world) (event context : pyval)
    (st : state) :
  conn_unusable (conn st) = false ->
  (conn (snd (lambda_handler w event context st)) = conn st
   \/ (connection_lost w = true
       /\ conn (snd (lambda_handler w event context st)) = Some (Connection true))) /\
  exists evs : list call,
    log (snd (lambda_handler w event context st)) = (evs ++ log st)%list /\
    forall kwargs, ~ In (EvConnect kwargs) evs.
Proof.
  intros Hus.
  destruct (lambda_handler_frame (reuses_conn w) w
              (reuses_conn_refl w) (reuses_conn_trans w)
              ltac:(reuses_conn_fact) ltac:(reuses_conn_fact) ltac:(reuses_conn_fact)
              ltac:(reuses_conn_fact)
              (fun s => conn_unusable (conn s) = false)
              (fun _ _ H => H) (fun _ _ H => H)
              (fun _ => False) (fun _ H => H)
              (reuses_conn_get_db_connection w)
              (reuses_conn_write_batch w)
              event context st Hus) as [H|[]].
  destruct H as (Hc & evs & Hl & Hn). split; [exact Hc|].
  exists (evs ++ [EvHttpGet url headers 30])%list.
  split; [now rewrite Hl, <- app_assoc|].
  intros kwargs Hin. apply in_app_or in Hin as [Hin|[Hin|[]]];
    [now apply (Hn kwargs) | discriminate].
Qed.

End Handler.

Section Upsert.

(** [DO UPDATE SET] leaves a column it does not name as it was. *)
Lemma update_keeps_unassigned (now : pyval) (excluded existing : gmap string pyval)
    (assignments : list (string * set_expr)) (c : string) :
  ~ In c (map fst assignments) ->
  Sql.update now excluded assignments existing !! c = existing !! c.
Proof.
  induction assignments as [|[c' e] rest IH]; intros Hnot; [reflexivity|].
  cbn [Sql.update]. cbn [map fst In] in Hnot.
  rewrite lookup_insert_ne by tauto. apply IH. tauto.
Qed.

(** [DO UPDATE SET] gives a column it names the value of its
    expression. *)
Lemma update_sets_assigned (now : pyval) (excluded existing : gmap string pyval)
    (assignments : list (string * set_expr)) (c : string) (e : set_expr) :
  NoDup (map fst assignments) ->
  In (c, e) assignments ->
  Sql.update now excluded assignments existing !! c = Some (Sql.eval now excluded e).
Proof.
  induction assignments as [|[c' e'] rest IH]; intros Hnd Hin; [destruct Hin|].
  cbn [Sql.update]. cbn [map fst] in Hnd. apply NoDup_cons in Hnd as [Hfresh Hnd].
  destruct Hin as [[= -> ->]|Hin].
  - apply lookup_insert_eq.
  - rewrite lookup_insert_ne; [now apply IH|].
    intros ->. apply Hfresh. apply list_elem_of_In, in_map_iff.
    exists (c, e). auto.
Qed.

(** The seven columns the statement inserts but never updates. *)
Lemma insert_query_never_updated :
  never_updated insert_query =
    [ "listed_shares"; "tradeable_shares"; "weight_for_index"; "delisting_date";
      "non_regular_volume"; "non_regular_value"; "non_regular_frequency" ].
Proof. vm_compute. reflexivity. Qed.

(** On a conflict, each of those columns keeps the stored value, whatever
    the new record carries. *)
Lemma conflict_keeps_never_updated (now : pyval) (excluded existing : gmap string pyval)
    (c : string) :
  In c (never_updated insert_query) ->
  Sql.update now excluded (do_update_set insert_query) existing !! c = existing !! c.
Proof.
  intros Hin. apply update_keeps_unassigned.
  rewrite insert_query_never_updated in Hin. cbn [In] in Hin.
  cbn [insert_query do_update_set map fst In].
  intros Hc.
  repeat (destruct Hin as [<- | Hin];
          [repeat (destruct Hc as [Hc | Hc]; [discriminate Hc|]); exact Hc|]).
  exact Hin.
Qed.

(** C1. The stored row of BBCA for 25 November 2025 has [volume] 100,
    [listed_shares] 100 and [non_regular_volume] 10; the feed brings the
    same key with [Volume] 200, [ListedShares] 200 and [NonRegularVolume]
    20.  The invocation succeeds and commits one row for the key, whose
    [volume] and [updated_at] are the new ones while [listed_shares] and
    [non_regular_volume] keep the stored values: the update path does not
    overwrite every mutable field. *)
Theorem conflict_update_leaves_fields_stale :
  let old := Example.stored in
  let result := lambda_handler (Example.world_of [Example.bbca]) PNone PNone Example.warm in
  match normalize_item Example.bbca with
  | Returns params =>
      params !! 12%nat = Some (PInt 200) /\ params !! 20%nat = Some (PInt 200)
      /\ params !! 26%nat = Some (PInt 20)
  | Raises _ => False
  end
  /\ old !! "volume" = Some (PInt 100)
  /\ old !! "listed_shares" = Some (PInt 100)
  /\ old !! "non_regular_volume" = Some (PInt 10)
  /\ fst result = Returns (success_response 1 "2025-11-25 17:00:01.000000")
  /\ match committed (snd result) with
     | [new] =>
         new !! "stock_code" = Some (PStr "BBCA")
         /\ new !! "date" = Some (PDate Example.trade_date)
         /\ new !! "volume" = Some (PInt 200)
         /\ new !! "updated_at" = Some (PStr "2025-11-25 17:00:00")
         /\ new !! "listed_shares" = Some (PInt 100)
         /\ new !! "non_regular_volume" = Some (PInt 10)
     | _ => False
     end.
Proof. vm_compute. repeat split; reflexivity. Qed.

(** ** Inserting and updating in place *)

Lemma upsert_no_conflict (q : upsert_statement) (now : pyval)
    (new : gmap string pyval) (t : list (gmap string pyval)) :
  (forall r, In r t -> Sql.conflicts (conflict_target q) new r = false) ->
  Sql.upsert q now new t = (t ++ [new])%list.
Proof.
  induction t as [|old t IH]; intros Hfree; [reflexivity|].
  cbn [Sql.upsert]. rewrite (Hfree old) by now left.
  cbn [app]. f_equal. apply IH. intros r Hr. apply Hfree. now right.
Qed.

Lemma upsert_conflict (q : upsert_statement) (now : pyval)
    (new old : gmap string pyval) (pre post : list (gmap string pyval)) :
  (forall r, In r pre -> Sql.conflicts (conflict_target q) new r = false) ->
  Sql.conflicts (conflict_target q) new old = true ->
  Sql.upsert q now new (pre ++ old :: post) =
    (pre ++ Sql.update now new (do_update_set q) old :: post)%list.
Proof.
  induction pre as [|r pre IH]; intros Hfree Hold; cbn [app Sql.upsert].
  - now rewrite Hold.
  - rewrite (Hfree r) by now left. f_equal. apply IH; [|exact Hold].
    intros r' Hr'. apply Hfree. now right.
Qed.

Lemma has_key_false (t : list (gmap string pyval)) (params : list pyval)
    (r : gmap string pyval) :
  has_key t params = false ->
  In r t ->
  Sql.conflicts (conflict_target insert_query)
    (Sql.proposed (columns insert_query) params) r = false.
Proof.
  intros Hfree Hr. unfold has_key in Hfree.
  destruct (Sql.conflicts _ _ r) eqn:Hc; [|reflexivity].
  assert (existsb (Sql.conflicts (conflict_target insert_query)
                     (Sql.proposed (columns insert_query) params)) t = true)
    by (apply existsb_exists; eauto).
  congruence.
Qed.

Lemma proposed_lookup (cols : list string) (params : list pyval) (i : nat)
    (col : string) :
  NoDup cols ->
  length params = length cols ->
  cols !! i = Some col ->
  Sql.proposed cols params !! col = params !! i.
Proof.
  revert params i. induction cols as [|c cols IH]; intros params i Hnd Hlen Hi;
    [discriminate|].
  destruct params as [|v params]; [discriminate|].
  apply NoDup_cons in Hnd as [Hfresh Hnd]. injection Hlen as Hlen.
  cbn [Sql.proposed]. destruct i as [|i]; cbn in Hi |- *.
  - injection Hi as ->. apply lookup_insert_eq.
  - rewrite lookup_insert_ne; [now apply IH|].
    intros ->. apply Hfresh. eapply list_elem_of_lookup_2. exact Hi.
Qed.

Lemma proposed_lookup_None (cols : list string) (params : list pyval) (col : string) :
  ~ In col cols -> Sql.proposed cols params !! col = None.
Proof.
  revert params. induction cols as [|c cols IH]; intros params Hnot;
    [reflexivity|].
  destruct params as [|v params]; [reflexivity|].
  cbn [Sql.proposed]. cbn [In] in Hnot.
  rewrite lookup_insert_ne by tauto. apply IH. tauto.
Qed.

Lemma columns_NoDup : NoDup (columns insert_query).
Proof. apply (bool_decide_unpack _). vm_compute. reflexivity. Qed.

Lemma do_update_set_NoDup : NoDup (map fst (do_update_set insert_query)).
Proof. apply (bool_decide_unpack _). vm_compute. reflexivity. Qed.

Lemma key_not_assigned (c : string) :
  In c (conflict_target insert_query) ->
  ~ In c (map fst (do_update_set insert_query)).
Proof.
  cbn [insert_query conflict_target do_update_set map fst In].
  intros [<-|[<-|[]]] H;
    repeat (destruct H as [H|H]; [discriminate H|]); exact H.
Qed.

(** X15. A record whose key is in no row of the table is inserted: the
    table gains one row, after the others, which are unchanged.  The new
    row has under each of the twenty-nine columns of the INSERT the
    value at the same position of the record, and nothing under
    [updated_at], which the statement leaves to the default of the
    table. *)
Theorem new_key_is_inserted (now : pyval) (params : list pyval)
    (t : list (gmap string pyval)) :
  length params = length (columns insert_query) ->
  has_key t params = false ->
  let new := Sql.proposed (columns insert_query) params in
  Sql.execute insert_query now params t = (t ++ [new])%list /\
  (forall i col, columns insert_query !! i = Some col -> new !! col = params !! i) /\
  new !! "updated_at" = None.
Proof.
  intros Hlen Hfree new. split; [|split].
  - apply upsert_no_conflict. intros r Hr. now apply (has_key_false t).
  - intros i col Hi. now apply proposed_lookup; [apply columns_NoDup| |].
  - apply proposed_lookup_None. cbn [insert_query columns In].
    intros H. repeat (destruct H as [H|H]; [discriminate H|]). exact H.
Qed.

(** X16. A record whose key is in a row of the table updates the first
    such row in place: the table keeps its rows and their order.  In the
    updated row each column assigned from [EXCLUDED] has the value of
    the record, [updated_at] is the server's [CURRENT_TIMESTAMP], and
    every column the SET list does not name, the key columns
    [stock_code] and [date] among them, is as it was. *)
Theorem conflict_updates_in_place (now : pyval) (params : list pyval)
    (old : gmap string pyval) (pre post : list (gmap string pyval)) :
  let new := Sql.proposed (columns insert_query) params in
  has_key pre params = false ->
  Sql.conflicts (conflict_target insert_query) new old = true ->
  exists updated,
    Sql.execute insert_query now params (pre ++ old :: post)
      = (pre ++ updated :: post)%list /\
    (forall c, In (c, EXCLUDED c) (do_update_set insert_query) ->
       updated !! c = Some (default PNone (new !! c))) /\
    updated !! "updated_at" = Some now /\
    (forall c, ~ In c (map fst (do_update_set insert_query)) ->
       updated !! c = old !! c) /\
    updated !! "stock_code" = old !! "stock_code" /\
    updated !! "date" = old !! "date".
Proof.
  intros new Hfree Hold.
  exists (Sql.update now new (do_update_set insert_query) old).
  split; [|split; [|split; [|split; [|split]]]].
  - apply upsert_conflict; [|exact Hold].
    intros r Hr. now apply (has_key_false pre).
  - intros c Hin.
    now rewrite (update_sets_assigned now new old _ c _ do_update_set_NoDup Hin).
  - apply (update_sets_assigned now new old _ "updated_at" CURRENT_TIMESTAMP
             do_update_set_NoDup).
    cbn [insert_query do_update_set In]. tauto.
  - intros c Hc. now apply update_keeps_unassigned.
  - apply update_keeps_unassigned, key_not_assigned. cbn. tauto.
  - apply update_keeps_unassigned, key_not_assigned. cbn. tauto.
Qed.

(** ** Running a batch again *)

Lemma pyval_eqb_refl : forall v, pyval_eqb v v = true.
Proof.
  fix IH 1. intros [| b | n | r | s | d | items | entries]; cbn [pyval_eqb].
  - reflexivity.
  - now destruct b.
  - apply Z.eqb_refl.
  - apply String.eqb_refl.
  - apply String.eqb_refl.
  - unfold date_eqb. now rewrite !Z.eqb_refl.
  - induction items as [|x items IHitems]; [reflexivity|].
    now rewrite IH, IHitems.
  - induction entries as [|[k x] entries IHentries]; [reflexivity|].
    now rewrite String.eqb_refl, IH, IHentries.
Qed.

(** The update of a row on conflict leaves its key as it was. *)
Lemma conflicts_update (now : pyval) (a b old : gmap string pyval) :
  Sql.conflicts (conflict_target insert_query) a
    (Sql.update now b (do_update_set insert_query) old)
  = Sql.conflicts (conflict_target insert_query) a old.
Proof.
  unfold Sql.conflicts. cbn [insert_query conflict_target forallb].
  rewrite !update_keeps_unassigned; [reflexivity| |];
    apply key_not_assigned; cbn; tauto.
Qed.

Lemma upsert_length (now : pyval) (new : gmap string pyval)
    (t : list (gmap string pyval)) :
  length (Sql.upsert insert_query now new t) =
    if existsb (Sql.conflicts (conflict_target insert_query) new) t
    then length t else S (length t).
Proof.
  induction t as [|old t IH]; [reflexivity|].
  cbn [Sql.upsert existsb].
  destruct (Sql.conflicts (conflict_target insert_query) new old);
    cbn [orb length]; [reflexivity|].
  rewrite IH. now destruct (existsb _ t).
Qed.

(** A row with a given key is still there after any statement. *)
Lemma upsert_keeps_keys (now : pyval) (a b : gmap string pyval)
    (t : list (gmap string pyval)) :
  existsb (Sql.conflicts (conflict_target insert_query) a) t = true ->
  existsb (Sql.conflicts (conflict_target insert_query) a)
    (Sql.upsert insert_query now b t) = true.
Proof.
  induction t as [|old t IH]; [discriminate|].
  cbn [Sql.upsert existsb]. intros H.
  destruct (Sql.conflicts (conflict_target insert_query) b old); cbn [existsb].
  - now rewrite conflicts_update.
  - apply orb_true_iff in H as [H|H]; [now rewrite H|].
    rewrite (IH H). apply orb_true_r.
Qed.

(** After the statement of a record, the table has a row with its key. *)
Lemma upsert_gives_key (now : pyval) (new : gmap string pyval)
    (t : list (gmap string pyval)) :
  Sql.conflicts (conflict_target insert_query) new new = true ->
  existsb (Sql.conflicts (conflict_target insert_query) new)
    (Sql.upsert insert_query now new t) = true.
Proof.
  intros Hself. induction t as [|old t IH]; cbn [Sql.upsert existsb].
  - now rewrite Hself.
  - destruct (Sql.conflicts (conflict_target insert_query) new old) eqn:Hc;
      cbn [existsb].
    + now rewrite conflicts_update, Hc.
    + now rewrite Hc, IH.
Qed.

Lemma keyed_conflicts_itself (params : list pyval) :
  keyed params = true ->
  Sql.conflicts (conflict_target insert_query)
    (Sql.proposed (columns insert_query) params)
    (Sql.proposed (columns insert_query) params) = true.
Proof.
  unfold keyed. destruct params as [|p0 [|p1 [|p2 rest]]]; try discriminate.
  cbn [lookup list_lookup]. intros H. apply andb_true_iff in H as [H1 H2].
  unfold Sql.conflicts. cbn [insert_query conflict_target columns forallb Sql.proposed].
  rewrite (lookup_insert_ne _ "id_stock" "stock_code") by discriminate.
  rewrite lookup_insert_eq.
  rewrite (lookup_insert_ne _ "id_stock" "date") by discriminate.
  rewrite (lookup_insert_ne _ "stock_code" "date") by discriminate.
  rewrite lookup_insert_eq.
  unfold Sql.key_eqb.
  destruct p1; try discriminate H1; destruct p2; try discriminate H2;
    now rewrite !pyval_eqb_refl.
Qed.

Lemma apply_batch_cons (w : world) (params : list pyval) (batch : list (list pyval))
    (t : list (gmap string pyval)) :
  apply_batch w (params :: batch) t =
    apply_batch w batch (Sql.execute insert_query (current_timestamp w) params t).
Proof. reflexivity. Qed.

Lemma apply_batch_keeps_keys (w : world) (batch : list (list pyval))
    (t : list (gmap string pyval)) (params : list pyval) :
  has_key t params = true -> has_key (apply_batch w batch t) params = true.
Proof.
  revert t. induction batch as [|p batch IH]; intros t H; [exact H|].
  rewrite apply_batch_cons. apply IH. now apply upsert_keeps_keys.
Qed.

Lemma apply_batch_gives_keys (w : world) (batch : list (list pyval))
    (t : list (gmap string pyval)) (params : list pyval) :
  forallb keyed batch = true ->
  In params batch ->
  has_key (apply_batch w batch t) params = true.
Proof.
  revert t. induction batch as [|p batch IH]; intros t Hk Hin; [destruct Hin|].
  cbn [forallb] in Hk. apply andb_true_iff in Hk as [Hp Hk].
  rewrite apply_batch_cons. destruct Hin as [->|Hin].
  - apply apply_batch_keeps_keys. apply upsert_gives_key.
    now apply keyed_conflicts_itself.
  - now apply IH.
Qed.

Lemma apply_batch_same_length (w : world) (batch : list (list pyval))
    (t : list (gmap string pyval)) :
  (forall params, In params batch -> has_key t params = true) ->
  length (apply_batch w batch t) = length t.
Proof.
  revert t. induction batch as [|p batch IH]; intros t Hall; [reflexivity|].
  rewrite apply_batch_cons, IH.
  - unfold Sql.execute. rewrite upsert_length.
    pose proof (Hall p (or_introl eq_refl)) as Hp. unfold has_key in Hp.
    now rewrite Hp.
  - intros params Hin. apply upsert_keeps_keys. apply Hall. now right.
Qed.

(** X17. Running a batch again adds no rows.  When every record of a
    batch has a stock code and a date that are not null, then, once the
    batch has been written, writing it again (at another time, with
    another timestamp) leaves the table with the same number of rows:
    every record finds the row of its key and updates it. *)
Theorem rerun_adds_no_rows (w1 w2 : world) (batch : list (list pyval))
    (t : list (gmap string pyval)) :
  forallb keyed batch = true ->
  length (apply_batch w2 batch (apply_batch w1 batch t))
    = length (apply_batch w1 batch t).
Proof.
  intros Hk. apply apply_batch_same_length.
  intros params Hin. now apply apply_batch_gives_keys.
Qed.

End Upsert.

(* ===================================================================== *)
(** * The theorems on sample invocations *)
(* ===================================================================== *)

Section Samples.

(** The fetch times out in a warm process. *)
Lemma timeout_gives_504_witness :
  lambda_handler (Example.with_http (Raises Example.timeout) (Example.world_of []))
    PNone PNone Example.warm =
    (Returns (error_response 504 "Request timeout - API took too long to respond"),
     {| conn := conn Example.warm; cursor := None;
        committed := committed Example.warm; pending := pending Example.warm;
        log := EvPrint "Request timeout - API took too long to respond"
                 :: EvHttpGet url headers 30 :: log Example.warm |}).
Proof.
  apply (timeout_gives_504
           (Example.with_http (Raises Example.timeout) (Example.world_of []))
           PNone PNone Example.warm Example.timeout); reflexivity.
Defined.

(** The feed arrives with an empty list. *)
Lemma no_data_gives_400_witness :
  lambda_handler (Example.world_of []) PNone PNone Example.cold =
    (Returns (error_response 400 "No data received from API"),
     {| conn := conn Example.cold; cursor := None;
        committed := committed Example.cold; pending := pending Example.cold;
        log := EvHttpGet url headers 30 :: log Example.cold |}).
Proof.
  apply (no_data_gives_400 (Example.world_of []) PNone PNone Example.cold
           (Example.ok_response (Example.payload [])) [("data", PList [])]);
    try reflexivity.
  right. reflexivity.
Defined.

(** A minimal item: every numeric field is 0, both nullable fields are
    null. *)
Lemma normalize_item_defaults_witness :
  exists params,
    normalize_item Example.bbri = Returns params /\
    (params !! 12%nat = Some (PInt 0)
     /\ columns insert_query !! 12%nat = Some "volume") /\
    (params !! 25%nat = Some PNone
     /\ columns insert_query !! 25%nat = Some "delisting_date").
Proof.
  eexists. split; [reflexivity|].
  destruct (normalize_item_defaults
              [ ("Date", PStr "2025-11-25T00:00:00"); ("StockCode", PStr "BBRI");
                ("StockName", PStr "Bank Rakyat Indonesia") ] _ eq_refl)
    as [Hnumeric Hnullable].
  split.
  - apply (Hnumeric "Volume" 12%nat "volume"); [|reflexivity].
    unfold numeric_fields. simpl. tauto.
  - apply (Hnullable "DelistingDate" 25%nat "delisting_date");
      [|left; reflexivity].
    unfold nullable_fields. simpl. tauto.
Defined.

(** [DB_PASSWORD] is not set when a first connection has to be opened. *)
Lemma missing_config_gives_unexpected_error_witness :
  let w := Example.with_environ (delete "DB_PASSWORD" Example.env)
             (Example.world_of [Example.bbca]) in
  exists (e : exn) (first : string),
    In first ["DB_HOST"; "DB_NAME"; "DB_USER"; "DB_PASSWORD"] /\
    environ w !! first = None /\
    e = Exn KeyError (Repr.repr_str first) /\
    connect_kwargs w = Raises e /\
    (forall st1, conn_unusable (conn st1) = true ->
       get_db_connection w st1 =
         (Raises e,
          set_conn None (emit (EvPrint ("Connection error: " +:+ exn_str e)) st1))) /\
    lambda_handler w PNone PNone Example.cold =
      (Returns (error_response 500 ("Unexpected error: " +:+ exn_str e)),
       {| conn := None; cursor := None; committed := committed Example.cold;
          pending := pending Example.cold;
          log := EvPrint ("Unexpected error: " +:+ exn_str e)
                   :: EvPrint ("Connection error: " +:+ exn_str e)
                   :: EvPrint ("Successfully fetched " +:+ pretty 1
                                 +:+ " records from IDX")
                   :: EvHttpGet url headers 30 :: log Example.cold |}).
Proof.
  intros w.
  apply (missing_config_gives_unexpected_error w PNone PNone Example.cold
           (Example.ok_response (Example.payload [Example.bbca]))
           (Example.payload [Example.bbca]) (PList [Example.bbca]) 1 "DB_PASSWORD");
    try reflexivity.
  simpl. tauto.
Defined.



(** The second item of the feed is a number, not a mapping. *)
Lemma other_exceptions_abort_witness :
  let w := Example.world_of [Example.bbri; PInt 3; Example.bbca] in
  exists (st' : state) (evs : list call),
    lambda_handler w PNone PNone Example.cold =
      (Returns (error_response 500
                  "Unexpected error: 'int' object is not subscriptable"), st') /\
    log st' = (evs ++ log Example.cold)%list /\
    In EvRollback evs /\
    (forall batch, ~ In (EvExecutemany batch) evs) /\
    ~ In EvCommit evs /\
    committed st' = committed Example.cold /\
    pending st' = None.
Proof.
  intros w.
  refine (proj2 (proj2
    (other_exceptions_abort w PNone PNone Example.cold
       (Example.ok_response (Example.payload [Example.bbri; PInt 3; Example.bbca]))
       (Example.payload [Example.bbri; PInt 3; Example.bbca])
       (PList [Example.bbri; PInt 3; Example.bbca]) 3
       [Example.bbri] (PInt 3) [Example.bbca]
       (Exn TypeError "'int' object is not subscriptable")
       eq_refl eq_refl eq_refl eq_refl eq_refl eq_refl eq_refl _ eq_refl eq_refl eq_refl))
    eq_refl).
  right. eexists. split; reflexivity.
Defined.

(** Three items, the second with a date in another format. *)
Lemma malformed_items_are_skipped_witness :
  let items := [Example.bbca; Example.bad_date; Example.bbri] in
  let w := Example.world_of items in
  length (records items) = 2%nat /\
  length (skip_log items) = 1%nat /\
  exists (st' : state) (evs : list call),
    lambda_handler w PNone PNone Example.cold =
      (Returns (success_response 2 (datetime_now w)), st') /\
    log st' = (evs ++ log Example.cold)%list /\
    (records items <> [] -> In (EvExecutemany (records items)) evs) /\
    In EvCommit evs /\
    ~ In EvRollback evs /\
    committed st' = apply_batch w (records items) (starting_table Example.cold) /\
    pending st' = None.
Proof.
  intros items w.
  destruct (malformed_items_are_skipped w PNone PNone Example.cold
              (Example.ok_response (Example.payload items))
              (Example.payload items) items
              eq_refl eq_refl eq_refl eq_refl)
    as (_ & Hlen & Hskip & _ & Hrun); [discriminate | reflexivity |].
  split; [exact Hlen|]. split; [exact Hskip|].
  apply Hrun;
    [right; eexists; split; reflexivity | reflexivity
    | intros j _; reflexivity | reflexivity].
Defined.

(** Against C2 as stated: a feed of two items, the first with a null
    [Date] (malformed: its date does not parse), the second well-formed,
    and a database that accepts everything.  The run is aborted: the
    answer is 500, not the success with [records_processed] 1, and nothing
    is written. *)
Lemma null_date_aborts_the_run :
  let items := [Example.null_date; Example.bbca] in
  let result := lambda_handler (Example.world_of items) PNone PNone Example.cold in
  malformed Example.null_date = true /\
  malformed Example.bbca = false /\
  (length items - length (List.filter malformed items) = 1)%nat /\
  fst result =
    Returns (error_response 500
               "Unexpected error: strptime() argument 1 must be str, not None") /\
  (forall timestamp, fst result <> Returns (success_response 1 timestamp)) /\
  committed (snd result) = [] /\
  (forall batch, ~ In (EvExecutemany batch) (log (snd result))).
Proof.
  cbv zeta. repeat split; try (vm_compute; reflexivity).
  - intros timestamp. vm_compute. discriminate.
  - intros batch. vm_compute. intros H.
    repeat (destruct H as [H|H]; [discriminate H|]). exact H.
Qed.

(** An exception no clause catches leaves the handler, the cursor
    closed behind it. *)
Example keyboard_interrupt_still_closes :
  let w := Example.with_commit_fails (Exn KeyboardInterrupt "")
             (Example.world_of [Example.bbca]) in
  let result := lambda_handler w PNone PNone Example.warm in
  fst result = Raises (Exn KeyboardInterrupt "") /\
  cursor (snd result) = Some (Cursor true) /\
  hd_error (log (snd result)) = Some EvCursorClose.
Proof. vm_compute. repeat split; reflexivity. Qed.

(** The server answers 404. *)
Lemma http_error_status_is_passed_on_witness :
  let w := Example.with_http (Returns Example.not_found) (Example.world_of []) in
  let r := Example.not_found in
  let code := resp_status_code r in
  let detail :=
    pretty code +:+ (if code <? 500 then " Client Error: " else " Server Error: ")
      +:+ resp_reason r +:+ " for url: " +:+ resp_url r in
  let error_msg := "HTTP Error " +:+ pretty code +:+ ": " +:+ detail in
  raise_for_status r = Raises (Exn (HTTPError code) detail) /\
  lambda_handler w PNone PNone Example.cold =
    (Returns (error_response code error_msg),
     {| conn := conn Example.cold; cursor := None;
        committed := committed Example.cold; pending := pending Example.cold;
        log := EvPrint error_msg :: EvHttpGet url headers 30 :: log Example.cold |}).
Proof.
  intros w r.
  apply (http_error_status_is_passed_on w PNone PNone Example.cold r);
    [reflexivity | cbn; lia].
Defined.

(** The connection to the server is refused. *)
Lemma request_failure_gives_500_witness :
  lambda_handler (Example.with_http (Raises Example.refused) (Example.world_of []))
    PNone PNone Example.warm =
    (Returns (error_response 500 ("Request failed: " +:+ exn_str Example.refused)),
     {| conn := conn Example.warm; cursor := None;
        committed := committed Example.warm; pending := pending Example.warm;
        log := EvPrint ("Request failed: " +:+ exn_str Example.refused)
                 :: EvHttpGet url headers 30 :: log Example.warm |}).
Proof.
  apply (request_failure_gives_500
           (Example.with_http (Raises Example.refused) (Example.world_of []))
           PNone PNone Example.warm Example.refused); reflexivity.
Defined.

(** The body is a bare list of items, not an object with a [data] key. *)
Lemma non_object_payload_gives_500_witness :
  let data := PList [Example.bbca] in
  let w := Example.with_http (Returns (Example.ok_response data))
             (Example.world_of []) in
  let error_msg := "Unexpected error: 'list' object has no attribute 'get'" in
  lambda_handler w PNone PNone Example.warm =
    (Returns (error_response 500 error_msg),
     failed_before_database error_msg Example.warm).
Proof.
  intros data w.
  apply (non_object_payload_gives_500 w PNone PNone Example.warm
           (Example.ok_response data) data); try reflexivity.
  intros entries. discriminate.
Defined.

(** The payload has a number under [data]. *)
Lemma unsized_data_gives_500_witness :
  let data := PDict [("data", PInt 5)] in
  let w := Example.with_http (Returns (Example.ok_response data))
             (Example.world_of []) in
  let e := Exn TypeError "object of type 'int' has no len()" in
  exn_str e = "object of type '" +:+ type_name (PInt 5) +:+ "' has no len()" /\
  lambda_handler w PNone PNone Example.cold =
    (Returns (error_response 500 ("Unexpected error: " +:+ exn_str e)),
     failed_before_database ("Unexpected error: " +:+ exn_str e) Example.cold).
Proof.
  intros data w e.
  apply (unsized_data_gives_500 w PNone PNone Example.cold
           (Example.ok_response data) data (PInt 5) e); reflexivity.
Defined.

(** The cursor cannot be opened on the connection at hand. *)
Lemma cursor_failure_rolls_back_witness :
  let w := Example.with_cursor_fails Example.no_cursor
             (Example.world_of [Example.bbca]) in
  exists st' : state,
    lambda_handler w PNone PNone Example.warm =
      (Returns (error_response 500
                  ("Database error: " +:+ exn_str Example.no_cursor)), st') /\
    log st' =
      (EvRollback :: EvPrint ("Database error: " +:+ exn_str Example.no_cursor)
         :: EvCursor :: connect_log w Example.warm ++
         [EvPrint ("Successfully fetched " +:+ pretty 1 +:+ " records from IDX");
          EvHttpGet url headers 30] ++ log Example.warm)%list /\
    cursor st' = None /\
    committed st' = committed Example.warm /\
    pending st' = None.
Proof.
  intros w.
  apply (cursor_failure_rolls_back w PNone PNone Example.warm
           (Example.ok_response (Example.payload [Example.bbca]))
           (Example.payload [Example.bbca]) (PList [Example.bbca]) 1
           Example.no_cursor); try reflexivity.
  left. reflexivity.
Defined.

(** Three items, the second left out, in a fresh process. *)
Lemma successful_run_trace_witness :
  let items := [Example.bbca; Example.bad_date; Example.bbri] in
  let w := Example.world_of items in
  let batch := records items in
  exists st' : state,
    lambda_handler w PNone PNone Example.cold =
      (Returns (success_response (Z.of_nat (length batch)) (datetime_now w)), st') /\
    log st' =
      (EvCursorClose
         :: EvPrint ("Successfully processed " +:+ pretty (Z.of_nat (length batch))
                       +:+ " stock records")
         :: (EvCommit :: match batch with [] => [] | _ :: _ => [EvExecutemany batch] end)
         ++ skip_log items
         ++ EvCursor :: connect_log w Example.cold
         ++ [EvPrint ("Successfully fetched " +:+ pretty (Z.of_nat (length items))
                        +:+ " records from IDX");
             EvHttpGet url headers 30]
         ++ log Example.cold)%list /\
    conn_unusable (conn st') = false /\
    cursor st' = Some (Cursor true) /\
    pending st' = None /\
    committed st' = apply_batch w batch (starting_table Example.cold).
Proof.
  intros items w.
  apply (successful_run_trace w PNone PNone Example.cold
           (Example.ok_response (Example.payload items))
           (Example.payload items) items);
    [ reflexivity | reflexivity | reflexivity | reflexivity | discriminate
    | reflexivity | right; eexists; split; reflexivity | reflexivity
    | intros j _; reflexivity | reflexivity ].
Defined.

(** A bare list for a body, in a process whose connection has been
    closed by the server. *)
Lemma rollback_failure_escapes_witness :
  let data := PList [Example.bbca] in
  let w := Example.with_http (Returns (Example.ok_response data))
             (Example.world_of []) in
  let error_msg := "Unexpected error: 'list' object has no attribute 'get'" in
  lambda_handler w PNone PNone Example.stale =
    (Raises (Exn InterfaceError "connection already closed"),
     {| conn := conn Example.stale; cursor := None;
        committed := committed Example.stale; pending := pending Example.stale;
        log := EvRollback :: EvPrint error_msg
                 :: EvHttpGet url headers 30 :: log Example.stale |}).
Proof.
  intros data w.
  apply (rollback_failure_escapes w PNone PNone Example.stale
           (Example.ok_response data) data (Connection true)); try reflexivity.
  intros entries. discriminate.
Defined.

(** A second call, after the environment has been emptied. *)
Lemma connection_is_cached_witness :
  let w1 := Example.world_of [] in
  let w2 := Example.with_environ ∅ (Example.world_of []) in
  let st1 := snd (get_db_connection w1 Example.cold) in
  get_db_connection w2 st1 = (Returns (Some (Connection false)), st1).
Proof.
  intros w1 w2 st1.
  apply (connection_is_cached w1 w2 Example.cold st1 (Some (Connection false))).
  reflexivity.
Defined.

(** A call after the server has refused a first attempt. *)
Lemma failed_connection_is_retried_witness :
  let w1 := Example.with_connect_fails Example.server_gone (Example.world_of []) in
  let w2 := Example.world_of [] in
  let st1 := snd (get_db_connection w1 Example.cold) in
  get_db_connection w2 st1 =
    (Returns (Some (Connection false)),
     set_conn (Some (Connection false))
       (set_pending None (emit (EvConnect Example.kwargs) st1))).
Proof.
  intros w1 w2 st1.
  apply (failed_connection_is_retried w1 w2 Example.cold st1 Example.server_gone
           Example.kwargs); reflexivity.
Defined.

(** An item with a [null] volume and the number 0 for remarks: the
    volume stays [None], the remarks become [None]. *)
Lemma present_values_pass_through_witness :
  exists params,
    normalize_item Example.null_code = Returns params /\
    params !! 12%nat = Some PNone /\
    params !! 4%nat = Some (if truthy (PInt 0) then PInt 0 else PNone).
Proof.
  eexists. split; [reflexivity|].
  destruct (present_values_pass_through
              [ ("Date", PStr "2025-11-25T00:00:00"); ("StockCode", PNone);
                ("StockName", PStr "Unnamed"); ("Remarks", PInt 0);
                ("Volume", PNone) ] _ eq_refl)
    as [Hnumeric Hnullable].
  split.
  - apply (Hnumeric "Volume" 12%nat "volume"); [|reflexivity].
    unfold numeric_fields. simpl. tauto.
  - apply (Hnullable "Remarks" 4%nat "remarks"); [|reflexivity].
    unfold nullable_fields. simpl. tauto.
Defined.

(** The record of the sample item BBCA. *)
Lemma record_is_consistent_witness :
  length Example.bbca_record = length (columns insert_query) /\
  exists (stock_code stock_name : pyval) (date_obj : date),
    py_getitem Example.bbca "StockCode" = Returns stock_code /\
    py_getitem Example.bbca "StockName" = Returns stock_name /\
    valid_date date_obj = true /\
    Example.bbca_record !! 0%nat = Some (PStr (generate_stock_id stock_code date_obj)) /\
    Example.bbca_record !! 1%nat = Some stock_code /\
    Example.bbca_record !! 2%nat = Some (PDate date_obj) /\
    Example.bbca_record !! 3%nat = Some stock_name.
Proof.
  apply (record_is_consistent Example.bbca Example.bbca_record). reflexivity.
Defined.

(** The sample item whose stock code is [null]. *)
Lemma null_stock_code_is_kept_witness :
  exists params,
    normalize_item Example.null_code = Returns params /\
    escapes Example.null_code = false /\
    params !! 0%nat
      = Some (PStr ("None_" +:+ strftime_Ymd (dt_date (Datetime Example.trade_date 0 0 0)))) /\
    params !! 1%nat = Some PNone.
Proof.
  apply (null_stock_code_is_kept
           [ ("Date", PStr "2025-11-25T00:00:00"); ("StockCode", PNone);
             ("StockName", PStr "Unnamed"); ("Remarks", PInt 0);
             ("Volume", PNone) ]
           (PStr "2025-11-25T00:00:00") (PStr "Unnamed")
           (Datetime Example.trade_date 0 0 0)); reflexivity.
Defined.

(** The trade date written and read back. *)
Lemma id_stock_repeats_feed_date_witness :
  String.length (strftime_Ymd Example.trade_date) = 10%nat /\
  exists params,
    normalize_item Example.bbri = Returns params /\
    params !! 0%nat = Some (PStr ("BBRI" +:+ "_" +:+ strftime_Ymd Example.trade_date)) /\
    params !! 2%nat = Some (PDate Example.trade_date).
Proof.
  apply (id_stock_repeats_feed_date
           [ ("Date", PStr "2025-11-25T00:00:00"); ("StockCode", PStr "BBRI");
             ("StockName", PStr "Bank Rakyat Indonesia") ]
           Example.trade_date "BBRI" (PStr "Bank Rakyat Indonesia"));
    try reflexivity.
  cbn. lia.
Defined.

(** The record of BBRI written to a table that has the row of BBCA. *)
Lemma new_key_is_inserted_witness :
  let now := PStr "2025-11-25 17:00:00" in
  let new := Sql.proposed (columns insert_query) Example.bbri_record in
  Sql.execute insert_query now Example.bbri_record [Example.stored]
    = ([Example.stored] ++ [new])%list /\
  (forall i col, columns insert_query !! i = Some col ->
     new !! col = Example.bbri_record !! i) /\
  new !! "updated_at" = None.
Proof.
  intros now.
  apply (new_key_is_inserted now Example.bbri_record [Example.stored]);
    vm_compute; reflexivity.
Defined.

(** The record of BBCA written to a table that has the row of BBCA. *)
Lemma conflict_updates_in_place_witness :
  let now := PStr "2025-11-25 17:00:00" in
  let new := Sql.proposed (columns insert_query) Example.bbca_record in
  exists updated,
    Sql.execute insert_query now Example.bbca_record ([] ++ Example.stored :: [])
      = ([] ++ updated :: [])%list /\
    (forall c, In (c, EXCLUDED c) (do_update_set insert_query) ->
       updated !! c = Some (default PNone (new !! c))) /\
    updated !! "updated_at" = Some now /\
    (forall c, ~ In c (map fst (do_update_set insert_query)) ->
       updated !! c = Example.stored !! c) /\
    updated !! "stock_code" = Example.stored !! "stock_code" /\
    updated !! "date" = Example.stored !! "date".
Proof.
  intros now.
  apply (conflict_updates_in_place now Example.bbca_record Example.stored [] []);
    vm_compute; reflexivity.
Defined.

(** The two sample records written twice to an empty table. *)
Lemma rerun_adds_no_rows_witness :
  let w := Example.world_of [] in
  let batch := [Example.bbca_record; Example.bbri_record] in
  length (apply_batch w batch (apply_batch w batch []))
    = length (apply_batch w batch []).
Proof.
  intros w batch. apply (rerun_adds_no_rows w w batch []).
  vm_compute. reflexivity.
Defined.

(** An invocation in a warm process whose environment is empty. *)
Lemma usable_connection_is_reused_witness :
  let w := Example.with_environ ∅ (Example.world_of [Example.bbca]) in
  (conn (snd (lambda_handler w PNone PNone Example.warm)) = conn Example.warm
   \/ (connection_lost w = true
       /\ conn (snd (lambda_handler w PNone PNone Example.warm))
          = Some (Connection true))) /\
  exists evs : list call,
    log (snd (lambda_handler w PNone PNone Example.warm))
      = (evs ++ log Example.warm)%list /\
    forall kwargs, ~ In (EvConnect kwargs) evs.
Proof.
  intros w. apply (usable_connection_is_reused w PNone PNone Example.warm).
  reflexivity.
Defined.

End Samples.
